(** * LearnFlow recommendation and search engine: shallow embedding

    The development follows the Python sources of the backend:
    - [services/recommendation_service.py] (module [Rec]),
    - [services/ml_service.py]             (module [ML]),
    - [services/search_service.py]         (module [Search]),
    - [routes/tasks.py]                    (module [Tasks]).

    Conventions.
    - Python [int] limits are [Z].  A Python [float] (rating, similarity,
      score) is the rational [Q] it stands for; float arithmetic is the exact
      operation followed by the rounding of IEEE 754 binary64 (module [F64]),
      so a computed score is the value Python computes, not the exact sum.
    - A MongoDB collection is the list of its documents in natural order; a
      query is a [filter], [order_by] is a stable sort, [limit n] is [firstn].
    - A Python exception that the source catches is an [option] ([None] is
      the raised exception) handled where the source has its [except].
    - The sentence-transformer model and scikit-learn's cosine are external:
      they are Section variables, instantiated for the concrete examples. *)

From Stdlib Require Import List ZArith QArith Qminmax Qabs String Ascii Bool Lia.
From Stdlib Require Import DecimalString Qround.
From Stdlib Require Import Sorted Permutation.
Import ListNotations.

Local Open Scope string_scope.
Local Open Scope list_scope.
Local Open Scope Z_scope.

(** ** Python list primitives *)

Module Py.

Section Lists.
Context {A : Type}.

(** [l[:k]]: a negative bound counts from the end of the list. *)
Definition slice_to (k : Z) (l : list A) : list A :=
  if k <? 0
  then firstn (Z.to_nat (Z.of_nat (List.length l) + k)) l
  else firstn (Z.to_nat k) l.

(** [sorted(l, key=..., reverse=True)] and [l.sort(key=..., reverse=True)]:
    descending and stable.  [gt y x] says that [y] sorts strictly before
    [x]; an element is inserted in front of the first element that does
    not sort strictly before it, so equal elements keep their order. *)
Fixpoint insert_desc (gt : A -> A -> bool) (x : A) (l : list A) : list A :=
  match l with
  | [] => [x]
  | y :: l' => if gt y x then y :: insert_desc gt x l' else x :: y :: l'
  end.

Definition sort_desc (gt : A -> A -> bool) (l : list A) : list A :=
  fold_right (insert_desc gt) [] l.
End Lists.

(** [s in l] for a list of strings. *)
Definition mem_str (s : string) (l : list string) : bool :=
  existsb (String.eqb s) l.

(** [str(n)] for an integer. *)
Definition str_of_Z (n : Z) : string :=
  NilZero.string_of_int (Z.to_int n).

(** Strict comparison of rational keys, as a boolean. *)
Definition Qltb (a b : Q) : bool := negb (Qle_bool b a).

(** [sorted(l, key=k, reverse=True)] for a numeric key. *)
Definition sort_key_desc {A : Type} (key : A -> Q) : list A -> list A :=
  sort_desc (fun y x => Qltb (key x) (key y)).

(** Descending order for a numeric key: [a] may come before [b]. *)
Definition desc {A : Type} (key : A -> Q) (a b : A) : Prop :=
  (key b <= key a)%Q.

(** [str.lower()].  A string is its sequence of bytes, and only the ASCII
    letters are folded: for text outside ASCII Python folds more, so the
    statements that depend on [lower] speak of ASCII text. *)
Definition lower_ascii (c : ascii) : ascii :=
  let n := nat_of_ascii c in
  if (Nat.leb 65 n && Nat.leb n 90)%bool then ascii_of_nat (n + 32) else c.

Fixpoint lower (s : string) : string :=
  match s with
  | EmptyString => EmptyString
  | String c s' => String (lower_ascii c) (lower s')
  end.

(** [needle in haystack] for strings. *)
Fixpoint contains (needle hay : string) : bool :=
  String.prefix needle hay ||
  match hay with
  | EmptyString => false
  | String _ hay' => contains needle hay'
  end.

(** [str.split()]: split on runs of ASCII whitespace, dropping empty
    pieces. *)
Definition is_space (c : ascii) : bool :=
  let n := nat_of_ascii c in
  (Nat.eqb n 32 || (Nat.leb 9 n && Nat.leb n 13))%bool.

Fixpoint split_ws (acc : string) (s : string) : list string :=
  match s with
  | EmptyString => if String.eqb acc "" then [] else [acc]
  | String c s' =>
      if is_space c
      then (if String.eqb acc "" then split_ws "" s'
            else acc :: split_ws "" s')
      else split_ws (String.append acc (String c "")) s'
  end.

Definition split (s : string) : list string := split_ws "" s.

(** [len(set(a) & set(b))]: the number of distinct strings in both. *)
Definition inter_size (a b : list string) : Z :=
  Z.of_nat (List.length (nodup string_dec (filter (fun t => mem_str t b) a))).

End Py.

(** ** Python floats *)

Module F64.

(** The integer nearest to [q], ties to the even one. *)
Definition rint (q : Q) : Z :=
  let f := Qfloor q in
  match Qcompare (q - inject_Z f) (1 # 2) with
  | Lt => f
  | Gt => f + 1
  | Eq => if Z.even f then f else f + 1
  end.

(** [2^e] for an integer exponent of either sign. *)
Definition pow2 (e : Z) : Q :=
  if 0 <=? e then inject_Z (2 ^ e) else (1 # Z.to_pos (2 ^ (- e))).

(** [floor (log2 q)] for a positive [q]. *)
Definition ilog2 (q : Q) : Z :=
  let e := Z.log2 (Qnum q) - Z.log2 (Zpos (Qden q)) in
  if Qle_bool (pow2 e) q then e else e - 1.

(** The binary64 number nearest to [q], ties to the even significand: 53
    significant bits, and no exponent below that of the subnormal numbers.
    The quantities of this development stay far below the overflow
    threshold. *)
Definition round (q : Q) : Q :=
  let q := Qred q in
  if Qeq_bool q 0 then 0%Q
  else
    let a := Qabs q in
    let s := Z.max (ilog2 a - 52) (-1074) in
    let r := Qred (inject_Z (rint (a / pow2 s)) * pow2 s) in
    if Qle_bool 0 q then r else Qred (- r).

(** [a + b], [a * b] and [a / b] on floats; an [int] operand enters with
    its exact value. *)
Definition add (a b : Q) : Q := round (a + b).
Definition mul (a b : Q) : Q := round (a * b).
Definition div (a b : Q) : Q := round (a / b).

(** The float literals of the sources. *)
Definition lit_0_1 : Q := round (1 # 10).
Definition lit_0_3 : Q := round (3 # 10).

End F64.

(** ** Documents *)

Inductive Level := Beginner | Intermediate | Advanced.

Definition Level_eqb (a b : Level) : bool :=
  match a, b with
  | Beginner, Beginner | Intermediate, Intermediate | Advanced, Advanced => true
  | _, _ => false
  end.

Definition opt_level_eqb (a b : option Level) : bool :=
  match a, b with
  | Some x, Some y => Level_eqb x y
  | None, None => true
  | _, _ => false
  end.

Definition vec := list Q.

(** [models/resource.py].  [r_embedding = None] is a document without the
    [embedding] field. *)
Record Resource := {
  r_id : string;
  r_title : string;
  r_description : string;
  r_type : string;
  r_difficulty : Level;
  r_tags : list string;
  r_category : option string;
  r_likes : Z;
  r_views : Z;
  r_rating : Q;
  r_embedding : option vec;
  r_created_at : Z
}.

(** [models/user.py].  [u_interactions] is the [interactions] dict: its keys
    are resource ids. *)
Record User := {
  u_id : string;
  u_interests : list string;
  u_skill_level : option Level;
  u_interactions : list (string * string)
}.

(** [models/feedback.py], [Feedback]: references are kept as ids. *)
Record Feedback := {
  fb_user : string;
  fb_resource : string;
  fb_helpful : option bool;
  fb_created_at : Z
}.

(** [models/feedback.py], [TaskFeedback]. *)
Record TaskFeedback := {
  tf_user : string;
  tf_task_id : string;
  tf_helpful : bool;
  tf_difficulty_rating : option Z
}.

(** [models/notification.py], [Task]. *)
Record Task := {
  t_task_id : string;
  t_title : string;
  t_tags : option string;
  t_category : option string;
  t_skill_level : option Level;
  t_embedding : option vec;
  t_is_active : bool
}.

(** The document store, one list per collection. *)
Record DB := {
  resources : list Resource;
  users : list User;
  feedbacks : list Feedback;
  tasks : list Task;
  task_feedbacks : list TaskFeedback
}.

(** [ListField] access: a missing list field reads as the empty list. *)
Definition embedding_of (e : option vec) : vec :=
  match e with Some v => v | None => [] end.

(** Python truthiness of a list. *)
Definition truthy {A : Type} (l : list A) : bool :=
  match l with [] => false | _ => true end.

(** ** [services/recommendation_service.py] *)

Module Rec.

(** A recommendation dict: [resource.to_dict()] with the two added keys. *)
Record ScoredRec := {
  rec_item : Resource;
  recommendation_score : Q;
  recommendation_reason : string
}.

Definition rec_id (r : ScoredRec) : string := r_id (rec_item r).

(** The [filters] dict; an absent key reads as the empty list or string. *)
Record Filters := {
  f_type : list string;
  f_difficulty : list Level;
  f_topics : list string;
  f_sortBy : string
}.

(** The [query] dict, passed to [Resource.objects] as keyword arguments. *)
Record Query := {
  type__in : option (list string);
  difficulty__in : option (list Level);
  tags__in : option (list string);
  difficulty : option Level;
  id__nin : option (list string)
}.

Definition empty_query : Query :=
  {| type__in := None; difficulty__in := None; tags__in := None;
     difficulty := None; id__nin := None |}.

Definition opt_holds {A : Type} (c : option A) (p : A -> bool) : bool :=
  match c with None => true | Some a => p a end.

Definition matches (q : Query) (r : Resource) : bool :=
  opt_holds (type__in q) (Py.mem_str (r_type r)) &&
  opt_holds (difficulty__in q) (existsb (Level_eqb (r_difficulty r))) &&
  opt_holds (tags__in q) (fun ts => existsb (fun t => Py.mem_str t ts) (r_tags r)) &&
  opt_holds (difficulty q) (Level_eqb (r_difficulty r)) &&
  opt_holds (id__nin q) (fun ids => negb (Py.mem_str (r_id r) ids)).

(** [order_by('-rating', '-likes')]. *)
Definition by_rating_likes (y x : Resource) : bool :=
  Py.Qltb (r_rating x) (r_rating y) ||
  (Qeq_bool (r_rating x) (r_rating y) && (r_likes x <? r_likes y)).

(** [order_by('-created_at', '-likes')]. *)
Definition by_created_likes (y x : Resource) : bool :=
  (r_created_at x <? r_created_at y) ||
  ((r_created_at x =? r_created_at y) && (r_likes x <? r_likes y)).

Definition find_resource (db : DB) (id : string) : option Resource :=
  find (fun r => String.eqb (r_id r) id) (resources db).

(** The query built by [get_personalized_recommendations], lines 25-46. *)
Definition build_query (user : User) (filters : option Filters) : Query :=
  let user_interests := u_interests user in
  let user_skill_level :=
    match u_skill_level user with Some l => l | None => Beginner end in
  let interacted_resource_ids := map fst (u_interactions user) in
  let has (p : Filters -> bool) :=
    match filters with Some f => p f | None => false end in
  let q1 :=
    match filters with
    | Some f =>
        {| type__in := if truthy (f_type f) then Some (f_type f) else None;
           difficulty__in :=
             if truthy (f_difficulty f) then Some (f_difficulty f) else None;
           tags__in := if truthy (f_topics f) then Some (f_topics f) else None;
           difficulty := None; id__nin := None |}
    | None => empty_query
    end in
  let q2 :=
    if has (fun f => truthy (f_difficulty f)) then q1
    else {| type__in := type__in q1; difficulty__in := difficulty__in q1;
            tags__in := tags__in q1; difficulty := Some user_skill_level;
            id__nin := id__nin q1 |} in
  let q3 :=
    if truthy user_interests && negb (has (fun f => truthy (f_topics f)))
    then {| type__in := type__in q2; difficulty__in := difficulty__in q2;
            tags__in := Some user_interests; difficulty := difficulty q2;
            id__nin := id__nin q2 |}
    else q2 in
  if truthy interacted_resource_ids
  then {| type__in := type__in q3; difficulty__in := difficulty__in q3;
          tags__in := tags__in q3; difficulty := difficulty q3;
          id__nin := Some interacted_resource_ids |}
  else q3.

(** [resource_scores[resource_id] += 1] on an insertion-ordered dict. *)
Fixpoint bump (k : string) (d : list (string * Z)) : list (string * Z) :=
  match d with
  | [] => [(k, 1)]
  | (k', n) :: d' =>
      if String.eqb k k' then (k', n + 1) :: d' else (k', n) :: bump k d'
  end.

Definition count_scores (liked : list Feedback) : list (string * Z) :=
  fold_left (fun d f => bump (fb_resource f) d) liked [].

(** [User.objects(interests__in=..., skill_level=...).limit(50)]. *)
Definition similar_users (db : DB) (user : User) : list User :=
  firstn 50
    (filter (fun u =>
               existsb (fun i => Py.mem_str i (u_interests user)) (u_interests u)
               && opt_level_eqb (u_skill_level u) (u_skill_level user))
            (users db)).

Definition similar_user_ids (db : DB) (user : User) : list string :=
  filter (fun id => negb (String.eqb id (u_id user)))
         (map u_id (similar_users db user)).

(** [Feedback.objects(user__in=ids, helpful=True).order_by('-created_at')]. *)
Definition liked_feedback (db : DB) (ids : list string) : list Feedback :=
  Py.sort_desc (fun y x => fb_created_at x <? fb_created_at y)
    (filter (fun f => Py.mem_str (fb_user f) ids &&
                      match fb_helpful f with Some true => true | _ => false end)
            (feedbacks db)).

Definition collab_reason : string := "Users with similar interests liked this".

(** [_apply_collaborative_filtering]; the [resources] argument is accepted
    and, as in the source, not consulted.  [feedback.resource] dereferences
    the stored reference: for a feedback whose resource is gone it raises,
    and the [except] clause returns []. *)
Definition _apply_collaborative_filtering
    (db : DB) (user : User) (resources : list Resource) (limit : Z)
  : list ScoredRec :=
  let ids := similar_user_ids db user in
  if negb (truthy ids) then []
  else if negb (forallb (fun feedback =>
                           match find_resource db (fb_resource feedback) with
                           | Some _ => true
                           | None => false
                           end)
                        (liked_feedback db ids))
  then []
  else
    let resource_scores := count_scores (liked_feedback db ids) in
    let sorted_resources :=
      Py.sort_key_desc (fun x => inject_Z (snd x)) resource_scores in
    flat_map
      (fun '(resource_id, score) =>
         match find_resource db resource_id with
         | Some resource =>
             [{| rec_item := resource;
                 recommendation_score := inject_Z score;
                 recommendation_reason := collab_reason |}]
         | None => []
         end)
      (Py.slice_to limit sorted_resources).

(** The score and reasons computed by one iteration of the loop of
    [_apply_content_based_filtering], lines 136-152. *)
Definition content_score (user : User) (resource : Resource) : Q * list string :=
  let score := 0%Q in
  let reasons := [] in
  let interest_overlap := Py.inter_size (r_tags resource) (u_interests user) in
  let '(score, reasons) :=
    if 0 <? interest_overlap
    then ((score + inject_Z (interest_overlap * 2))%Q,
          reasons ++ ["Matches " ++ Py.str_of_Z interest_overlap
                                 ++ " of your interests"]%string)
    else (score, reasons) in
  let '(score, reasons) :=
    if opt_level_eqb (Some (r_difficulty resource)) (u_skill_level user)
    then ((score + 3)%Q, reasons ++ ["Matches your skill level"%string])
    else (score, reasons) in
  let score := F64.add score (r_rating resource) in
  let score :=
    F64.add score (Qmin (F64.div (inject_Z (r_likes resource)) 10) 2) in
  (score, reasons).

(** ['; '.join(reasons) or 'Popular content']. *)
Definition join_reasons (reasons : list string) : string :=
  match reasons with
  | [] => "Popular content"
  | r :: rs => fold_left (fun acc x => (acc ++ "; " ++ x)%string) rs r
  end.

(** [_apply_content_based_filtering].  [resources] is a query set: pymongo
    rejects a negative slice bound, and the [except] clause returns []. *)
Definition _apply_content_based_filtering
    (user : User) (resources : list Resource) (limit : Z) : list ScoredRec :=
  if limit * 2 <? 0 then []
  else
    let recommendations :=
      flat_map
        (fun resource =>
           let '(score, reasons) := content_score user resource in
           if Py.Qltb 0 score
           then [{| rec_item := resource;
                    recommendation_score := score;
                    recommendation_reason := join_reasons reasons |}]
           else [])
        (firstn (Z.to_nat (limit * 2)) resources) in
    Py.slice_to limit (Py.sort_key_desc recommendation_score recommendations).

(** [_sort_recommendations]. *)
Definition _sort_recommendations (recommendations : list ScoredRec)
    (sort_by : string) : list ScoredRec :=
  if String.eqb sort_by "rating"
  then Py.sort_key_desc (fun x => r_rating (rec_item x)) recommendations
  else if String.eqb sort_by "likes"
  then Py.sort_key_desc (fun x => inject_Z (r_likes (rec_item x))) recommendations
  else if String.eqb sort_by "newest"
  then Py.sort_key_desc (fun x => inject_Z (r_created_at (rec_item x)))
                        recommendations
  else if String.eqb sort_by "relevance"
  then Py.sort_key_desc recommendation_score recommendations
  else recommendations.

Definition len {A : Type} (l : list A) : Z := Z.of_nat (List.length l).

(** [get_personalized_recommendations]. *)
Definition get_personalized_recommendations
    (db : DB) (user : User) (limit : Z) (filters : option Filters)
  : list ScoredRec :=
  let query := build_query user filters in
  let resources :=
    Py.sort_desc by_rating_likes (filter (matches query) (resources db)) in
  let recommendations :=
    _apply_collaborative_filtering db user resources limit in
  let recommendations :=
    if len recommendations <? limit
    then recommendations ++
         _apply_content_based_filtering user resources
           (limit - len recommendations)
    else recommendations in
  let recommendations :=
    match filters with
    | Some f =>
        if negb (String.eqb (f_sortBy f) "")
        then _sort_recommendations recommendations (f_sortBy f)
        else recommendations
    | None => recommendations
    end in
  Py.slice_to limit recommendations.

(** The two "skip if already added" loops of
    [get_cold_start_recommendations]: [added] is [added_count], [cap] the
    bound tested before each candidate. *)
Fixpoint add_new (reason : string) (score : Q) (cap added : Z)
    (courses : list Resource) (recommendations : list ScoredRec)
  : list ScoredRec :=
  match courses with
  | [] => recommendations
  | course :: rest =>
      if cap <=? added then recommendations
      else if existsb (fun r => String.eqb (rec_id r) (r_id course))
                      recommendations
      then add_new reason score cap added rest recommendations
      else add_new reason score cap (added + 1) rest
             (recommendations ++
              [{| rec_item := course; recommendation_score := score;
                  recommendation_reason := reason |}])
  end.

(** [get_cold_start_recommendations]. *)
Definition get_cold_start_recommendations (db : DB) (user : User) (limit : Z)
  : list ScoredRec :=
  let beginner_limit := Z.max 1 (limit / 3) in
  let beginner_courses :=
    firstn (Z.to_nat beginner_limit)
      (Py.sort_desc by_rating_likes
         (filter (fun r => Level_eqb (r_difficulty r) Beginner) (resources db))) in
  let recommendations :=
    map (fun course =>
           {| rec_item := course; recommendation_score := 5;
              recommendation_reason := "Great for beginners" |})
        beginner_courses in
  let popular_limit := Z.max 1 (limit / 3) in
  let popular_courses :=
    firstn (Z.to_nat (popular_limit * 2))
      (Py.sort_desc by_rating_likes (resources db)) in
  let recommendations :=
    add_new "Highly rated by learners" 4 popular_limit 0
      popular_courses recommendations in
  let remaining := limit - len recommendations in
  let recommendations :=
    if 0 <? remaining
    then
      let recent_courses :=
        firstn (Z.to_nat (remaining * 2))
          (Py.sort_desc by_created_likes (resources db)) in
      add_new "Trending content" 3 remaining 0 recent_courses recommendations
    else recommendations in
  Py.slice_to limit recommendations.

End Rec.

(** ** [services/ml_service.py] *)

Module ML.

(** The sentence-transformer model: [encode] of one text. *)
Definition SentenceModel := string -> vec.

Section Cosine.
(** The value scikit-learn's [cosine_similarity] returns for two rows of
    the same width. *)
Variable cos : vec -> vec -> Q.

(** [cosine_similarity(a.reshape(1, -1), b.reshape(1, -1))[0][0]]: rows of
    different widths, or without features, raise [ValueError]. *)
Definition cosine_similarity (a b : vec) : option Q :=
  if (Nat.eqb (List.length a) (List.length b)
      && negb (Nat.eqb (List.length a) 0))%bool
  then Some (cos a b) else None.

(** The loop of [semantic_search], lines 49-57: [None] when an iteration
    raises. *)
Fixpoint similarities (query_embedding : vec)
    (resource_embeddings : list Resource) : option (list (Resource * Q)) :=
  match resource_embeddings with
  | [] => Some []
  | resource :: rest =>
      match r_embedding resource with
      | Some ((_ :: _) as embedding) =>
          match cosine_similarity query_embedding embedding with
          | Some similarity =>
              match similarities query_embedding rest with
              | Some sims => Some ((resource, similarity) :: sims)
              | None => None
              end
          | None => None
          end
      | _ => similarities query_embedding rest
      end
  end.

(** [MLService.semantic_search]; [sentence_model = None] is the model that
    failed to initialise. *)
Definition semantic_search (sentence_model : option SentenceModel)
    (query : string) (resource_embeddings : list Resource) (top_k : Z)
  : list (Resource * Q) :=
  match sentence_model with
  | None => []
  | Some encode =>
      if negb (truthy resource_embeddings) then []
      else
        let query_embedding := encode query in
        match similarities query_embedding resource_embeddings with
        | Some sims => Py.slice_to top_k (Py.sort_key_desc snd sims)
        | None => []
        end
  end.
End Cosine.

End ML.

(** ** [services/search_service.py] *)

Module SearchSvc.

(** A result dict: a resource with [similarity_score] (semantic search) or
    with [search_score] and [search_reason] (keyword search). *)
Inductive Hit :=
| SemanticHit (resource : Resource) (similarity_score : Q)
| KeywordHit (resource : Resource) (search_score : Z) (search_reason : string).

Definition hit_resource (h : Hit) : Resource :=
  match h with SemanticHit r _ => r | KeywordHit r _ _ => r end.

(** [x['search_score']]. *)
Definition search_score_of (h : Hit) : Z :=
  match h with SemanticHit _ _ => 0 | KeywordHit _ score _ => score end.

Definition count_if {A : Type} (p : A -> bool) (l : list A) : Z :=
  Z.of_nat (List.length (filter p l)).

(** The score and reasons of one resource in [keyword_search],
    lines 57-84. *)
Definition keyword_score (query : string) (resource : Resource)
  : Z * list string :=
  let query_lower := Py.lower query in
  let keywords := Py.split query_lower in
  let add (n weight : Z) (label : string) (acc : Z * list string) :=
    if 0 <? n
    then (fst acc + n * weight,
          snd acc ++ [(label ++ Py.str_of_Z n)%string])
    else acc in
  let title_lower := Py.lower (r_title resource) in
  let title_matches :=
    count_if (fun keyword => Py.contains keyword title_lower) keywords in
  let desc_lower := Py.lower (r_description resource) in
  let desc_matches :=
    count_if (fun keyword => Py.contains keyword desc_lower) keywords in
  let tags_lower := map Py.lower (r_tags resource) in
  let tag_matches :=
    count_if (fun kt => Py.contains (fst kt) (snd kt))
             (list_prod keywords tags_lower) in
  let acc := add title_matches 3 "Title matches: " (0, []) in
  let acc := add desc_matches 2 "Description matches: " acc in
  let acc := add tag_matches 2 "Tag matches: " acc in
  match r_category resource with
  | Some ((String _ _) as category) =>
      if Py.contains query_lower (Py.lower category)
      then (fst acc + 2, snd acc ++ ["Category match"%string])
      else acc
  | _ => acc
  end.

Definition join (reasons : list string) : string :=
  match reasons with
  | [] => ""
  | r :: rs => fold_left (fun acc x => (acc ++ "; " ++ x)%string) rs r
  end.

(** [SearchService.keyword_search]. *)
Definition keyword_search (db : DB) (query : string) (limit : Z) : list Hit :=
  let scored_resources :=
    flat_map
      (fun resource =>
         let '(score, reasons) := keyword_score query resource in
         if 0 <? score then [KeywordHit resource score (join reasons)] else [])
      (resources db) in
  Py.slice_to limit
    (Py.sort_desc (fun y x => search_score_of x <? search_score_of y)
                  scored_resources).

Section Cosine.
Variable cos : vec -> vec -> Q.

(** [SearchService.semantic_search]. *)
Definition semantic_search (sentence_model : option ML.SentenceModel)
    (db : DB) (query : string) (limit : Z) : list Hit :=
  let resources :=
    filter (fun r => match r_embedding r with Some _ => true | None => false end)
           (resources db) in
  if negb (truthy resources) then keyword_search db query limit
  else
    let search_results :=
      ML.semantic_search cos sentence_model query resources limit in
    map (fun result => SemanticHit (fst result) (snd result)) search_results.
End Cosine.

End SearchSvc.

(** ** [routes/tasks.py], [get_recommended_tasks] *)

Module Tasks.

(** A task dict of the response: [task.to_dict()] with the added keys. *)
Record TaskRec := {
  tr_task : Task;
  completed : bool;
  ml_score : option Q;
  tr_reason : string
}.

Definition tr_id (t : TaskRec) : string := t_task_id (tr_task t).

Inductive Response :=
| Ok200 (data : list TaskRec)
| Denied403
| Failed500.

Definition len {A : Type} (l : list A) : Z := Z.of_nat (List.length l).

(** [Task.objects]: the whole collection. *)
Definition Task_objects (db : DB) : list Task := tasks db.

(** [TaskFeedback.objects(user=current_user)]. *)
Definition user_feedback_history (db : DB) (user : User) : list TaskFeedback :=
  filter (fun f => String.eqb (tf_user f) (u_id user)) (task_feedbacks db).

(** [TaskFeedback.objects(user=current_user, task_id=...).first() is not None]. *)
Definition has_feedback (db : DB) (user : User) (task_id : string) : bool :=
  existsb (fun f => String.eqb (tf_task_id f) task_id)
          (user_feedback_history db user).

(** [Task.objects(task_id=...).first()]. *)
Definition find_task (db : DB) (task_id : string) : option Task :=
  find (fun t => String.eqb (t_task_id t) task_id) (Task_objects db).

(** [round(x, n)] with [10^n = scale]: the float nearest to the multiple
    of [1/scale] that is nearest to [x], ties to the even one. *)
Definition round_to (scale : Z) (x : Q) : Q :=
  let y := (x * inject_Z scale)%Q in
  let f := Qfloor y in
  let n :=
    match Qcompare (y - inject_Z f) (1 # 2) with
    | Lt => f
    | Gt => f + 1
    | Eq => if Z.even f then f else f + 1
    end in
  F64.round (inject_Z n / inject_Z scale).

Definition mk (db : DB) (user : User) (score : option Q) (reason : string)
    (task : Task) : TaskRec :=
  {| tr_task := task; completed := has_feedback db user (t_task_id task);
     ml_score := score; tr_reason := reason |}.

Section Cosine.
Variable cos : vec -> vec -> Q.

(** The feedback boost of one candidate, lines 102-111; [None] when a
    cosine raises. *)
Fixpoint feedback_boost (db : DB) (task_embedding : vec)
    (feedback_data : list TaskFeedback) (boost : Q) : option Q :=
  match feedback_data with
  | [] => Some boost
  | feedback :: rest =>
      if tf_helpful feedback
      then
        match find_task db (tf_task_id feedback) with
        | Some similar_task =>
            match t_embedding similar_task with
            | Some ((_ :: _) as similar_embedding) =>
                match ML.cosine_similarity cos task_embedding
                        similar_embedding with
                | Some feedback_similarity =>
                    feedback_boost db task_embedding rest
                      (F64.add boost (F64.mul feedback_similarity F64.lit_0_3))
                | None => None
                end
            | _ => feedback_boost db task_embedding rest boost
            end
        | None => feedback_boost db task_embedding rest boost
        end
      else feedback_boost db task_embedding rest boost
  end.

(** The body of the per-task [try], lines 97-116. *)
Definition final_score (db : DB) (user : User) (query_embedding : vec)
    (feedback_data : list TaskFeedback) (task : Task) : option Q :=
  let task_embedding := embedding_of (t_embedding task) in
  match ML.cosine_similarity cos query_embedding task_embedding with
  | None => None
  | Some similarity =>
      match feedback_boost db task_embedding feedback_data 0 with
      | None => None
      | Some boost =>
          let skill_bonus :=
            if opt_level_eqb (t_skill_level task) (u_skill_level user)
            then F64.lit_0_1 else 0%Q in
          Some (F64.add (F64.add similarity boost) skill_bonus)
      end
  end.

(** [Task.objects(is_active=True, embedding__exists=True)]. *)
Definition all_tasks (db : DB) : list Task :=
  filter (fun t => t_is_active t &&
                   match t_embedding t with Some _ => true | None => false end)
         (Task_objects db).

(** The scoring loop and the sort, lines 89-124. *)
Definition task_scores (db : DB) (user : User) (query_embedding : vec)
  : list (Task * Q) :=
  let feedback_data := user_feedback_history db user in
  let completed_task_ids := map tf_task_id feedback_data in
  Py.sort_key_desc snd
    (flat_map
       (fun task =>
          if Py.mem_str (t_task_id task) completed_task_ids then []
          else match final_score db user query_embedding feedback_data task with
               | Some score => [(task, score)]
               | None => []
               end)
       (all_tasks db)).

Definition interest_query (user : User) : string :=
  match u_interests user with
  | [] => "learning programming"
  | i :: rest => fold_left (fun acc x => (acc ++ " " ++ x)%string) rest i
  end.

(** The reason of an ML-scored task; the source appends the score rounded
    to two places, which is also in [ml_score]. *)
Definition ml_reason : string :=
  "ML-recommended based on your interests and learning patterns".

(** The ML stage, lines 64-140: the tasks it leaves in [tasks]. *)
Definition ml_tasks (sentence_model : option ML.SentenceModel)
    (db : DB) (user : User) : list TaskRec :=
  match sentence_model with
  | None => []
  | Some encode =>
      if 0 <? len (all_tasks db)
      then
        let query_embedding := encode (interest_query user) in
        map (fun ts => mk db user (Some (round_to 1000 (snd ts)))
                         ml_reason (fst ts))
            (firstn 15 (task_scores db user query_embedding))
      else []
  end.
End Cosine.

(** [tasks.append(task_dict)] under the guards of strategy 1 and of the
    mapping strategy: fewer than 15 tasks, and no task with this id yet. *)
Definition add_task (db : DB) (user : User) (reason : string)
    (tasks : list TaskRec) (task : Task) : list TaskRec :=
  if len tasks <? 15
  then if existsb (fun t => String.eqb (tr_id t) (t_task_id task)) tasks
       then tasks
       else tasks ++ [mk db user None reason task]
  else tasks.

(** [Task.objects(category=c, is_active=True)]. *)
Definition category_tasks (db : DB) (c : string) : list Task :=
  filter (fun t => t_is_active t &&
                   match t_category t with
                   | Some c' => String.eqb c' c
                   | None => false
                   end)
         (Task_objects db).

(** Strategy 1, lines 145-158. *)
Definition direct_category (db : DB) (user : User) (tasks : list TaskRec)
  : list TaskRec :=
  fold_left
    (fun tasks interest =>
       fold_left
         (add_task db user (interest ++ " task based on your interest")%string)
         (firstn 10 (category_tasks db interest)) tasks)
    (u_interests user) tasks.

(** The categories of [interest_mapping], in the order of the dict. *)
Definition interest_mapping : list (string * list string) :=
  [ ("web development", ["Web Development"]);
    ("data science", ["Data Science"]);
    ("python", ["Python"]);
    ("machine learning", ["Machine Learning"]) ].

(** The mapping strategy, lines 161-203. *)
Definition mapped_category (db : DB) (user : User) (tasks : list TaskRec)
  : list TaskRec :=
  if (len tasks <? 10) && truthy (u_interests user)
  then
    fold_left
      (fun tasks interest =>
         let interest_lower := Py.lower interest in
         let matched_categories :=
           flat_map (fun km => if Py.contains (fst km) interest_lower
                               then snd km else [])
                    interest_mapping in
         fold_left
           (fun tasks category =>
              fold_left
                (add_task db user
                   (category ++ " task for " ++ interest)%string)
                (firstn 3 (category_tasks db category)) tasks)
           matched_categories tasks)
      (u_interests user) tasks
  else tasks.

Definition level_name (l : Level) : string :=
  match l with
  | Beginner => "Beginner"
  | Intermediate => "Intermediate"
  | Advanced => "Advanced"
  end.

(** The skill-level strategy, lines 206-228. *)
Definition skill_appropriate (db : DB) (user : User) (tasks : list TaskRec)
  : list TaskRec :=
  if len tasks <? 15
  then
    let skill :=
      match u_skill_level user with Some l => l | None => Beginner end in
    let existing_task_ids := map tr_id tasks in
    let remaining_slots := 15 - len tasks in
    let default_tasks :=
      firstn (Z.to_nat remaining_slots)
        (filter (fun t => t_is_active t
                          && opt_level_eqb (t_skill_level t) (Some skill)
                          && negb (Py.mem_str (t_task_id t) existing_task_ids))
                (Task_objects db)) in
    tasks ++
    map (mk db user None ("Suitable for " ++ level_name skill ++ " level")%string)
        default_tasks
  else tasks.

(** The reason chosen in the last stage, lines 247-254; [task.tags.lower()]
    raises when the task has no tags. *)
Definition content_reason (task : Task) : option string :=
  match t_tags task with
  | None => None
  | Some tags =>
      let tags_lower := Py.lower tags in
      let any := existsb (fun tag => Py.contains tag tags_lower) in
      Some (if any ["python"; "programming"]
            then "Great for learning programming fundamentals"
            else if any ["machine-learning"; "ml"]
            then "Build your ML skills"
            else if any ["data"; "visualization"]
            then "Develop data analysis skills"
            else "Popular learning task")
  end.

(** The loop of the last stage: [None] when an iteration raises. *)
Fixpoint append_fallback (db : DB) (user : User) (fallback_tasks : list Task)
    (tasks : list TaskRec) : option (list TaskRec) :=
  match fallback_tasks with
  | [] => Some tasks
  | task :: rest =>
      match content_reason task with
      | Some reason =>
          append_fallback db user rest (tasks ++ [mk db user None reason task])
      | None => None
      end
  end.

(** The last stage, lines 231-256. *)
Definition any_active (db : DB) (user : User) (tasks : list TaskRec)
  : option (list TaskRec) :=
  if len tasks <? 10
  then
    let remaining_slots := 15 - len tasks in
    let existing_task_ids := map tr_id tasks in
    let fallback_tasks :=
      firstn (Z.to_nat remaining_slots)
        (filter (fun t => t_is_active t
                          && negb (Py.mem_str (t_task_id t) existing_task_ids))
                (Task_objects db)) in
    append_fallback db user fallback_tasks tasks
  else Some tasks.

Section Route.
Variable cos : vec -> vec -> Q.

(** [get_recommended_tasks]. *)
Definition get_recommended_tasks (sentence_model : option ML.SentenceModel)
    (db : DB) (current_user : User) (user_id : string) : Response :=
  if negb (String.eqb (u_id current_user) user_id) then Denied403
  else
    let tasks := ml_tasks cos sentence_model db current_user in
    let tasks :=
      if negb (truthy tasks)
      then skill_appropriate db current_user
             (mapped_category db current_user
                (direct_category db current_user tasks))
      else tasks in
    match any_active db current_user tasks with
    | Some tasks => Ok200 tasks
    | None => Failed500
    end.
End Route.

End Tasks.

(** ** Concrete inputs *)

Module Fixtures.

(** Cosine of two unit-length vectors: their dot product.  Every embedding
    below is a unit vector along an axis. *)
Fixpoint dot (a b : vec) : Q :=
  match a, b with
  | x :: a', y :: b' => (x * y + dot a' b')%Q
  | _, _ => 0%Q
  end.

Definition unit_cos : vec -> vec -> Q := dot.

(** A model that maps every text to the first axis of the plane. *)
Definition axis_model : ML.SentenceModel := fun _ => [1%Q; 0%Q].

Definition resource (id : string) (d : Level) (tags : list string)
    (rating : Q) (likes created : Z) (e : option vec) : Resource :=
  {| r_id := id; r_title := "Course " ++ id; r_description := "About " ++ id;
     r_type := "course"; r_difficulty := d; r_tags := tags;
     r_category := None; r_likes := likes; r_views := 0; r_rating := rating;
     r_embedding := e; r_created_at := created |}.

Definition alice : User :=
  {| u_id := "u1"; u_interests := ["python"];
     u_skill_level := Some Beginner; u_interactions := [] |}.

Definition bob : User :=
  {| u_id := "u2"; u_interests := ["python"];
     u_skill_level := Some Beginner; u_interactions := [] |}.

(** Alice after she completed resource [r1]. *)
Definition alice_done : User :=
  {| u_id := "u1"; u_interests := ["python"];
     u_skill_level := Some Beginner;
     u_interactions := [("r1", "completed")] |}.

Definition r1 : Resource := resource "r1" Beginner ["python"] 4 0 10 None.

(** An Advanced course without tags, rated 0.1 and liked twice. *)
Definition tenth : Resource :=
  resource "r9" Advanced [] F64.lit_0_1 2 10 None.

(** One Beginner python course, liked by Bob. *)
Definition db_liked : DB :=
  {| resources := [r1]; users := [alice; bob];
     feedbacks := [{| fb_user := "u2"; fb_resource := "r1";
                      fb_helpful := Some true; fb_created_at := 1 |}];
     tasks := []; task_feedbacks := [] |}.

Definition db_liked_done : DB :=
  {| resources := [r1]; users := [alice_done; bob];
     feedbacks := feedbacks db_liked; tasks := []; task_feedbacks := [] |}.

(** Two candidates with the same embedding, the lower rated one first, and
    a candidate whose embedding has three components. *)
Definition low : Resource :=
  resource "a" Beginner [] 3 0 1 (Some [1%Q; 0%Q]).
Definition high : Resource :=
  resource "b" Beginner [] 5 0 2 (Some [1%Q; 0%Q]).
Definition malformed : Resource :=
  resource "c" Beginner [] 4 0 3 (Some [1%Q; 0%Q; 0%Q]).

(** Six Advanced courses and no Beginner one, rated from 0.5 to 3. *)
Definition advanced (n : Z) : Resource :=
  resource (Py.str_of_Z n) Advanced [] (n # 2) 0 (10 - n) None.

Definition db_advanced : DB :=
  {| resources := map advanced [1; 2; 3; 4; 5; 6]; users := [];
     feedbacks := []; tasks := []; task_feedbacks := [] |}.

Definition task (id : string) (l : Level) (e : option vec) : Task :=
  {| t_task_id := id; t_title := "Task " ++ id; t_tags := Some "python";
     t_category := Some "Python"; t_skill_level := Some l;
     t_embedding := e; t_is_active := true |}.

(** Alice gave feedback on task [t1]; [t2] is untouched. *)
Definition db_tasks : DB :=
  {| resources := []; users := [alice]; feedbacks := [];
     tasks := [task "t1" Beginner (Some [1%Q; 0%Q]);
               task "t2" Beginner (Some [0%Q; 1%Q])];
     task_feedbacks := [{| tf_user := "u1"; tf_task_id := "t1";
                           tf_helpful := true;
                           tf_difficulty_rating := None |}] |}.


(** A corpus of one course with a stored embedding, and the same corpus as
    the application saves it before any embedding is computed: with the
    empty list in the field. *)
Definition db_indexed : DB :=
  {| resources := [high]; users := []; feedbacks := [];
     tasks := []; task_feedbacks := [] |}.

Definition saved : Resource := resource "d" Beginner [] 5 0 2 (Some []).

Definition db_saved : DB :=
  {| resources := [saved]; users := []; feedbacks := [];
     tasks := []; task_feedbacks := [] |}.

(** Two tasks with the same embedding; Alice found [t1] helpful. *)
Definition db_same : DB :=
  {| resources := []; users := [alice]; feedbacks := [];
     tasks := [task "t1" Beginner (Some [1%Q; 0%Q]);
               task "t3" Beginner (Some [1%Q; 0%Q])];
     task_feedbacks := task_feedbacks db_tasks |}.

End Fixtures.

(** ** The specification's formulas *)

Module Spec.

(** Equality of two optional levels. *)
Definition level_dec (a b : option Level) : {a = b} + {a <> b}.
Proof. repeat decide equality. Defined.

(** [common] holds the tags of the item that are interests of the profile,
    each once: its length is the size of the intersection of the two
    sets. *)
Definition common_tags (item : Resource) (profile : User)
    (common : list string) : Prop :=
  NoDup common
  /\ forall t, In t common <-> In t (r_tags item) /\ In t (u_interests profile).

Definition level_bonus (item : Resource) (profile : User) : Q :=
  if level_dec (Some (r_difficulty item)) (u_skill_level profile)
  then 3%Q else 0%Q.

(** Content-based score, as the specification words it, for an item with
    [n] tags among the interests: twice the overlap, three for a difficulty
    match, the rating, and the capped popularity term, in exact
    arithmetic. *)
Definition content_score_exact (n : nat) (item : Resource) (profile : User)
  : Q :=
  (2 * inject_Z (Z.of_nat n) + level_bonus item profile + r_rating item
   + Qmin (inject_Z (r_likes item) / 10) 2)%Q.

(** The same sum in floats: the two integer terms are exact, the quotient
    [likes / 10] is rounded, and the rating and the capped term are added
    in this order, each addition rounded. *)
Definition content_score (n : nat) (item : Resource) (profile : User) : Q :=
  F64.add
    (F64.add (2 * inject_Z (Z.of_nat n) + level_bonus item profile)
             (r_rating item))
    (Qmin (F64.div (inject_Z (r_likes item)) 10) 2).

(** The order the specification asks for among candidates of equal
    similarity: rating descending, then likes descending, then id
    ascending.  [precedes a b]: [a] may come before [b]. *)
Definition precedes (a b : Resource) : bool :=
  Py.Qltb (r_rating b) (r_rating a)
  || (Qeq_bool (r_rating a) (r_rating b)
      && ((r_likes b <? r_likes a)
          || ((r_likes a =? r_likes b) && String.leb (r_id a) (r_id b)))).

Definition ties_broken (out : list (Resource * Q)) : Prop :=
  forall i j a b,
    (i < j)%nat -> nth_error out i = Some a -> nth_error out j = Some b ->
    (snd a == snd b)%Q -> precedes (fst a) (fst b) = true.

(** The candidates that carry an embedding, in the order of the candidate
    list, each with its similarity to the query. *)
Definition scored (cos : vec -> vec -> Q) (query_embedding : vec)
    (candidates : list Resource) : list (Resource * Q) :=
  map (fun r => (r, cos query_embedding (embedding_of (r_embedding r))))
      (filter (fun r => truthy (embedding_of (r_embedding r))) candidates).

(** The entries of a result whose similarity is [c]. *)
Definition tied (c : Q) (l : list (Resource * Q)) : list (Resource * Q) :=
  filter (fun e => Qeq_bool (snd e) c) l.

(** The text the query embedding is built from: the interests of the
    profile, separated by single spaces, and a fixed text for a profile
    without interests. *)
Definition interest_text (profile : User) : string :=
  match u_interests profile with
  | [] => "learning programming"
  | _ :: _ => String.concat " " (u_interests profile)
  end.

(** The feedback on tasks that the profile has stored, in stored order. *)
Definition history (db : DB) (profile : User) : list TaskFeedback :=
  filter (fun f => if string_dec (tf_user f) (u_id profile)
                   then true else false)
         (task_feedbacks db).

(** The embedding of the first stored task with the id, when that task
    exists and its embedding is not empty. *)
Definition embedding_by_id (db : DB) (task_id : string) : list vec :=
  match filter (fun t => if string_dec (t_task_id t) task_id
                         then true else false)
               (tasks db) with
  | h :: _ => match t_embedding h with
              | Some ((_ :: _) as e) => [e]
              | _ => []
              end
  | [] => []
  end.

(** The embeddings of the tasks the profile marked as helpful, one per
    helpful feedback record whose task exists and has an embedding. *)
Definition helpful_embeddings (db : DB) (profile : User) : list vec :=
  flat_map (fun f => if tf_helpful f
                     then embedding_by_id db (tf_task_id f) else [])
           (history db profile).

Definition Qsum (l : list Q) : Q := fold_right Qplus 0%Q l.

(** Task score, as the specification words it, in exact arithmetic: base
    similarity, 0.3 times the summed similarity to the helpful tasks, 0.1
    for a skill match. *)
Definition task_score_exact (cos : vec -> vec -> Q) (db : DB) (profile : User)
    (query_embedding : vec) (T : Task) : Q :=
  let e := embedding_of (t_embedding T) in
  (cos query_embedding e
   + (3 # 10) * Qsum (map (cos e) (helpful_embeddings db profile))
   + (if level_dec (t_skill_level T) (u_skill_level profile)
      then 1 # 10 else 0))%Q.

(** The boost in floats: each similarity is multiplied by 0.3 and added to
    the sum of the earlier ones. *)
Definition helpful_boost (cos : vec -> vec -> Q) (e : vec) (hs : list vec)
  : Q :=
  fold_left (fun boost h => F64.add boost (F64.mul (cos e h) F64.lit_0_3))
            hs 0%Q.

(** Task score in floats: the boost is added to the base similarity, and
    the skill bonus to their sum. *)
Definition task_score (cos : vec -> vec -> Q) (db : DB) (profile : User)
    (query_embedding : vec) (T : Task) : Q :=
  let e := embedding_of (t_embedding T) in
  F64.add
    (F64.add (cos query_embedding e)
             (helpful_boost cos e (helpful_embeddings db profile)))
    (if level_dec (t_skill_level T) (u_skill_level profile)
     then F64.lit_0_1 else 0%Q).

(** A candidate of the scoring: a stored, active task with the embedding
    field, on which the profile has no feedback. *)
Definition candidate (db : DB) (profile : User) (T : Task) : Prop :=
  In T (tasks db)
  /\ t_is_active T = true
  /\ t_embedding T <> None
  /\ ~ exists f, In f (task_feedbacks db)
                 /\ tf_user f = u_id profile
                 /\ tf_task_id f = t_task_id T.

(** The cosines of the score of [T] are defined: the embedding of [T] is
    not empty and has the dimension of the query embedding and of every
    helpful embedding. *)
Definition scorable (db : DB) (profile : User) (query_embedding : vec)
    (T : Task) : Prop :=
  let e := embedding_of (t_embedding T) in
  e <> []
  /\ List.length e = List.length query_embedding
  /\ forall h, In h (helpful_embeddings db profile) ->
               List.length h = List.length e.

(** The target share of a cold-start pool. *)
Definition share (limit : Z) : Z := Z.max 1 (limit / 3).

(** [a] may come before [b] when courses are ordered by rating, then likes,
    both descending. *)
Definition rating_likes_desc (a b : Resource) : Prop :=
  (r_rating b < r_rating a)%Q
  \/ ((r_rating a == r_rating b)%Q /\ r_likes b <= r_likes a).

(** [a] may come before [b] when courses are ordered by creation time, then
    likes, both descending. *)
Definition created_likes_desc (a b : Resource) : Prop :=
  r_created_at b < r_created_at a
  \/ (r_created_at a = r_created_at b /\ r_likes b <= r_likes a).

(** [best] holds the first [n] of the courses of [all] that satisfy [P], in
    the order [before]: it is sorted, it has at most [n] courses, all of
    them when there are fewer than [n], and no course left out may only
    come before one that was taken. *)
Definition best_of (before : Resource -> Resource -> Prop) (n : Z)
    (P : Resource -> Prop) (all best : list Resource) : Prop :=
  StronglySorted before best
  /\ (forall x, In x best -> In x all /\ P x)
  /\ Z.of_nat (List.length best) <= n
  /\ (Z.of_nat (List.length best) < n ->
      forall x, In x all -> P x -> In x best)
  /\ (forall x y, In x all -> P x -> ~ In x best -> In y best -> before y x).

(** No course of [selected] has the id of [r]. *)
Definition fresh (selected : list Resource) (r : Resource) : bool :=
  if in_dec string_dec (r_id r) (map r_id selected) then false else true.

Definition not_selected (selected : list Resource) (r : Resource) : bool :=
  negb (Py.mem_str (r_id r) (map r_id selected)).

Definition scored_as (score : Q) (reason : string) (pool : list Resource)
  : list Rec.ScoredRec :=
  map (fun course =>
         {| Rec.rec_item := course; Rec.recommendation_score := score;
            Rec.recommendation_reason := reason |})
      pool.

(** The test of the cold-start loops: no recommendation has the id of the
    course yet. *)
Definition keep (recs : list Rec.ScoredRec) (c : Resource) : bool :=
  negb (existsb (fun r => String.eqb (Rec.rec_id r) (r_id c)) recs).

(** The number of entries a result takes from the pool of a given display
    score. *)
Definition pool_count (score : Q) (out : list Rec.ScoredRec) : Z :=
  Z.of_nat
    (List.length
       (filter (fun r => Qeq_bool (Rec.recommendation_score r) score) out)).

(** The number of helpful feedback records that members of the peer group
    left on a resource. *)
Definition peer_helpful (db : DB) (user : User) (f : Feedback) : bool :=
  Py.mem_str (fb_user f) (Rec.similar_user_ids db user)
  && match fb_helpful f with Some true => true | _ => false end.

Definition helpful_count (db : DB) (user : User) (resource_id : string) : Z :=
  Rec.len (filter (fun f => String.eqb (fb_resource f) resource_id)
                  (filter (peer_helpful db user) (feedbacks db))).

(** [d.get(k, 0)] on the insertion-ordered dict of scores. *)
Fixpoint get (k : string) (d : list (string * Z)) : Z :=
  match d with
  | [] => 0
  | (k', n) :: d' => if String.eqb k k' then n else get k d'
  end.

(** A response lists the task [task_id], flagged as completed. *)
Definition lists_completed (task_id : string) (r : Tasks.Response) : bool :=
  match r with
  | Tasks.Ok200 data =>
      existsb (fun t => String.eqb (Tasks.tr_id t) task_id && Tasks.completed t)
              data
  | _ => false
  end.

End Spec.

(** ** The pools of the cold start, as the code computes them *)

Module Pools.

Definition beginner_pool (db : DB) (limit : Z) : list Resource :=
  firstn (Z.to_nat (Spec.share limit))
    (Py.sort_desc Rec.by_rating_likes
       (filter (fun r => Level_eqb (r_difficulty r) Beginner) (resources db))).

Definition rated_candidates (db : DB) (limit : Z) : list Resource :=
  firstn (Z.to_nat (Spec.share limit * 2))
    (Py.sort_desc Rec.by_rating_likes (resources db)).

Definition rated_pool (db : DB) (limit : Z) : list Resource :=
  firstn (Z.to_nat (Spec.share limit))
    (filter (Spec.not_selected (beginner_pool db limit))
       (rated_candidates db limit)).

Definition remaining (db : DB) (limit : Z) : Z :=
  limit - Rec.len (beginner_pool db limit) - Rec.len (rated_pool db limit).

Definition recent_candidates (db : DB) (limit : Z) : list Resource :=
  firstn (Z.to_nat (remaining db limit * 2))
    (Py.sort_desc Rec.by_created_likes (resources db)).

Definition recent_pool (db : DB) (limit : Z) : list Resource :=
  if 0 <? remaining db limit
  then firstn (Z.to_nat (remaining db limit))
         (filter (Spec.not_selected
                    (beginner_pool db limit ++ rated_pool db limit))
            (recent_candidates db limit))
  else [].

Definition cold_start_blend (db : DB) (limit : Z) : list Rec.ScoredRec :=
  Spec.scored_as 5 "Great for beginners" (beginner_pool db limit)
  ++ Spec.scored_as 4 "Highly rated by learners" (rated_pool db limit)
  ++ Spec.scored_as 3 "Trending content" (recent_pool db limit).

End Pools.

(** ** Query sets *)

Module Mongo.

(** [queryset.limit(n)]: at most [n] documents for a positive [n]; zero
    lifts the bound and a negative [n] bounds by its absolute value, as the
    server does. *)
Definition limit {A : Type} (n : Z) (l : list A) : list A :=
  if n =? 0 then l else firstn (Z.abs_nat n) l.

(** [queryset.order_by(...).first()]: the head of the sorted documents. *)
Definition first {A : Type} (l : list A) : option A :=
  match l with [] => None | x :: _ => Some x end.

End Mongo.

(** ** [services/recommendation_service.py], the other methods *)

Module RecMore.

(** [order_by('-likes', '-rating', '-views')]. *)
Definition by_likes_rating_views (y x : Resource) : bool :=
  (r_likes x <? r_likes y)
  || ((r_likes x =? r_likes y)
      && (Py.Qltb (r_rating x) (r_rating y)
          || (Qeq_bool (r_rating x) (r_rating y)
              && (r_views x <? r_views y)))).

(** A trending dict: [resource.to_dict()] with its reason. *)
Record Trending := {
  tr_item : Resource;
  tr_reason : string
}.

(** [get_trending_resources]. *)
Definition get_trending_resources (db : DB) (limit : Z) : list Trending :=
  map (fun resource =>
         {| tr_item := resource; tr_reason := "Trending now" |})
      (Mongo.limit limit (Py.sort_desc by_likes_rating_views (resources db))).

(** A bookmarked dict: [resource.to_dict()] with [is_bookmarked] and
    [user_status]. *)
Record Bookmarked := {
  bm_item : Resource;
  is_bookmarked : bool;
  user_status : string
}.

(** [get_bookmarked_resources]; the second component of an interaction is
    its [status].  The keys of the interactions are what the client sent:
    [object_id k] is the [ObjectId] bson reads from the key [k], as [str]
    prints it, and [None] when bson rejects the key.  A rejected key makes
    the [id__in] query raise, and the [except] clause returns []. *)
Definition get_bookmarked_resources (object_id : string -> option string)
    (db : DB) (user : User) : list Bookmarked :=
  let bookmarked_ids :=
    map fst (filter (fun kv => String.eqb (snd kv) "bookmarked")
                    (u_interactions user)) in
  if negb (truthy bookmarked_ids) then []
  else if forallb (fun k => match object_id k with
                            | Some _ => true
                            | None => false
                            end)
                  bookmarked_ids
  then
    map (fun resource =>
           {| bm_item := resource; is_bookmarked := true;
              user_status := "bookmarked" |})
        (filter (fun r =>
                   existsb (fun k => match object_id k with
                                     | Some id => String.eqb id (r_id r)
                                     | None => false
                                     end)
                           bookmarked_ids)
                (resources db))
  else [].

(** [models/learning_path.py], [LearningPathStep]. *)
Record LearningPathStep := {
  lp_user : string;
  lp_step_id : string;
  lp_title : string;
  lp_order : Z;
  lp_completed : bool
}.

(** The result of [get_next_learning_step]: a step dict, a recommendation
    dict, or the empty dict. *)
Inductive NextStep :=
| PathStep (step : LearningPathStep) (reason : string)
| Recommended (r : Rec.ScoredRec)
| Nothing.

(** [LearningPathStep.objects(user=user, completed=False).order_by('order')]:
    ascending, so a step sorts strictly before one of a larger order. *)
Definition open_steps (steps : list LearningPathStep) (user : User)
  : list LearningPathStep :=
  Py.sort_desc (fun y x => lp_order y <? lp_order x)
    (filter (fun st => String.eqb (lp_user st) (u_id user)
                       && negb (lp_completed st))
            steps).

(** [get_next_learning_step]; [steps] is the collection of steps. *)
Definition get_next_learning_step (db : DB) (steps : list LearningPathStep)
    (user : User) : NextStep :=
  match Mongo.first (open_steps steps user) with
  | Some current_step =>
      PathStep current_step "Next step in your learning path"
  | None =>
      match Rec.get_personalized_recommendations db user 1 None with
      | r :: _ => Recommended r
      | [] => Nothing
      end
  end.

End RecMore.

(** ** [services/search_service.py], the other methods *)

Module SearchMore.

(** The [filters] dict of [filter_resources]: an absent list or string key
    reads as empty, an absent [min_rating] as zero; [sort_by], [limit] and
    [offset] are optional and have the defaults of the source. *)
Record FilterArgs := {
  fa_type : list string;
  fa_difficulty : list Level;
  fa_tags : list string;
  fa_category : string;
  fa_min_rating : Q;
  fa_sort_by : option string;
  fa_limit : option Z;
  fa_offset : option Z
}.

(** The query built on lines 104-124. *)
Definition fmatches (filters : FilterArgs) (r : Resource) : bool :=
  (if truthy (fa_type filters)
   then Py.mem_str (r_type r) (fa_type filters) else true)
  && (if truthy (fa_difficulty filters)
      then existsb (Level_eqb (r_difficulty r)) (fa_difficulty filters)
      else true)
  && (if truthy (fa_tags filters)
      then existsb (fun t => Py.mem_str t (fa_tags filters)) (r_tags r)
      else true)
  && (if negb (String.eqb (fa_category filters) "")
      then match r_category r with
           | Some c => String.eqb c (fa_category filters)
           | None => false
           end
      else true)
  && (if negb (Qeq_bool (fa_min_rating filters) 0)
      then Qle_bool (fa_min_rating filters) (r_rating r)
      else true).

(** The sorting of lines 135-143; by title the order is ascending. *)
Definition apply_sort (sort_by : string) (l : list Resource) : list Resource :=
  if String.eqb sort_by "rating"
  then Py.sort_key_desc r_rating l
  else if String.eqb sort_by "likes"
  then Py.sort_desc (fun y x => r_likes x <? r_likes y) l
  else if String.eqb sort_by "newest"
  then Py.sort_desc (fun y x => r_created_at x <? r_created_at y) l
  else if String.eqb sort_by "title"
  then Py.sort_desc (fun y x => String.ltb (r_title y) (r_title x)) l
  else l.

Record Page := {
  page_resources : list Resource;
  total_count : Z;
  has_more : bool
}.

(** All documents the query selects, in the order asked for. *)
Definition selected (db : DB) (filters : FilterArgs) : list Resource :=
  apply_sort
    (match fa_sort_by filters with Some k => k | None => "rating" end)
    (filter (fmatches filters) (resources db)).

(** [filter_resources]; a negative [offset] makes the cursor raise, and the
    [except] clause returns the empty page. *)
Definition filter_resources (db : DB) (filters : FilterArgs) : Page :=
  let resources := selected db filters in
  let limit := match fa_limit filters with Some n => n | None => 20 end in
  let offset := match fa_offset filters with Some n => n | None => 0 end in
  let total_count := Z.of_nat (List.length resources) in
  if offset <? 0
  then {| page_resources := []; total_count := 0; has_more := false |}
  else
    {| page_resources :=
         Mongo.limit limit (skipn (Z.to_nat offset) resources);
       total_count := total_count;
       has_more := offset + limit <? total_count |}.

(** The same filters with another window. *)
Definition window (filters : FilterArgs) (offset limit : Z) : FilterArgs :=
  {| fa_type := fa_type filters; fa_difficulty := fa_difficulty filters;
     fa_tags := fa_tags filters; fa_category := fa_category filters;
     fa_min_rating := fa_min_rating filters;
     fa_sort_by := fa_sort_by filters;
     fa_limit := Some limit; fa_offset := Some offset |}.

(** [search_by_category]. *)
Definition search_by_category (db : DB) (category : string) (limit : Z)
  : list Resource :=
  Mongo.limit limit
    (Py.sort_key_desc r_rating
       (filter (fun r => match r_category r with
                         | Some c => String.eqb c category
                         | None => false
                         end)
               (resources db))).

(** [search_by_tags]. *)
Definition search_by_tags (db : DB) (tags : list string) (limit : Z)
  : list Resource :=
  Mongo.limit limit
    (Py.sort_key_desc r_rating
       (filter (fun r => existsb (fun t => Py.mem_str t tags) (r_tags r))
               (resources db))).

End SearchMore.

(** ** [routes/tasks.py], feedback and categories *)

Module TasksMore.

(** A [TaskFeedback] document with all the fields the routes write. *)
Record FeedbackDoc := {
  fd_user : string;
  fd_task_id : string;
  fd_helpful : bool;
  fd_comment : string;
  fd_difficulty_rating : option Z
}.

(** The fields of a feedback document that the recommendations read. *)
Definition core (d : FeedbackDoc) : TaskFeedback :=
  {| tf_user := fd_user d; tf_task_id := fd_task_id d;
     tf_helpful := fd_helpful d;
     tf_difficulty_rating := fd_difficulty_rating d |}.

(** The JSON body of a feedback request; [None] is an absent key. *)
Record Body := {
  b_task_id : option string;
  b_helpful : option bool;
  b_comment : option string;
  b_difficulty_rating : option Z
}.

Inductive Reply :=
| Submitted (feedback : FeedbackDoc)
| History (feedback_data : list FeedbackDoc)
| BadRequest400
| NotFound404
| Error500.

(** Validation on [save()]: [comment] has [max_length=500] and
    [difficulty_rating] has [min_value=1, max_value=5]. *)
Definition valid (d : FeedbackDoc) : bool :=
  Nat.leb (String.length (fd_comment d)) 500
  && match fd_difficulty_rating d with
     | None => true
     | Some n => (1 <=? n) && (n <=? 5)
     end.

(** [TaskFeedback.objects(user=current_user, task_id=task_id)]. *)
Definition mine (user : User) (task_id : string) (d : FeedbackDoc) : bool :=
  String.eqb (fd_user d) (u_id user) && String.eqb (fd_task_id d) task_id.

(** [existing_feedback.save()]: the first matching document is replaced in
    place. *)
Fixpoint save_first (p : FeedbackDoc -> bool) (d : FeedbackDoc)
    (store : list FeedbackDoc) : list FeedbackDoc :=
  match store with
  | [] => []
  | x :: rest => if p x then d :: rest else x :: save_first p d rest
  end.

(** Python truthiness of an optional integer. *)
Definition truthy_int (n : option Z) : bool :=
  match n with Some k => negb (k =? 0) | None => false end.

(** [submit_task_feedback]: [is_post] distinguishes the two methods,
    [is_json] is [request.is_json].  The result is the reply and the
    collection of feedback afterwards. *)
Definition submit_task_feedback (all_tasks : list Task)
    (store : list FeedbackDoc) (current_user : User)
    (is_post is_json : bool) (data : Body) : Reply * list FeedbackDoc :=
  if negb is_post
  then (History (filter (fun d => String.eqb (fd_user d) (u_id current_user))
                        store), store)
  else if negb is_json then (BadRequest400, store)
  else
    match b_task_id data, b_helpful data with
    | Some task_id, Some helpful =>
        let comment :=
          match b_comment data with Some c => c | None => "" end in
        let difficulty_rating := b_difficulty_rating data in
        match find (fun t => String.eqb (t_task_id t) task_id
                             && t_is_active t) all_tasks with
        | None => (NotFound404, store)
        | Some task =>
            match find (mine current_user task_id) store with
            | Some existing_feedback =>
                let feedback :=
                  {| fd_user := fd_user existing_feedback;
                     fd_task_id := fd_task_id existing_feedback;
                     fd_helpful := helpful;
                     fd_comment := comment;
                     fd_difficulty_rating :=
                       if truthy_int difficulty_rating
                       then difficulty_rating
                       else fd_difficulty_rating existing_feedback |} in
                if valid feedback
                then (Submitted feedback,
                      save_first (mine current_user task_id) feedback store)
                else (Error500, store)
            | None =>
                let feedback :=
                  {| fd_user := u_id current_user;
                     fd_task_id := task_id;
                     fd_helpful := helpful;
                     fd_comment := comment;
                     fd_difficulty_rating := difficulty_rating |} in
                if valid feedback
                then (Submitted feedback, store ++ [feedback])
                else (Error500, store)
            end
        end
    | _, _ => (BadRequest400, store)
    end.

(** The store of documents as the recommendations see it. *)
Definition with_feedback (db : DB) (store : list FeedbackDoc) : DB :=
  {| resources := resources db; users := users db;
     feedbacks := feedbacks db; tasks := tasks db;
     task_feedbacks := map core store |}.

(** A category with the number of its active tasks. *)
Record CategoryCount := {
  name : string;
  count : Z
}.

Definition category_eq_dec (a b : option string) : {a = b} + {a <> b}.
Proof. decide equality. apply string_dec. Defined.

(** [Task.objects(is_active=True).distinct('category')]: every value
    once. *)
Definition distinct_categories (db : DB) : list (option string) :=
  nodup category_eq_dec
        (map t_category (filter t_is_active (tasks db))).

(** [get_task_categories]. *)
Definition get_task_categories (db : DB) : list CategoryCount :=
  flat_map
    (fun category =>
       match category with
       | Some ((String _ _) as c) =>
           [{| name := c;
               count := Tasks.len (Tasks.category_tasks db c) |}]
       | _ => []
       end)
    (distinct_categories db).

End TasksMore.

(** ** [services/ml_service.py], recommendations from feedback *)

Module Str.

(** [s.split(sep)] for a one-character separator: empty pieces are kept. *)
Fixpoint split_on (sep : ascii) (acc s : string) : list string :=
  match s with
  | EmptyString => [acc]
  | String c rest =>
      if Ascii.eqb c sep then acc :: split_on sep "" rest
      else split_on sep (String.append acc (String c "")) rest
  end.

(** [s.strip()]. *)
Fixpoint lstrip (s : string) : string :=
  match s with
  | EmptyString => EmptyString
  | String c rest => if Py.is_space c then lstrip rest else s
  end.

Fixpoint rstrip (s : string) : string :=
  match s with
  | EmptyString => EmptyString
  | String c rest =>
      let rest' := rstrip rest in
      if Py.is_space c && String.eqb rest' "" then "" else String c rest'
  end.

Definition strip (s : string) : string := rstrip (lstrip s).

(** [list(dict.fromkeys(l))]: the first occurrence of every string, in
    order. *)
Fixpoint uniq (l : list string) : list string :=
  match l with
  | [] => []
  | x :: rest => x :: filter (fun y => negb (String.eqb y x)) (uniq rest)
  end.

(** [l[-n:]] for a positive [n]: the last [n] elements. *)
Definition last_n {A : Type} (n : nat) (l : list A) : list A :=
  skipn (List.length l - n) l.

End Str.

Module MLMore.

Inductive Difficulty := Easy | Medium | Hard.

Definition Difficulty_eqb (a b : Difficulty) : bool :=
  match a, b with
  | Easy, Easy | Medium, Medium | Hard, Hard => true
  | _, _ => false
  end.

(** A [Task] document with the further fields these methods read. *)
Record TaskDoc := {
  td_task : Task;
  td_difficulty : Difficulty;
  td_description : string
}.

Definition id_of (d : TaskDoc) : string := t_task_id (td_task d).
Definition active (d : TaskDoc) : bool := t_is_active (td_task d).

(** The [user_data] dict.  [ud_skill_level = None] is an absent key, which
    reads as ['Beginner']; [Some None] is a key with the value [None]. *)
Record UserData := {
  ud_skill_level : option (option Level);
  ud_interests : list string;
  ud_feedback_history : list TaskFeedback
}.

Definition skill_of (user_data : UserData) : option Level :=
  match ud_skill_level user_data with
  | None => Some Beginner
  | Some v => v
  end.

(** [Task.objects(task_id=...).first()]. *)
Definition first_by_id (docs : list TaskDoc) (task_id : string)
  : option TaskDoc :=
  find (fun d => String.eqb (id_of d) task_id) docs.

(** The query of [_generate_mock_task_recommendations], lines 223-232. *)
Definition by_skill (skill_level : option Level) (d : TaskDoc) : bool :=
  match skill_level with
  | None => true
  | Some Beginner => Difficulty_eqb (td_difficulty d) Easy
  | Some Intermediate =>
      existsb (Difficulty_eqb (td_difficulty d)) [Easy; Medium]
  | Some Advanced =>
      existsb (opt_level_eqb (t_skill_level (td_task d)))
              [Some Intermediate; Some Advanced]
  end.

(** [_generate_mock_task_recommendations].  The [except] branch, with its
    three fixed ids, is taken only when the database itself fails. *)
Definition _generate_mock_task_recommendations (docs : list TaskDoc)
    (user_data : UserData) : list string :=
  let skill_level := skill_of user_data in
  let interests := ud_interests user_data in
  let tasks :=
    Mongo.limit 10 (filter (fun d => active d && by_skill skill_level d) docs) in
  let task_ids := map id_of tasks in
  if truthy interests && truthy task_ids
  then
    let sorted :=
      flat_map
        (fun task_id =>
           match first_by_id docs task_id with
           | Some task =>
               match t_tags (td_task task) with
               | Some ((String _ _) as tags) =>
                   let task_tags := Py.lower tags in
                   [(task_id,
                     existsb (fun interest =>
                                Py.contains (Py.lower interest) task_tags)
                             interests)]
               | _ => []
               end
           | None => []
           end)
        task_ids in
    let interest_tasks := map fst (filter snd sorted) in
    let other_tasks := map fst (filter (fun x => negb (snd x)) sorted) in
    Py.slice_to 5 (interest_tasks ++ other_tasks)
  else if truthy task_ids then Py.slice_to 5 task_ids
  else ["python-variables"; "list-operations"].

(** [category_mapping] of strategy 4, in the order of the dict. *)
Definition category_mapping : list (string * string) :=
  [ ("web development", "Web Development"); ("python", "Python");
    ("javascript", "JavaScript"); ("react", "React");
    ("machine learning", "Machine Learning");
    ("data science", "Data Science"); ("node.js", "Node.js");
    ("database", "Database Design"); ("cloud", "Cloud Computing");
    ("devops", "DevOps"); ("mobile", "Mobile Development");
    ("ui/ux", "UI/UX Design") ].

Definition has_category (category : string) (d : TaskDoc) : bool :=
  match t_category (td_task d) with
  | Some c => String.eqb c category
  | None => false
  end.

(** [tags__icontains=tag]. *)
Definition tags_icontain (tag : string) (d : TaskDoc) : bool :=
  match t_tags (td_task d) with
  | Some tags => Py.contains (Py.lower tag) (Py.lower tags)
  | None => false
  end.

(** [np.mean(rows, axis=0)]: the mean of every column, without the
    rounding of numpy; the mean is only passed on to the cosine. *)
Fixpoint add_rows (a b : vec) : vec :=
  match a, b with
  | x :: a', y :: b' => (x + y)%Q :: add_rows a' b'
  | _, _ => []
  end.

Definition mean_rows (rows : list vec) : vec :=
  match rows with
  | [] => []
  | r :: rest =>
      map (fun x => (x / inject_Z (Z.of_nat (List.length rows)))%Q)
          (fold_left add_rows rest r)
  end.

Definition sum_Z (l : list Z) : Z := fold_right Z.add 0 l.

Section Feedback.
(** The order in which Python iterates over the sets [liked_categories]
    and [liked_tags], given the elements in the order they were added. *)
Variables order_categories order_tags : list string -> list string.
Variable cos : vec -> vec -> Q.

(** The loop of strategy 5, lines 480-485: [None] when a cosine raises. *)
Fixpoint similar_to (avg_liked_embedding : vec) (all_tasks : list TaskDoc)
  : option (list (string * Q)) :=
  match all_tasks with
  | [] => Some []
  | task :: rest =>
      match t_embedding (td_task task) with
      | Some ((_ :: _) as embedding) =>
          match ML.cosine_similarity cos avg_liked_embedding embedding with
          | Some similarity =>
              match similar_to avg_liked_embedding rest with
              | Some sims => Some ((id_of task, similarity) :: sims)
              | None => None
              end
          | None => None
          end
      | _ => similar_to avg_liked_embedding rest
      end
  end.

(** [recommend_tasks_based_on_feedback].  The mean of the ratings is the
    rounded quotient of two integers; strategy 5 contributes nothing when a
    cosine raises, as its own [except] has it. *)
Definition recommend_tasks_based_on_feedback
    (sentence_model : option ML.SentenceModel) (docs : list TaskDoc)
    (user_data : UserData) : list string :=
  let feedback_history := ud_feedback_history user_data in
  let skill_level := skill_of user_data in
  let interests := ud_interests user_data in
  if negb (truthy feedback_history)
  then _generate_mock_task_recommendations docs user_data
  else
    let helpful_tasks := filter tf_helpful feedback_history in
    let difficulty_ratings :=
      flat_map (fun f => match tf_difficulty_rating f with
                         | Some n => if n =? 0 then [] else [n]
                         | None => []
                         end)
               feedback_history in
    let avg_difficulty :=
      if truthy difficulty_ratings
      then F64.div (inject_Z (sum_Z difficulty_ratings))
                   (inject_Z (Z.of_nat (List.length difficulty_ratings)))
      else 3%Q in
    let liked :=
      flat_map (fun f => match first_by_id docs (tf_task_id f) with
                         | Some task => [task]
                         | None => []
                         end)
               helpful_tasks in
    let liked_categories :=
      order_categories
        (flat_map (fun task => match t_category (td_task task) with
                               | Some ((String _ _) as c) => [c]
                               | _ => []
                               end)
                  liked) in
    let liked_tags :=
      order_tags
        (flat_map (fun task => match t_tags (td_task task) with
                               | Some ((String _ _) as tags) =>
                                   map Str.strip (Str.split_on "," "" tags)
                               | _ => []
                               end)
                  liked) in
    let done := map tf_task_id feedback_history in
    let fresh := fun d => active d && negb (Py.mem_str (id_of d) done) in
    let by_category :=
      flat_map (fun category =>
                  map id_of
                      (Mongo.limit 3
                         (filter (fun d => has_category category d && fresh d)
                                 docs)))
               liked_categories in
    let by_tag :=
      flat_map (fun tag =>
                  map id_of
                      (Mongo.limit 2
                         (filter (fun d => tags_icontain tag d && fresh d)
                                 docs)))
               (firstn 3 liked_tags) in
    let target_difficulty :=
      if Qle_bool avg_difficulty (5 # 2)
      then (if opt_level_eqb skill_level (Some Beginner)
            then [Easy; Medium] else [Medium; Hard])
      else if Qle_bool 4 avg_difficulty then [Easy]
      else (if opt_level_eqb skill_level (Some Beginner)
            then [Easy; Medium] else [Medium; Hard]) in
    let by_difficulty :=
      map id_of
          (Mongo.limit 3
             (filter (fun d => existsb (Difficulty_eqb (td_difficulty d))
                                       target_difficulty
                               && fresh d)
                     docs)) in
    let by_interest :=
      flat_map
        (fun interest =>
           let interest_lower := Py.lower interest in
           match find (fun km => Py.contains (fst km) interest_lower)
                      category_mapping with
           | Some (_, category) =>
               map id_of
                   (Mongo.limit 2
                      (filter (fun d => has_category category d && fresh d)
                              docs))
           | None => []
           end)
        interests in
    let by_similarity :=
      match sentence_model with
      | Some encode =>
          if truthy helpful_tasks
          then
            let liked_task_texts :=
              flat_map
                (fun f =>
                   match first_by_id docs (tf_task_id f) with
                   | Some task =>
                       [(t_title (td_task task) ++ " " ++ td_description task
                         ++ " " ++ match t_tags (td_task task) with
                                   | Some tags => tags
                                   | None => ""
                                   end)%string]
                   | None => []
                   end)
                (Str.last_n 3 helpful_tasks) in
            if truthy liked_task_texts
            then
              let all_tasks :=
                Mongo.limit 20
                  (filter (fun d => fresh d
                                    && match t_embedding (td_task d) with
                                       | Some _ => true
                                       | None => false
                                       end)
                          docs) in
              if truthy all_tasks
              then
                let liked_embeddings := map encode liked_task_texts in
                let avg_liked_embedding := mean_rows liked_embeddings in
                match similar_to avg_liked_embedding all_tasks with
                | Some similarities =>
                    map fst (Py.slice_to 3 (Py.sort_key_desc snd similarities))
                | None => []
                end
              else []
            else []
          else []
      | None => []
      end in
    let recommended_tasks :=
      by_category ++ by_tag ++ by_difficulty ++ by_interest
      ++ by_similarity in
    let unique_recommendations := Str.uniq recommended_tasks in
    let unique_recommendations :=
      if Z.of_nat (List.length unique_recommendations) <? 5
      then
        unique_recommendations ++
        map id_of
            (Mongo.limit (5 - Z.of_nat (List.length unique_recommendations))
               (filter (fun d =>
                          active d
                          && opt_level_eqb (t_skill_level (td_task d))
                                           skill_level
                          && negb (Py.mem_str (id_of d)
                                     (done ++ unique_recommendations)))
                       docs))
      else unique_recommendations in
    Py.slice_to 8 unique_recommendations.

(** ** [routes/tasks.py], [get_ml_recommendations] *)

(** The two collections the route reads. *)
Record Store := {
  st_tasks : list TaskDoc;
  st_feedback : list TaskFeedback
}.

(** A task dict of the reply: [task.to_dict()] and the [completed] flag;
    [user_feedback] is [None] exactly when the flag is false. *)
Record Listed := {
  ls_task : TaskDoc;
  ls_completed : bool
}.

Inductive Reply :=
| Ok200 (data : list Listed)
| Denied403.

Definition get_ml_recommendations
    (sentence_model : option ML.SentenceModel) (store : Store)
    (current_user : User) (user_id : string) : Reply :=
  if negb (String.eqb (u_id current_user) user_id) then Denied403
  else
    let user_feedback :=
      filter (fun f => String.eqb (tf_user f) (u_id current_user))
             (st_feedback store) in
    let user_data :=
      {| ud_skill_level := Some (u_skill_level current_user);
         ud_interests := u_interests current_user;
         ud_feedback_history := user_feedback |} in
    let recommended_task_ids :=
      recommend_tasks_based_on_feedback sentence_model (st_tasks store)
                                        user_data in
    Ok200
      (flat_map
         (fun task_id =>
            match find (fun d => String.eqb (id_of d) task_id && active d)
                       (st_tasks store) with
            | Some task =>
                [{| ls_task := task;
                    ls_completed :=
                      existsb (fun f => String.eqb (tf_task_id f) task_id)
                              user_feedback |}]
            | None => []
            end)
         recommended_task_ids).
End Feedback.

End MLMore.

(** ** Predicates used in the statements *)

Module Inv.

(** The difficulty a candidate of [get_personalized_recommendations] must
    have: one of the filter's difficulties when the filter names some,
    otherwise the user's skill level, [Beginner] when the user has none. *)
Definition wanted_difficulty (user : User) (filters : option Rec.Filters)
    (d : Level) : Prop :=
  match filters with
  | Some f =>
      match Rec.f_difficulty f with
      | _ :: _ => In d (Rec.f_difficulty f)
      | [] => d = match u_skill_level user with Some l => l | None => Beginner end
      end
  | None => d = match u_skill_level user with Some l => l | None => Beginner end
  end.

(** A task dict of a response is sound: it shows a stored, active task,
    and its [completed] flag says whether the user gave feedback on it. *)
Definition task_ok (db : DB) (user : User) (t : Tasks.TaskRec) : Prop :=
  In (Tasks.tr_task t) (tasks db)
  /\ t_is_active (Tasks.tr_task t) = true
  /\ Tasks.completed t = Tasks.has_feedback db user (Tasks.tr_id t).

(** At most fifteen task dicts, all of them sound. *)
Definition sound (db : DB) (user : User) (l : list Tasks.TaskRec) : Prop :=
  Tasks.len l <= 15 /\ Forall (task_ok db user) l.

(** The feedback documents of one user on one task. *)
Definition records (user_id task_id : string)
    (store : list TasksMore.FeedbackDoc) : list TasksMore.FeedbackDoc :=
  filter (fun d => String.eqb (TasksMore.fd_user d) user_id
                   && String.eqb (TasksMore.fd_task_id d) task_id)
         store.

(** The feedback documents that a request of [user] on [task_id] leaves
    alone. *)
Definition others (user : User) (task_id : string)
    (store : list TasksMore.FeedbackDoc) : list TasksMore.FeedbackDoc :=
  filter (fun d => negb (TasksMore.mine user task_id d)) store.

(** The sum of the counts of a list of categories. *)
Definition total (l : list TasksMore.CategoryCount) : Z :=
  fold_right Z.add 0 (map TasksMore.count l).

(** A task has a category, and it is not the empty string. *)
Definition categorised (t : Task) : bool :=
  match t_category t with Some (String _ _) => true | _ => false end.

(** A task is of category [c]. *)
Definition in_category (c : string) (t : Task) : bool :=
  match t_category t with Some c' => String.eqb c' c | None => false end.

(** A task is of one of the non-empty categories of [ks]. *)
Definition in_some (ks : list (option string)) (t : Task) : bool :=
  existsb (fun k => match k with
                    | Some ((String _ _) as c) => in_category c t
                    | _ => false
                    end) ks.

(** The active tasks of the store. *)
Definition active_tasks (db : DB) : list Task :=
  filter t_is_active (tasks db).

End Inv.

(** ** Further concrete inputs *)

Module MLInv.

(** A stored, active task carries the id. *)
Definition stored_active (docs : list MLMore.TaskDoc) (id : string) : Prop :=
  exists d, In d docs /\ MLMore.id_of d = id /\ MLMore.active d = true.

(** The feedback history has an entry for the task. *)
Definition rated (history : list TaskFeedback) (id : string) : Prop :=
  In id (map tf_task_id history).

(** The active tasks that fit the skill level of the user data. *)
Definition qualifying (docs : list MLMore.TaskDoc)
    (user_data : MLMore.UserData) : list MLMore.TaskDoc :=
  filter (fun d => MLMore.active d
                   && MLMore.by_skill (MLMore.skill_of user_data) d)
         docs.

(** The first task with the id has tags. *)
Definition tagged (docs : list MLMore.TaskDoc) (id : string) : bool :=
  match MLMore.first_by_id docs id with
  | Some task =>
      match t_tags (MLMore.td_task task) with
      | Some (String _ _) => true
      | _ => false
      end
  | None => false
  end.

(** The first task with the id has tags that contain one of the interests,
    whatever the case of the letters. *)
Definition interest_match (docs : list MLMore.TaskDoc)
    (interests : list string) (id : string) : bool :=
  match MLMore.first_by_id docs id with
  | Some task =>
      match t_tags (MLMore.td_task task) with
      | Some ((String _ _) as tags) =>
          existsb (fun interest =>
                     Py.contains (Py.lower interest) (Py.lower tags))
                  interests
      | _ => false
      end
  | None => false
  end.

(** The feedback the user has stored: [TaskFeedback.objects(user=...)]. *)
Definition feedback_of (store : MLMore.Store) (user : User)
  : list TaskFeedback :=
  filter (fun f => String.eqb (tf_user f) (u_id user))
         (MLMore.st_feedback store).

(** A task dict of the reply shows a stored, active task on which the user
    has no feedback, and says so. *)
Definition listed_ok (store : MLMore.Store) (user : User)
    (l : MLMore.Listed) : Prop :=
  In (MLMore.ls_task l) (MLMore.st_tasks store)
  /\ MLMore.active (MLMore.ls_task l) = true
  /\ ~ rated (feedback_of store user) (MLMore.id_of (MLMore.ls_task l))
  /\ MLMore.ls_completed l = false.

(** The active tasks of the user's level on which the history has no
    feedback: what the last query of the recommender draws from. *)
Definition fresh_at_level (docs : list MLMore.TaskDoc)
    (user_data : MLMore.UserData) : list MLMore.TaskDoc :=
  filter (fun d =>
            MLMore.active d
            && opt_level_eqb (t_skill_level (MLMore.td_task d))
                             (MLMore.skill_of user_data)
            && negb (Py.mem_str (MLMore.id_of d)
                       (map tf_task_id (MLMore.ud_feedback_history user_data))))
         docs.

End MLInv.

Module Cases.

(** Carol bookmarked [r1] and completed [r2]; [r3] was never stored. *)
Definition carol : User :=
  {| u_id := "u3"; u_interests := ["python"];
     u_skill_level := Some Beginner;
     u_interactions := [("r1", "bookmarked"); ("r2", "completed");
                        ("r3", "bookmarked")] |}.

Definition r2 : Resource :=
  Fixtures.resource "r2" Intermediate ["python"; "web"] 3 25 20 None.

Definition db_two : DB :=
  {| resources := [Fixtures.r1; r2]; users := [carol];
     feedbacks := []; tasks := []; task_feedbacks := [] |}.

(** Alice's learning path: the first step is done, two are open. *)
Definition steps : list RecMore.LearningPathStep :=
  [ {| RecMore.lp_user := "u1"; RecMore.lp_step_id := "3";
       RecMore.lp_title := "Data Structures"; RecMore.lp_order := 3;
       RecMore.lp_completed := false |};
    {| RecMore.lp_user := "u1"; RecMore.lp_step_id := "1";
       RecMore.lp_title := "Introduction"; RecMore.lp_order := 1;
       RecMore.lp_completed := true |};
    {| RecMore.lp_user := "u1"; RecMore.lp_step_id := "2";
       RecMore.lp_title := "Python Basics"; RecMore.lp_order := 2;
       RecMore.lp_completed := false |} ].

(** Two resources with an embedding of the model's dimension, one without
    the field and one with the empty list in it. *)
Definition db_embedded : DB :=
  {| resources := [Fixtures.low; Fixtures.r1; Fixtures.saved; Fixtures.high];
     users := []; feedbacks := []; tasks := []; task_feedbacks := [] |}.



(** Alice's stored feedback on [t1], and two requests: a revision of it
    and a first feedback on [t2]. *)
Definition store_one : list TasksMore.FeedbackDoc :=
  [{| TasksMore.fd_user := "u1"; TasksMore.fd_task_id := "t1";
      TasksMore.fd_helpful := true; TasksMore.fd_comment := "";
      TasksMore.fd_difficulty_rating := Some 3 |}].

Definition revise_t1 : TasksMore.Body :=
  {| TasksMore.b_task_id := Some "t1"; TasksMore.b_helpful := Some false;
     TasksMore.b_comment := Some "too hard";
     TasksMore.b_difficulty_rating := None |}.

Definition first_on_t2 : TasksMore.Body :=
  {| TasksMore.b_task_id := Some "t2"; TasksMore.b_helpful := Some true;
     TasksMore.b_comment := None;
     TasksMore.b_difficulty_rating := Some 2 |}.

(** The tasks of a response, none when the request failed. *)
Definition data_of (r : Tasks.Response) : list Tasks.TaskRec :=
  match r with Tasks.Ok200 data => data | _ => [] end.

(** A store whose only task has no tags. *)
Definition db_untagged : DB :=
  {| resources := []; users := [Fixtures.alice]; feedbacks := [];
     tasks := [{| t_task_id := "t9"; t_title := "Untagged";
                  t_tags := None; t_category := None;
                  t_skill_level := Some Advanced; t_embedding := None;
                  t_is_active := true |}];
     task_feedbacks := [] |}.

(** Filters that select every resource, with the default sorting. *)
Definition any_resource : SearchMore.FilterArgs :=
  {| SearchMore.fa_type := []; SearchMore.fa_difficulty := [];
     SearchMore.fa_tags := []; SearchMore.fa_category := "";
     SearchMore.fa_min_rating := 0; SearchMore.fa_sort_by := None;
     SearchMore.fa_limit := None; SearchMore.fa_offset := None |}.


(** Two stored Python tasks; the user found [t1] helpful. *)
Definition doc (id : string) (d : MLMore.Difficulty) : MLMore.TaskDoc :=
  {| MLMore.td_task := Fixtures.task id Beginner (Some [1%Q; 0%Q]);
     MLMore.td_difficulty := d;
     MLMore.td_description := "Practice " ++ id |}.

Definition docs_two : list MLMore.TaskDoc :=
  [doc "t1" MLMore.Easy; doc "t2" MLMore.Medium].

Definition liked_t1 : MLMore.UserData :=
  {| MLMore.ud_skill_level := Some (Some Beginner);
     MLMore.ud_interests := ["python"];
     MLMore.ud_feedback_history :=
       [{| tf_user := "u1"; tf_task_id := "t1"; tf_helpful := true;
           tf_difficulty_rating := Some 3 |}] |}.

(** Six Beginner tasks, the first of them rated by the user. *)
Definition docs_six : list MLMore.TaskDoc :=
  map (fun id => doc id MLMore.Hard) ["t1"; "t2"; "t3"; "t4"; "t5"; "t6"].

(** Python's sets iterate here in the order of insertion. *)
Definition insertion_order (l : list string) : list string := Str.uniq l.

End Cases.

(** * Properties *)

(** ** Slices and the stable descending sort *)

Section PyFacts.
Context {A : Type}.
Implicit Types (l : list A) (k : Z).

Lemma firstn_incl (n : nat) l x : In x (firstn n l) -> In x l.
Proof.
  intros H. rewrite <- (firstn_skipn n l). apply in_or_app. now left.
Qed.

Lemma slice_to_prefix k l : exists rest, l = Py.slice_to k l ++ rest.
Proof.
  unfold Py.slice_to.
  destruct (k <? 0);
    eexists; symmetry; apply firstn_skipn.
Qed.

Lemma slice_to_length k l :
  0 <= k -> Z.of_nat (List.length (Py.slice_to k l)) <= k.
Proof.
  intros Hk. unfold Py.slice_to.
  destruct (k <? 0) eqn:E; [lia|].
  rewrite length_firstn. lia.
Qed.

Lemma slice_to_In k l x : In x (Py.slice_to k l) -> In x l.
Proof.
  destruct (slice_to_prefix k l) as [rest E].
  intros H. rewrite E. apply in_or_app. now left.
Qed.

Lemma insert_desc_perm gt x l : Permutation (x :: l) (Py.insert_desc gt x l).
Proof.
  induction l as [|y l IH]; simpl; [reflexivity|].
  destruct (gt y x); [|reflexivity].
  rewrite perm_swap. now apply perm_skip.
Qed.

Lemma sort_desc_perm gt l : Permutation l (Py.sort_desc gt l).
Proof.
  induction l as [|x l IH]; simpl; [constructor|].
  rewrite <- insert_desc_perm. now apply perm_skip.
Qed.

Lemma sort_desc_In gt l x : In x (Py.sort_desc gt l) <-> In x l.
Proof.
  split; apply Permutation_in;
    [symmetry|]; apply sort_desc_perm.
Qed.

Lemma sort_desc_length gt l : List.length (Py.sort_desc gt l) = List.length l.
Proof. symmetry. apply Permutation_length, sort_desc_perm. Qed.

(** Stability: elements that are pairwise tied for [gt] keep their order. *)
Lemma insert_desc_filter gt (p : A -> bool) x l :
  (forall a b, p a = true -> p b = true -> gt a b = false) ->
  filter p (Py.insert_desc gt x l) = filter p (x :: l).
Proof.
  intros Htied.
  induction l as [|y l IH]; [reflexivity|].
  cbn [Py.insert_desc].
  destruct (gt y x) eqn:G; [|reflexivity].
  cbn [filter] in *. rewrite IH.
  destruct (p x) eqn:Px, (p y) eqn:Py'; try reflexivity.
  rewrite (Htied y x Py' Px) in G. discriminate.
Qed.

Lemma sort_desc_stable gt (p : A -> bool) l :
  (forall a b, p a = true -> p b = true -> gt a b = false) ->
  filter p (Py.sort_desc gt l) = filter p l.
Proof.
  intros Htied.
  induction l as [|x l IH]; [reflexivity|].
  cbn [Py.sort_desc fold_right].
  rewrite insert_desc_filter by assumption.
  cbn [filter]. fold (Py.sort_desc gt l). now rewrite IH.
Qed.

Lemma Qltb_lt (a b : Q) : Py.Qltb a b = true <-> (a < b)%Q.
Proof.
  unfold Py.Qltb. rewrite negb_true_iff.
  split; intros H.
  - apply Qnot_le_lt. intros L. apply Qle_bool_iff in L. congruence.
  - destruct (Qle_bool b a) eqn:E; [|reflexivity].
    apply Qle_bool_iff in E. exfalso. now apply (Qlt_not_le a b).
Qed.

Lemma Qltb_ge (a b : Q) : Py.Qltb a b = false <-> (b <= a)%Q.
Proof.
  unfold Py.Qltb. rewrite negb_false_iff. apply Qle_bool_iff.
Qed.

Lemma insert_key_sorted (key : A -> Q) x l :
  StronglySorted (Py.desc key) l ->
  StronglySorted (Py.desc key)
    (Py.insert_desc (fun y x => Py.Qltb (key x) (key y)) x l).
Proof.
  induction 1 as [|y l Hs IH Hall]; cbn [Py.insert_desc].
  - repeat constructor.
  - destruct (Py.Qltb (key x) (key y)) eqn:E.
    + constructor; [exact IH|].
      apply Qltb_lt in E.
      eapply Permutation_Forall; [apply insert_desc_perm|].
      constructor; [now apply Qlt_le_weak|exact Hall].
    + apply Qltb_ge in E.
      constructor; [now constructor|].
      constructor; [exact E|].
      eapply Forall_impl; [|exact Hall].
      intros z Hz. unfold Py.desc in *. now apply Qle_trans with (key y).
Qed.

Lemma sort_key_desc_sorted (key : A -> Q) l :
  StronglySorted (Py.desc key) (Py.sort_key_desc key l).
Proof.
  induction l as [|x l IH]; [constructor|].
  now apply insert_key_sorted.
Qed.

Lemma sorted_prefix (R : A -> A -> Prop) l1 l2 :
  StronglySorted R (l1 ++ l2) -> StronglySorted R l1.
Proof.
  induction l1 as [|x l1 IH]; cbn; [constructor|].
  intros H. inversion H as [|? ? Hs Hall]; subst.
  constructor; [now apply IH|].
  now apply Forall_app in Hall.
Qed.

Lemma slice_to_sorted (R : A -> A -> Prop) k l :
  StronglySorted R l -> StronglySorted R (Py.slice_to k l).
Proof.
  destruct (slice_to_prefix k l) as [rest E].
  intros H. rewrite E in H. now apply sorted_prefix in H.
Qed.
End PyFacts.

Lemma slice_to_nonempty {A : Type} (k : Z) (l : list A) :
  0 < k -> l <> [] -> Py.slice_to k l <> [].
Proof.
  intros Hk Hl. unfold Py.slice_to.
  destruct (k <? 0) eqn:E; [lia|].
  destruct l as [|x l]; [contradiction|].
  destruct (Z.to_nat k) eqn:N; [lia|]. discriminate.
Qed.

(** ** Sorting on a primary key *)

Section SortPrimary.
Context {A K : Type} (gt : A -> A -> bool) (key : A -> K) (le : K -> K -> Prop).
Hypothesis le_trans : forall a b c, le a b -> le b c -> le a c.
Hypothesis gt_le : forall x y, gt y x = true -> le (key x) (key y).
Hypothesis ngt_le : forall x y, gt y x = false -> le (key y) (key x).

Lemma insert_primary_sorted (x : A) (l : list A) :
  StronglySorted (fun a b => le (key b) (key a)) l ->
  StronglySorted (fun a b => le (key b) (key a)) (Py.insert_desc gt x l).
Proof.
  induction 1 as [|y l Hs IH Hall]; cbn [Py.insert_desc].
  - repeat constructor.
  - destruct (gt y x) eqn:E.
    + constructor; [exact IH|].
      eapply Permutation_Forall; [apply insert_desc_perm|].
      constructor; [now apply gt_le|exact Hall].
    + constructor; [now constructor|].
      constructor; [now apply ngt_le|].
      eapply Forall_impl; [|exact Hall].
      intros z Hz. eapply le_trans; [exact Hz|now apply ngt_le].
Qed.

Lemma sort_primary_sorted (l : list A) :
  StronglySorted (fun a b => le (key b) (key a)) (Py.sort_desc gt l).
Proof.
  induction l as [|x l IH]; [constructor|].
  now apply insert_primary_sorted.
Qed.
End SortPrimary.

Lemma sorted_app_le {A : Type} (R : A -> A -> Prop) (l1 l2 : list A) :
  StronglySorted R (l1 ++ l2) ->
  forall a b, In a l1 -> In b l2 -> R a b.
Proof.
  induction l1 as [|x l1 IH]; cbn; [intros _ ? ? []|].
  intros H a b Ha Hb. inversion H as [|? ? Hs Hall]; subst.
  destruct Ha as [<-|Ha].
  - rewrite Forall_forall in Hall. apply Hall, in_or_app. now right.
  - now apply IH.
Qed.

(** ** Content-based filtering *)

Lemma round_morph (q q' : Q) : (q == q')%Q -> F64.round q = F64.round q'.
Proof.
  intros H. unfold F64.round. now rewrite (Qred_complete q q' H).
Qed.

Lemma add_morph (a a' b b' : Q) :
  (a == a')%Q -> (b == b')%Q -> F64.add a b = F64.add a' b'.
Proof.
  intros Ha Hb. unfold F64.add. apply round_morph. now rewrite Ha, Hb.
Qed.

Lemma mem_str_iff (x : string) (l : list string) :
  Py.mem_str x l = true <-> In x l.
Proof.
  unfold Py.mem_str. rewrite existsb_exists. split.
  - intros (y & Hy & E). apply String.eqb_eq in E. now subst.
  - intros H. exists x. split; [exact H|apply String.eqb_refl].
Qed.

Lemma opt_level_eqb_dec (a b : option Level) :
  opt_level_eqb a b = if Spec.level_dec a b then true else false.
Proof.
  destruct (Spec.level_dec a b) as [->|N].
  - destruct b as [[]|]; reflexivity.
  - destruct a as [[]|], b as [[]|]; try reflexivity; now contradiction N.
Qed.

(** The overlap the loop counts is the size of the intersection. *)
Lemma inter_size_common (item : Resource) (user : User) (common : list string) :
  Spec.common_tags item user common ->
  Py.inter_size (r_tags item) (u_interests user)
  = Z.of_nat (List.length common).
Proof.
  intros [Hnd Hin]. unfold Py.inter_size. f_equal.
  apply Permutation_length, NoDup_Permutation; [apply NoDup_nodup|exact Hnd|].
  intros t. rewrite nodup_In, filter_In, mem_str_iff, Hin. tauto.
Qed.

Lemma common_tags_exist (item : Resource) (user : User) :
  exists common, Spec.common_tags item user common.
Proof.
  exists (nodup string_dec
            (filter (fun t => Py.mem_str t (u_interests user)) (r_tags item))).
  split; [apply NoDup_nodup|].
  intros t. rewrite nodup_In, filter_In, mem_str_iff. tauto.
Qed.

Lemma content_score_formula (user : User) (item : Resource)
    (common : list string) :
  Spec.common_tags item user common ->
  fst (Rec.content_score user item)
  = Spec.content_score (List.length common) item user.
Proof.
  intros Hc. unfold Rec.content_score, Spec.content_score, Spec.level_bonus.
  rewrite (inter_size_common item user common Hc), opt_level_eqb_dec.
  set (n := Z.of_nat (List.length common)).
  assert (Hn : 0 <= n) by (unfold n; lia).
  assert (Hz : (0 <? n) = false -> (inject_Z n == 0)%Q).
  { intros E. assert (n = 0) as -> by lia. reflexivity. }
  destruct (0 <? n) eqn:En;
    destruct (Spec.level_dec (Some (r_difficulty item)) (u_skill_level user));
    cbn [fst];
    (apply add_morph; [|reflexivity]);
    (match goal with
     | |- (F64.add ?a _ == F64.add ?a' _)%Q =>
         rewrite (add_morph a a' (r_rating item) (r_rating item));
         [reflexivity| |reflexivity]
     end);
    try rewrite inject_Z_mult; try rewrite (Hz eq_refl); ring.
Qed.

Lemma content_based_In (user : User) (resources : list Resource) (limit : Z)
    (rec : Rec.ScoredRec) :
  In rec (Rec._apply_content_based_filtering user resources limit) ->
  Rec.recommendation_score rec = fst (Rec.content_score user (Rec.rec_item rec))
  /\ (0 < Rec.recommendation_score rec)%Q
  /\ In (Rec.rec_item rec) resources.
Proof.
  unfold Rec._apply_content_based_filtering.
  destruct (limit * 2 <? 0); [intros []|].
  intros H. apply slice_to_In in H.
  apply sort_desc_In in H.
  apply in_flat_map in H. destruct H as (r & Hr & H).
  destruct (Rec.content_score user r) as [score reasons] eqn:E.
  destruct (Py.Qltb 0 score) eqn:Pos; [|destruct H].
  destruct H as [<-|[]]. cbn.
  rewrite E. cbn. repeat split.
  - now apply Qltb_lt.
  - eapply firstn_incl. exact Hr.
Qed.

(** C2, as stated, fails: for a Beginner, an Advanced course without tags
    that is rated 0.1 and liked twice scores 0.30000000000000004, which is
    not the exact sum of its rating and of a tenth of its likes. *)
Lemma content_score_is_rounded :
  Spec.common_tags Fixtures.tenth Fixtures.alice []
  /\ map Rec.recommendation_score
       (Rec._apply_content_based_filtering Fixtures.alice [Fixtures.tenth] 1)
     = [(1351079888211149 # 4503599627370496)%Q]
  /\ (Spec.content_score_exact 0 Fixtures.tenth Fixtures.alice
      == F64.lit_0_1 + (1 # 5))%Q
  /\ ~ (fst (Rec.content_score Fixtures.alice Fixtures.tenth)
        == Spec.content_score_exact 0 Fixtures.tenth Fixtures.alice)%Q.
Proof.
  split; [split; [constructor|intros t; cbn; tauto]|].
  split; [vm_compute; reflexivity|].
  split; [vm_compute; reflexivity|].
  vm_compute. discriminate.
Qed.

(** C2, amended.  The score computed for an item is the sum of twice the
    number of its tags among the interests, of three when its difficulty is
    the user's skill level, of its rating and of a tenth of its likes capped
    at two, as floats have it: the integer terms are exact, the quotient is
    rounded, and the rating and the capped term are added in this order,
    each addition rounded.  Every entry of the content-based result carries
    that score and it is strictly positive; an item whose score is not
    positive is not in the result. *)
Theorem content_based_score_and_gate (user : User) (resources : list Resource)
    (limit : Z) :
  let out := Rec._apply_content_based_filtering user resources limit in
  (forall item, exists common,
      Spec.common_tags item user common
      /\ fst (Rec.content_score user item)
         = Spec.content_score (List.length common) item user)
  /\ (forall rec common,
        In rec out -> Spec.common_tags (Rec.rec_item rec) user common ->
        Rec.recommendation_score rec
        = Spec.content_score (List.length common) (Rec.rec_item rec) user
        /\ (0 < Rec.recommendation_score rec)%Q)
  /\ (forall item common,
        Spec.common_tags item user common ->
        (Spec.content_score (List.length common) item user <= 0)%Q ->
        ~ In item (map Rec.rec_item out)).
Proof.
  intros out.
  assert (Hin : forall rec common,
            In rec out -> Spec.common_tags (Rec.rec_item rec) user common ->
            Rec.recommendation_score rec
            = Spec.content_score (List.length common) (Rec.rec_item rec) user
            /\ (0 < Rec.recommendation_score rec)%Q).
  { intros rec common H Hc. apply content_based_In in H.
    destruct H as (E & Pos & _). split; [|exact Pos].
    rewrite E. now apply content_score_formula. }
  split; [|split; [exact Hin|]].
  - intros item. destruct (common_tags_exist item user) as [common Hc].
    exists common. split; [exact Hc|]. now apply content_score_formula.
  - intros item common Hc Hle Hitem. apply in_map_iff in Hitem.
    destruct Hitem as (rec & <- & Hrec).
    destruct (Hin rec common Hrec Hc) as [E Pos].
    rewrite E in Pos. now apply (Qlt_not_le _ _ Pos).
Qed.

(** ** Collaborative filtering *)

Section Collaborative.
Variables (db : DB) (user : User).

Lemma get_bump (k k' : string) (d : list (string * Z)) :
  Spec.get k' (Rec.bump k d)
  = Spec.get k' d + (if String.eqb k' k then 1 else 0).
Proof.
  induction d as [|[k0 n] d IH]; cbn.
  - destruct (String.eqb k' k); lia.
  - destruct (String.eqb_spec k k0) as [->|Hk]; cbn.
    + destruct (String.eqb k' k0); lia.
    + destruct (String.eqb_spec k' k0) as [->|Hk'].
      * apply not_eq_sym, String.eqb_neq in Hk. rewrite Hk. lia.
      * exact IH.
Qed.

Lemma keys_bump (k : string) (d : list (string * Z)) :
  NoDup (map fst d) -> NoDup (map fst (Rec.bump k d)).
Proof.
  induction d as [|[k0 n] d IH]; cbn; intros H.
  - repeat constructor. intros [].
  - apply NoDup_cons_iff in H. destruct H as [Hk0 Hd].
    destruct (String.eqb_spec k k0) as [->|Hk]; cbn.
    + now constructor.
    + constructor; [|now apply IH].
      intros Hin. apply Hk0. clear IH Hd Hk0.
      induction d as [|[k1 m] d IH]; cbn in *.
      * destruct Hin as [E|[]]. congruence.
      * destruct (String.eqb k k1); cbn in Hin; intuition.
Qed.

Lemma get_In (k : string) (n : Z) (d : list (string * Z)) :
  NoDup (map fst d) -> In (k, n) d -> Spec.get k d = n.
Proof.
  induction d as [|[k0 m] d IH]; cbn; [intros _ []|].
  intros H Hin. apply NoDup_cons_iff in H. destruct H as [Hk0 Hd].
  destruct Hin as [E|Hin].
  - inversion E; subst. now rewrite String.eqb_refl.
  - destruct (String.eqb_spec k k0) as [->|_]; [|now apply IH].
    exfalso. apply Hk0. now apply (in_map fst) in Hin.
Qed.

Lemma count_scores_get (k : string) (liked : list Feedback) :
  forall d,
    Spec.get k (fold_left (fun d f => Rec.bump (fb_resource f) d) liked d)
    = Spec.get k d
      + Rec.len (filter (fun f => String.eqb (fb_resource f) k) liked).
Proof.
  induction liked as [|f liked IH]; intros d; cbn [fold_left filter].
  - unfold Rec.len. cbn. lia.
  - rewrite IH, get_bump, (String.eqb_sym k).
    destruct (String.eqb (fb_resource f) k); unfold Rec.len; cbn; lia.
Qed.

Lemma count_scores_keys (liked : list Feedback) :
  forall d, NoDup (map fst d) ->
    NoDup (map fst (fold_left (fun d f => Rec.bump (fb_resource f) d) liked d)).
Proof.
  induction liked as [|f liked IH]; intros d H; cbn; [exact H|].
  now apply IH, keys_bump.
Qed.

Lemma filter_length_perm {A : Type} (p : A -> bool) (l l' : list A) :
  Permutation l l' ->
  List.length (filter p l) = List.length (filter p l').
Proof.
  induction 1 as [|x l l' _ IH|x y l|l l' l'' _ IH1 _ IH2]; cbn.
  - reflexivity.
  - destruct (p x); cbn; now rewrite IH.
  - destruct (p x), (p y); reflexivity.
  - now rewrite IH1.
Qed.

Lemma count_scores_In (k : string) (n : Z) :
  In (k, n)
     (Rec.count_scores (Rec.liked_feedback db (Rec.similar_user_ids db user))) ->
  n = Spec.helpful_count db user k.
Proof.
  intros H. unfold Rec.count_scores in H.
  apply get_In in H; [|apply count_scores_keys; constructor].
  rewrite count_scores_get in H. cbn in H. subst n.
  unfold Spec.helpful_count, Rec.len, Rec.liked_feedback. f_equal.
  symmetry. apply filter_length_perm, sort_desc_perm.
Qed.

Lemma find_resource_id (id : string) (r : Resource) :
  Rec.find_resource db id = Some r -> r_id r = id /\ In r (resources db).
Proof.
  intros H. apply find_some in H. destruct H as [Hin E].
  now apply String.eqb_eq in E.
Qed.

(** Collaborative filtering, the part of C6 that holds: without peers the
    result is empty; every score is the number of helpful feedback records
    the peers left on the item; the result is sorted by that number,
    descending. *)
Lemma collaborative_counts_sorted (resources : list Resource) (limit : Z) :
  let out := Rec._apply_collaborative_filtering db user resources limit in
  (Rec.similar_user_ids db user = [] -> out = [])
  /\ (forall rec, In rec out ->
        Rec.recommendation_score rec
        = inject_Z (Spec.helpful_count db user (Rec.rec_id rec)))
  /\ StronglySorted (Py.desc Rec.recommendation_score) out.
Proof.
  intros out. subst out. unfold Rec._apply_collaborative_filtering.
  split; [now intros ->|].
  destruct (negb (truthy (Rec.similar_user_ids db user)));
    [split; [intros ? []|constructor]|].
  destruct (negb (forallb _ _)); [split; [intros ? []|constructor]|].
  set (scores := Rec.count_scores _).
  set (sorted := Py.slice_to limit _).
  assert (Hin : forall e, In e sorted -> In e scores).
  { intros e He. unfold sorted in He.
    now apply slice_to_In, sort_desc_In in He. }
  assert (Hs : StronglySorted (Py.desc (fun x => inject_Z (snd x))) sorted)
    by apply slice_to_sorted, sort_key_desc_sorted.
  split.
  - intros rec H. apply in_flat_map in H. destruct H as ([k n] & He & H).
    destruct (Rec.find_resource db k) as [r|] eqn:F; [|destruct H].
    destruct H as [<-|[]]. cbn. unfold Rec.rec_id. cbn.
    apply find_resource_id in F. destruct F as [-> _].
    f_equal. apply count_scores_In. now apply Hin.
  - clear Hin. induction Hs as [|[k n] l Hs IH Hall]; cbn; [constructor|].
    destruct (Rec.find_resource db k) as [r|]; [|exact IH].
    cbn. constructor; [exact IH|].
    apply Forall_forall. intros rec H. apply in_flat_map in H.
    destruct H as ([k' n'] & He & H).
    destruct (Rec.find_resource db k') as [r'|]; [|destruct H].
    destruct H as [<-|[]]. unfold Py.desc. cbn.
    rewrite Forall_forall in Hall. apply (Hall _ He).
Qed.
End Collaborative.

(** C6, at the failing input.  Alice has already completed course [r1];
    the candidate query excludes it, yet the collaborative stage returns it
    because Bob marked it as helpful. *)
Theorem collaborative_returns_interacted_course :
  Py.mem_str "r1" (map fst (u_interactions Fixtures.alice_done)) = true
  /\ filter (Rec.matches (Rec.build_query Fixtures.alice_done None))
            (resources Fixtures.db_liked_done) = []
  /\ map Rec.rec_id
         (Rec._apply_collaborative_filtering
            Fixtures.db_liked_done Fixtures.alice_done [] 2) = ["r1"]
  /\ map Rec.rec_id
         (Rec.get_personalized_recommendations
            Fixtures.db_liked_done Fixtures.alice_done 2 None) = ["r1"].
Proof. vm_compute. repeat split; reflexivity. Qed.

(** ** The orchestrator *)

Lemma personalized_length (db : DB) (user : User) (limit : Z)
    (filters : option Rec.Filters) :
  0 <= limit ->
  Rec.len (Rec.get_personalized_recommendations db user limit filters) <= limit.
Proof.
  intros H. unfold Rec.get_personalized_recommendations, Rec.len.
  now apply slice_to_length.
Qed.

(** C1, at the failing input.  Alice and Bob share an interest and a skill
    level, Bob marked the only course as helpful, and Alice asks for two
    recommendations: the collaborative stage selects the course, the
    content-based stage selects it again, and the result lists it twice. *)
Theorem personalized_lists_liked_course_twice :
  map Rec.rec_id
      (Rec.get_personalized_recommendations
         Fixtures.db_liked Fixtures.alice 2 None) = ["r1"; "r1"]
  /\ ~ NoDup (map Rec.rec_id
                (Rec.get_personalized_recommendations
                   Fixtures.db_liked Fixtures.alice 2 None)).
Proof.
  assert (E : map Rec.rec_id
                (Rec.get_personalized_recommendations
                   Fixtures.db_liked Fixtures.alice 2 None) = ["r1"; "r1"])
    by (vm_compute; reflexivity).
  split; [exact E|].
  rewrite E. intros N. inversion N as [|? ? Hnot _]; subst.
  apply Hnot. now left.
Qed.

(** ** The cold-start pools *)

Section ColdStart.
Implicit Types (courses pool : list Resource) (recs : list Rec.ScoredRec).

Lemma rec_id_scored_as score reason pool :
  map Rec.rec_id (Spec.scored_as score reason pool) = map r_id pool.
Proof. unfold Spec.scored_as. rewrite map_map. reflexivity. Qed.

Lemma len_scored_as score reason pool :
  Rec.len (Spec.scored_as score reason pool) = Rec.len pool.
Proof. unfold Rec.len, Spec.scored_as. now rewrite length_map. Qed.

Lemma len_app {A : Type} (l1 l2 : list A) :
  Rec.len (l1 ++ l2) = Rec.len l1 + Rec.len l2.
Proof. unfold Rec.len. rewrite length_app. lia. Qed.

Lemma keep_mem recs c :
  Spec.keep recs c = negb (Py.mem_str (r_id c) (map Rec.rec_id recs)).
Proof.
  unfold Spec.keep, Py.mem_str. f_equal.
  induction recs as [|r recs IH]; [reflexivity|].
  cbn. rewrite IH. f_equal. apply String.eqb_sym.
Qed.

Lemma keep_snoc recs c x score reason :
  r_id c <> r_id x ->
  Spec.keep (recs ++ Spec.scored_as score reason [c]) x = Spec.keep recs x.
Proof.
  intros Hne. unfold Spec.keep. rewrite existsb_app. cbn.
  apply String.eqb_neq in Hne. unfold Rec.rec_id at 2. cbn.
  rewrite Hne. now rewrite !orb_false_r.
Qed.

Lemma add_new_filter reason score cap courses :
  forall added recs,
    NoDup (map r_id courses) ->
    Rec.add_new reason score cap added courses recs
    = recs ++ Spec.scored_as score reason
                (firstn (Z.to_nat (cap - added))
                   (filter (Spec.keep recs) courses)).
Proof.
  induction courses as [|c rest IH]; intros added recs Hnd.
  - cbn. rewrite firstn_nil. cbn. now rewrite app_nil_r.
  - cbn [Rec.add_new map] in *. apply NoDup_cons_iff in Hnd.
    destruct Hnd as [Hc Hrest].
    destruct (cap <=? added) eqn:Cap.
    + replace (Z.to_nat (cap - added)) with 0%nat by lia.
      cbn. now rewrite app_nil_r.
    + cbn [filter]. unfold Spec.keep at 1.
      destruct (existsb _ recs) eqn:Ex; cbn [negb].
      * now apply IH.
      * rewrite IH by assumption.
        replace (Z.to_nat (cap - added))
          with (S (Z.to_nat (cap - (added + 1)))) by lia.
        cbn [firstn Spec.scored_as map]. rewrite <- app_assoc. cbn [app].
        erewrite filter_ext_in; [reflexivity|].
        intros x Hx. apply (keep_snoc recs c x score reason).
        intros E. apply Hc. rewrite E. now apply in_map.
Qed.

Lemma keep_not_selected score reason pool :
  forall x, Spec.keep (Spec.scored_as score reason pool) x
            = Spec.not_selected pool x.
Proof.
  intros x. rewrite keep_mem, rec_id_scored_as. reflexivity.
Qed.

(** Distinct ids survive sorting, truncation and selection. *)
Lemma ids_sorted gt courses :
  NoDup (map r_id courses) -> NoDup (map r_id (Py.sort_desc gt courses)).
Proof.
  apply Permutation_NoDup, Permutation_map, sort_desc_perm.
Qed.

Lemma ids_firstn (n : nat) courses :
  NoDup (map r_id courses) -> NoDup (map r_id (firstn n courses)).
Proof.
  intros H. rewrite <- (firstn_skipn n courses), map_app in H.
  now apply NoDup_app_remove_r in H.
Qed.

Lemma ids_filter (p : Resource -> bool) courses :
  NoDup (map r_id courses) -> NoDup (map r_id (filter p courses)).
Proof.
  induction courses as [|c rest IH]; cbn; [trivial|].
  rewrite NoDup_cons_iff. intros [Hc Hrest].
  destruct (p c); [cbn; constructor|]; auto.
  rewrite in_map_iff. intros (y & E & Hy).
  apply Hc. rewrite <- E. apply in_map.
  now apply filter_In in Hy.
Qed.

Lemma not_selected_spec pool x :
  Spec.not_selected pool x = true -> ~ In (r_id x) (map r_id pool).
Proof.
  unfold Spec.not_selected, Py.mem_str. rewrite negb_true_iff.
  intros H Hin.
  assert (E : existsb (String.eqb (r_id x)) (map r_id pool) = true).
  { apply existsb_exists. exists (r_id x). split; [assumption|].
    apply String.eqb_refl. }
  congruence.
Qed.
End ColdStart.

Lemma cold_start_blend_eq (db : DB) (user : User) (limit : Z) :
  NoDup (map r_id (resources db)) ->
  Rec.get_cold_start_recommendations db user limit
  = Py.slice_to limit (Pools.cold_start_blend db limit).
Proof.
  intros Hnd. unfold Rec.get_cold_start_recommendations.
  fold (Spec.share limit).
  change (map _ (firstn (Z.to_nat (Spec.share limit))
                   (Py.sort_desc Rec.by_rating_likes
                      (filter _ (resources db)))))
    with (Spec.scored_as 5 "Great for beginners" (Pools.beginner_pool db limit)).
  assert (Hsorted : forall gt n,
             NoDup (map r_id (firstn n (Py.sort_desc gt (resources db))))).
  { intros gt n. now apply ids_firstn, ids_sorted. }
  rewrite add_new_filter by apply Hsorted.
  rewrite Z.sub_0_r.
  rewrite (filter_ext _ _ (keep_not_selected 5 "Great for beginners"
                             (Pools.beginner_pool db limit))).
  fold (Pools.rated_candidates db limit). fold (Pools.rated_pool db limit).
  rewrite len_app, !len_scored_as.
  replace (limit - (Rec.len (Pools.beginner_pool db limit)
                    + Rec.len (Pools.rated_pool db limit)))
    with (Pools.remaining db limit) by (unfold Pools.remaining; lia).
  f_equal. unfold Pools.cold_start_blend, Pools.recent_pool,
    Pools.recent_candidates.
  destruct (0 <? Pools.remaining db limit).
  - rewrite add_new_filter by apply Hsorted.
    rewrite Z.sub_0_r, <- app_assoc. do 4 f_equal.
    apply filter_ext. intros x.
    rewrite keep_mem, map_app, !rec_id_scored_as, <- map_app. reflexivity.
  - cbn. now rewrite app_nil_r.
Qed.

Lemma rated_pool_not_selected (db : DB) (limit : Z) (x : Resource) :
  In x (Pools.rated_pool db limit) ->
  ~ In (r_id x) (map r_id (Pools.beginner_pool db limit)).
Proof.
  unfold Pools.rated_pool. intros H.
  apply firstn_incl, filter_In in H. now apply not_selected_spec.
Qed.

Lemma recent_pool_not_selected (db : DB) (limit : Z) (x : Resource) :
  In x (Pools.recent_pool db limit) ->
  ~ In (r_id x)
      (map r_id (Pools.beginner_pool db limit ++ Pools.rated_pool db limit)).
Proof.
  unfold Pools.recent_pool. destruct (0 <? Pools.remaining db limit);
    [|intros []].
  intros H. apply firstn_incl, filter_In in H. now apply not_selected_spec.
Qed.

Lemma cold_start_blend_NoDup (db : DB) (limit : Z) :
  NoDup (map r_id (resources db)) ->
  NoDup (map Rec.rec_id (Pools.cold_start_blend db limit)).
Proof.
  intros Hnd. unfold Pools.cold_start_blend.
  rewrite !map_app, !rec_id_scored_as.
  assert (N1 : NoDup (map r_id (Pools.beginner_pool db limit))).
  { now apply ids_firstn, ids_sorted, ids_filter. }
  assert (N2 : NoDup (map r_id (Pools.rated_pool db limit))).
  { now apply ids_firstn, ids_filter, ids_firstn, ids_sorted. }
  assert (N3 : NoDup (map r_id (Pools.recent_pool db limit))).
  { unfold Pools.recent_pool. destruct (0 <? Pools.remaining db limit);
      [|constructor].
    now apply ids_firstn, ids_filter, ids_firstn, ids_sorted. }
  apply NoDup_app; [exact N1| |].
  - apply NoDup_app; [exact N2|exact N3|].
    intros id H2 H3. apply in_map_iff in H3. destruct H3 as (x & <- & Hx).
    apply (recent_pool_not_selected db limit x Hx).
    rewrite map_app. apply in_or_app. now right.
  - intros id H1 H23. apply in_app_or in H23. destruct H23 as [H2|H3].
    + apply in_map_iff in H2. destruct H2 as (x & <- & Hx).
      now apply (rated_pool_not_selected db limit x Hx).
    + apply in_map_iff in H3. destruct H3 as (x & <- & Hx).
      apply (recent_pool_not_selected db limit x Hx).
      rewrite map_app. apply in_or_app. now left.
Qed.

Lemma len_firstn_le {A : Type} (n : Z) (l : list A) :
  0 <= n -> Rec.len (firstn (Z.to_nat n) l) <= n.
Proof. intros H. unfold Rec.len. rewrite length_firstn. lia. Qed.

(** C7, as stated, fails: with six Advanced courses, no Beginner course and
    a limit of six, the target share is two; the Beginner pool is empty and
    the third pool contributes four entries, its own share and the two the
    Beginner pool did not fill. *)
Lemma cold_start_third_pool_takes_shortfall :
  let out :=
    Rec.get_cold_start_recommendations Fixtures.db_advanced Fixtures.alice 6 in
  Spec.share 6 = 2
  /\ Spec.pool_count 5 out = 0
  /\ Spec.pool_count 4 out = 2
  /\ Spec.pool_count 3 out = 4
  /\ ~ Spec.pool_count 3 out <= Spec.share 6.
Proof. vm_compute. repeat split; try reflexivity. intros H. now apply H. Qed.

(** The two orders of the queries are total preorders, and the comparators
    of the sort decide them. *)
Lemma rating_likes_trans (a b c : Resource) :
  Spec.rating_likes_desc a b -> Spec.rating_likes_desc b c ->
  Spec.rating_likes_desc a c.
Proof.
  unfold Spec.rating_likes_desc.
  intros [H1|[E1 L1]] [H2|[E2 L2]].
  - left. eapply Qlt_trans; eassumption.
  - left. now rewrite <- E2.
  - left. now rewrite E1.
  - right. split; [now rewrite E1|lia].
Qed.

Lemma by_rating_likes_before (x y : Resource) :
  Rec.by_rating_likes y x = true -> Spec.rating_likes_desc y x.
Proof.
  unfold Rec.by_rating_likes, Spec.rating_likes_desc.
  rewrite orb_true_iff, andb_true_iff, Qltb_lt, Z.ltb_lt.
  intros [H|[E L]]; [now left|right].
  apply Qeq_bool_iff in E. split; [now symmetry|lia].
Qed.

Lemma by_rating_likes_after (x y : Resource) :
  Rec.by_rating_likes y x = false -> Spec.rating_likes_desc x y.
Proof.
  unfold Rec.by_rating_likes, Spec.rating_likes_desc.
  rewrite orb_false_iff, Qltb_ge. intros [Hle H].
  destruct (Qlt_le_dec (r_rating y) (r_rating x)) as [Hlt|Hge];
    [now left|right].
  assert (E : (r_rating x == r_rating y)%Q) by now apply Qle_antisym.
  split; [exact E|].
  apply Qeq_bool_iff in E. rewrite E in H. cbn in H.
  apply Z.ltb_ge in H. exact H.
Qed.

Lemma created_likes_trans (a b c : Resource) :
  Spec.created_likes_desc a b -> Spec.created_likes_desc b c ->
  Spec.created_likes_desc a c.
Proof. unfold Spec.created_likes_desc. lia. Qed.

Lemma by_created_likes_before (x y : Resource) :
  Rec.by_created_likes y x = true -> Spec.created_likes_desc y x.
Proof.
  unfold Rec.by_created_likes, Spec.created_likes_desc.
  rewrite orb_true_iff, andb_true_iff, !Z.ltb_lt, Z.eqb_eq. lia.
Qed.

Lemma by_created_likes_after (x y : Resource) :
  Rec.by_created_likes y x = false -> Spec.created_likes_desc x y.
Proof.
  unfold Rec.by_created_likes, Spec.created_likes_desc.
  rewrite orb_false_iff, andb_false_iff, !Z.ltb_ge, Z.eqb_neq. lia.
Qed.

Section Best.
Variables (gt : Resource -> Resource -> bool)
          (before : Resource -> Resource -> Prop).
Hypothesis before_trans :
  forall a b c, before a b -> before b c -> before a c.
Hypothesis gt_before : forall x y, gt y x = true -> before y x.
Hypothesis ngt_before : forall x y, gt y x = false -> before x y.

(** The first [n] documents of a filtered, sorted query are the best [n]
    of the collection. *)
Lemma sorted_query_best (n : Z) (p : Resource -> bool) (P : Resource -> Prop)
    (all : list Resource) :
  0 <= n -> (forall r, p r = true <-> P r) ->
  Spec.best_of before n P all
    (firstn (Z.to_nat n) (Py.sort_desc gt (filter p all))).
Proof.
  intros Hn Hp.
  set (sorted := Py.sort_desc gt (filter p all)).
  assert (Hs : StronglySorted before sorted).
  { apply (sort_primary_sorted gt (fun r => r) (fun a b => before b a)).
    - intros a b c H1 H2. eapply before_trans; eassumption.
    - intros x y. apply gt_before.
    - intros x y. apply ngt_before. }
  assert (Hin : forall x, In x sorted <-> In x all /\ P x).
  { intros x. unfold sorted. rewrite sort_desc_In, filter_In, Hp. tauto. }
  pose proof (firstn_skipn (Z.to_nat n) sorted) as Split.
  repeat split.
  - rewrite <- Split in Hs. now apply sorted_prefix in Hs.
  - apply Hin. eapply firstn_incl. eassumption.
  - apply Hin. eapply firstn_incl. eassumption.
  - rewrite length_firstn. lia.
  - rewrite length_firstn. intros Hlt x Hx HP.
    rewrite firstn_all2 by lia. now apply Hin.
  - intros x y Hx HP Hout Hy.
    assert (Hx' : In x sorted) by now apply Hin.
    rewrite <- Split in Hx', Hs.
    apply in_app_or in Hx'. destruct Hx' as [Hx'|Hx']; [contradiction|].
    now apply (sorted_app_le _ _ _ Hs).
Qed.
End Best.

Lemma Level_eqb_true (a b : Level) : Level_eqb a b = true <-> a = b.
Proof. destruct a, b; cbn; split; congruence. Qed.

Lemma fresh_not_selected (selected : list Resource) (r : Resource) :
  Spec.fresh selected r = Spec.not_selected selected r.
Proof.
  unfold Spec.fresh, Spec.not_selected.
  destruct (in_dec string_dec (r_id r) (map r_id selected)) as [H|H].
  - apply mem_str_iff in H. now rewrite H.
  - symmetry. apply negb_true_iff, not_true_is_false.
    intros M. now apply mem_str_iff in M.
Qed.

Lemma filter_all {A : Type} (l : list A) : filter (fun _ => true) l = l.
Proof. induction l as [|x l IH]; cbn; [reflexivity|now rewrite IH]. Qed.

(** C7, amended.  For a limit [limit >= 0] and a collection without
    repeated ids, let [share] be [max 1 (limit / 3)].  The result is the
    first [limit] entries of three pools in this order.  The first pool
    holds the best [share] Beginner courses by (rating, likes) descending,
    with score 5.  The second holds the first [share] of the best
    [2 * share] courses by (rating, likes) descending that are not in the
    first pool, with score 4.  The third holds, of the [2 * remaining] most
    recently created courses by (created, likes) descending, the first
    [remaining] that are in neither earlier pool, with score 3, where
    [remaining] is what the first two pools left of [limit].  What the first
    two pools do not fill is thus handed to the third.  The result has no
    repeated id and at most [limit] entries. *)
Theorem cold_start_pools (db : DB) (user : User) (limit : Z) :
  NoDup (map r_id (resources db)) ->
  0 <= limit ->
  let out := Rec.get_cold_start_recommendations db user limit in
  let share := Z.max 1 (limit / 3) in
  (exists beginners rated recent : list Resource,
      let second :=
        firstn (Z.to_nat share) (filter (Spec.fresh beginners) rated) in
      let remaining :=
        limit - Z.of_nat (List.length beginners)
        - Z.of_nat (List.length second) in
      let third :=
        firstn (Z.to_nat remaining)
               (filter (Spec.fresh (beginners ++ second)) recent) in
      Spec.best_of Spec.rating_likes_desc share
        (fun r => r_difficulty r = Beginner) (resources db) beginners
      /\ Spec.best_of Spec.rating_likes_desc (2 * share)
           (fun _ => True) (resources db) rated
      /\ Spec.best_of Spec.created_likes_desc (Z.max 0 (2 * remaining))
           (fun _ => True) (resources db) recent
      /\ out = firstn (Z.to_nat limit)
                 (Spec.scored_as 5 "Great for beginners" beginners
                  ++ Spec.scored_as 4 "Highly rated by learners" second
                  ++ Spec.scored_as 3 "Trending content" third))
  /\ NoDup (map Rec.rec_id out)
  /\ Z.of_nat (List.length out) <= limit.
Proof.
  intros Hnd Hl out share. subst share. fold (Spec.share limit).
  assert (E : out = Py.slice_to limit (Pools.cold_start_blend db limit))
    by now apply cold_start_blend_eq.
  assert (Hshare : 0 <= Spec.share limit) by (unfold Spec.share; lia).
  split; [|split].
  - exists (Pools.beginner_pool db limit), (Pools.rated_candidates db limit),
      (firstn (Z.to_nat (Z.max 0 (2 * Pools.remaining db limit)))
         (Py.sort_desc Rec.by_created_likes (resources db))).
    cbv zeta.
    rewrite (filter_ext _ _ (fresh_not_selected (Pools.beginner_pool db limit))).
    fold (Pools.rated_pool db limit).
    rewrite (filter_ext _ _ (fresh_not_selected
                               (Pools.beginner_pool db limit
                                ++ Pools.rated_pool db limit))).
    change (limit - Z.of_nat (List.length (Pools.beginner_pool db limit))
            - Z.of_nat (List.length (Pools.rated_pool db limit)))
      with (Pools.remaining db limit).
    split; [|split; [|split]].
    + apply (sorted_query_best Rec.by_rating_likes Spec.rating_likes_desc
               rating_likes_trans by_rating_likes_before
               by_rating_likes_after (Spec.share limit)
               (fun r => Level_eqb (r_difficulty r) Beginner));
        [exact Hshare|].
      intros r. apply Level_eqb_true.
    + unfold Pools.rated_candidates.
      rewrite <- (filter_all (resources db)) at 2.
      replace (Spec.share limit * 2) with (2 * Spec.share limit) by lia.
      apply (sorted_query_best Rec.by_rating_likes Spec.rating_likes_desc
               rating_likes_trans by_rating_likes_before
               by_rating_likes_after (2 * Spec.share limit)
               (fun _ => true)); [lia|].
      intros r. tauto.
    + rewrite <- (filter_all (resources db)) at 2.
      apply (sorted_query_best Rec.by_created_likes Spec.created_likes_desc
               created_likes_trans by_created_likes_before
               by_created_likes_after
               (Z.max 0 (2 * Pools.remaining db limit))
               (fun _ => true)); [lia|].
      intros r. tauto.
    + rewrite E. unfold Py.slice_to.
      destruct (limit <? 0) eqn:L; [lia|]. f_equal.
      unfold Pools.cold_start_blend, Pools.recent_pool,
        Pools.recent_candidates. do 3 f_equal.
      destruct (0 <? Pools.remaining db limit) eqn:R.
      * apply Z.ltb_lt in R.
        replace (Z.max 0 (2 * Pools.remaining db limit))
          with (Pools.remaining db limit * 2) by lia.
        reflexivity.
      * apply Z.ltb_ge in R.
        replace (Z.to_nat (Pools.remaining db limit)) with 0%nat by lia.
        reflexivity.
  - rewrite E.
    destruct (slice_to_prefix limit (Pools.cold_start_blend db limit))
      as [rest P].
    pose proof (cold_start_blend_NoDup db limit Hnd) as N.
    rewrite P, map_app in N. now apply NoDup_app_remove_r in N.
  - rewrite E. now apply slice_to_length.
Qed.

Lemma cold_start_pools_witness :
  NoDup (map r_id (resources Fixtures.db_advanced))
  /\ 0 <= 6
  /\ Z.of_nat (List.length
                 (Rec.get_cold_start_recommendations
                    Fixtures.db_advanced Fixtures.alice 6)) <= 6.
Proof.
  assert (H : NoDup (map r_id (resources Fixtures.db_advanced))).
  { cbn. repeat (constructor; [cbn; intuition discriminate|]). constructor. }
  split; [exact H|]. split; [lia|].
  apply (cold_start_pools Fixtures.db_advanced Fixtures.alice 6 H). lia.
Defined.

(** C10.  The cold-start result is the same for any two users: it is a
    function of the resource collection and of the limit. *)
Theorem cold_start_ignores_user (db : DB) (u1 u2 : User) (limit : Z) :
  Rec.get_cold_start_recommendations db u1 limit
  = Rec.get_cold_start_recommendations db u2 limit.
Proof. reflexivity. Qed.

(** ** Semantic search *)

Lemma similarities_scored (cos : vec -> vec -> Q) (qe : vec)
    (cands : list Resource) (sims : list (Resource * Q)) :
  ML.similarities cos qe cands = Some sims -> sims = Spec.scored cos qe cands.
Proof.
  revert sims. unfold Spec.scored.
  induction cands as [|r cands IH]; cbn [ML.similarities]; intros sims H.
  - now inversion H.
  - cbn [filter]. destruct (r_embedding r) as [[|x e]|] eqn:E; cbn.
    + now apply IH.
    + destruct (ML.cosine_similarity cos qe (x :: e)) as [s|] eqn:C;
        [|discriminate].
      destruct (ML.similarities cos qe cands) as [sims'|]; [|discriminate].
      unfold ML.cosine_similarity in C.
      destruct (_ && _)%bool; inversion C; subst s.
      inversion H; subst sims. f_equal; [now rewrite E|now apply IH].
    + now apply IH.
Qed.

Lemma tied_sort (c : Q) (l : list (Resource * Q)) :
  Spec.tied c (Py.sort_key_desc snd l) = Spec.tied c l.
Proof.
  apply sort_desc_stable. intros a b Ha Hb.
  apply Qeq_bool_iff in Ha, Hb. apply Qltb_ge.
  rewrite Ha, Hb. apply Qle_refl.
Qed.

(** C3, as stated, fails: two candidates with the same embedding have the
    same similarity, and the result keeps the lower rated one first. *)
Lemma semantic_search_ties_not_by_rating :
  ~ Spec.ties_broken
      (ML.semantic_search Fixtures.unit_cos (Some Fixtures.axis_model) "q"
         [Fixtures.low; Fixtures.high] 2).
Proof.
  intros H.
  specialize (H 0%nat 1%nat (Fixtures.low, 1%Q) (Fixtures.high, 1%Q)).
  vm_compute in H.
  assert (F : false = true) by (apply H; try reflexivity; constructor).
  discriminate.
Qed.

(** C3, amended.  For a bound [k >= 0] the search returns at most [k]
    results, sorted by non-increasing similarity; candidates of equal
    similarity keep the order they have in the candidate list: the results
    of any one similarity are an initial part of the candidates of that
    similarity. *)
Theorem semantic_search_sorted_stable (cos : vec -> vec -> Q)
    (sentence_model : option ML.SentenceModel) (query : string)
    (candidates : list Resource) (k : Z) :
  0 <= k ->
  let out := ML.semantic_search cos sentence_model query candidates k in
  Z.of_nat (List.length out) <= k
  /\ StronglySorted (Py.desc snd) out
  /\ forall encode c, sentence_model = Some encode ->
       exists rest,
         Spec.tied c (Spec.scored cos (encode query) candidates)
         = Spec.tied c out ++ rest.
Proof.
  intros Hk out. subst out. unfold ML.semantic_search.
  destruct sentence_model as [encode|].
  2:{ repeat split; [cbn; lia|constructor|discriminate]. }
  destruct (negb (truthy candidates)) eqn:T.
  { repeat split; [cbn; lia|constructor|].
    intros ? c _. eexists. reflexivity. }
  destruct (ML.similarities cos (encode query) candidates) as [sims|] eqn:S.
  2:{ repeat split; [cbn; lia|constructor|].
      intros ? c _. eexists. reflexivity. }
  apply similarities_scored in S. subst sims.
  split; [now apply slice_to_length|].
  split; [apply slice_to_sorted, sort_key_desc_sorted|].
  intros e c E. inversion E; subst e.
  set (L := Py.sort_key_desc snd _).
  destruct (slice_to_prefix k L) as [rest R].
  exists (Spec.tied c rest).
  unfold Spec.tied at 2 3. rewrite <- filter_app.
  fold (Spec.tied c (Py.slice_to k L ++ rest)). rewrite <- R.
  unfold L. now rewrite tied_sort.
Qed.

Lemma semantic_search_sorted_stable_witness :
  StronglySorted (Py.desc snd)
    (ML.semantic_search Fixtures.unit_cos (Some Fixtures.axis_model) "q"
       [Fixtures.low; Fixtures.high] 2).
Proof.
  apply (semantic_search_sorted_stable Fixtures.unit_cos
           (Some Fixtures.axis_model) "q" [Fixtures.low; Fixtures.high] 2).
  lia.
Defined.

(** C9, at the failing input.  With one stored embedding of three components
    among candidates of two, the search returns nothing, although the two
    well-formed candidates alone are both returned. *)
Theorem semantic_search_aborts_on_malformed :
  ML.semantic_search Fixtures.unit_cos (Some Fixtures.axis_model) "q"
    [Fixtures.low; Fixtures.malformed; Fixtures.high] 2 = []
  /\ ML.semantic_search Fixtures.unit_cos (Some Fixtures.axis_model) "q"
       [Fixtures.low; Fixtures.high] 2
     = [(Fixtures.low, 1%Q); (Fixtures.high, 1%Q)].
Proof. split; vm_compute; reflexivity. Qed.

(** ** Search without a model *)

Lemma keyword_search_In (db : DB) (query : string) (limit : Z)
    (h : SearchSvc.Hit) :
  In h (SearchSvc.keyword_search db query limit) ->
  exists r, In r (resources db)
            /\ 0 < fst (SearchSvc.keyword_score query r)
            /\ h = SearchSvc.KeywordHit r
                     (fst (SearchSvc.keyword_score query r))
                     (SearchSvc.join (snd (SearchSvc.keyword_score query r))).
Proof.
  unfold SearchSvc.keyword_search. intros H.
  apply slice_to_In, sort_desc_In, in_flat_map in H.
  destruct H as (r & Hr & H). exists r.
  destruct (SearchSvc.keyword_score query r) as [score reasons].
  destruct (0 <? score) eqn:P; [|destruct H].
  destruct H as [<-|[]]. cbn. repeat split; [assumption|lia].
Qed.

(** The one case in which the search does fall back: no document has the
    [embedding] field. *)
Lemma semantic_search_without_field (cos : vec -> vec -> Q)
    (sentence_model : option ML.SentenceModel) (db : DB) (query : string)
    (limit : Z) :
  (forall r, In r (resources db) -> r_embedding r = None) ->
  SearchSvc.semantic_search cos sentence_model db query limit
  = SearchSvc.keyword_search db query limit.
Proof.
  intros Hnone. unfold SearchSvc.semantic_search.
  replace (filter _ (resources db)) with (@nil Resource); [reflexivity|].
  symmetry. induction (resources db) as [|r l IH]; [reflexivity|].
  cbn [filter]. rewrite (Hnone r) by now left.
  apply IH. intros r' H'. apply Hnone. now right.
Qed.

(** Without a model, a single document with the [embedding] field empties
    the result of every query. *)
Lemma semantic_search_without_model (cos : vec -> vec -> Q) (db : DB)
    (query : string) (limit : Z) :
  (exists r, In r (resources db) /\ r_embedding r <> None) ->
  SearchSvc.semantic_search cos None db query limit = [].
Proof.
  intros (r & Hr & He). unfold SearchSvc.semantic_search.
  destruct (filter _ (resources db)) as [|x l] eqn:F; [|reflexivity].
  assert (H : In r []).
  { rewrite <- F. apply filter_In. split; [exact Hr|].
    destruct (r_embedding r); [reflexivity|contradiction]. }
  destruct H.
Qed.

(** C8, at the failing input.  The corpus holds one course, whose title
    matches the query, and no model is loaded.  The keyword search finds the
    course, but the semantic search returns nothing: it falls back to the
    keyword search only when no document has the [embedding] field, and
    here the field is there, with a vector or, as the application saves a
    new course, with the empty list. *)
Theorem semantic_search_without_model_finds_nothing :
  SearchSvc.keyword_search Fixtures.db_indexed "course" 10
  = [SearchSvc.KeywordHit Fixtures.high 3 "Title matches: 1"]
  /\ SearchSvc.semantic_search Fixtures.unit_cos None
       Fixtures.db_indexed "course" 10 = []
  /\ SearchSvc.keyword_search Fixtures.db_saved "course" 10
     = [SearchSvc.KeywordHit Fixtures.saved 3 "Title matches: 1"]
  /\ SearchSvc.semantic_search Fixtures.unit_cos None
       Fixtures.db_saved "course" 10 = [].
Proof. vm_compute. repeat split; reflexivity. Qed.

(** ** Scoring of tasks *)

Section TaskScoring.
Variable cos : vec -> vec -> Q.
Variables (db : DB) (user : User) (qe : vec).

Lemma cosine_similarity_defined (a b : vec) (D : nat) :
  (D <> 0)%nat -> List.length a = D -> List.length b = D ->
  ML.cosine_similarity cos a b = Some (cos a b).
Proof.
  intros HD Ha Hb. unfold ML.cosine_similarity.
  rewrite Ha, Hb, Nat.eqb_refl.
  destruct (Nat.eqb_spec D 0); [contradiction|reflexivity].
Qed.

Lemma cosine_similarity_some (a b : vec) (c : Q) :
  ML.cosine_similarity cos a b = Some c <->
  List.length a = List.length b /\ a <> [] /\ c = cos a b.
Proof.
  unfold ML.cosine_similarity.
  destruct (Nat.eqb_spec (List.length a) (List.length b)) as [E|N];
    destruct (Nat.eqb_spec (List.length a) 0) as [Z|NZ]; cbn.
  - split; [discriminate|]. intros (_ & Ha & _).
    apply length_zero_iff_nil in Z. contradiction.
  - split.
    + intros [= <-]. repeat split; [exact E|].
      intros ->. now apply NZ.
    + intros (_ & _ & ->). reflexivity.
  - split; [discriminate|]. intros (E & _). contradiction.
  - split; [discriminate|]. intros (E & _). contradiction.
Qed.

Lemma find_task_In (id : string) (h : Task) :
  Tasks.find_task db id = Some h -> In h (tasks db).
Proof. intros H. apply find_some in H. apply H. Qed.

Lemma history_eq : Spec.history db user = Tasks.user_feedback_history db user.
Proof.
  unfold Spec.history, Tasks.user_feedback_history.
  apply filter_ext. intros f.
  destruct (string_dec (tf_user f) (u_id user)) as [E|N].
  - symmetry. now apply String.eqb_eq.
  - symmetry. now apply String.eqb_neq.
Qed.

Lemma find_head {A : Type} (p : A -> bool) (l : list A) :
  find p l = match filter p l with x :: _ => Some x | [] => None end.
Proof.
  induction l as [|x l IH]; cbn; [reflexivity|].
  destruct (p x); [reflexivity|exact IH].
Qed.

Lemma embedding_by_id_find (id : string) :
  Spec.embedding_by_id db id
  = match Tasks.find_task db id with
    | Some h => match t_embedding h with
                | Some ((_ :: _) as e) => [e]
                | _ => []
                end
    | None => []
    end.
Proof.
  unfold Spec.embedding_by_id, Tasks.find_task, Tasks.Task_objects.
  rewrite find_head.
  rewrite (filter_ext (fun t => String.eqb (t_task_id t) id)
             (fun t => if string_dec (t_task_id t) id then true else false)).
  - destruct (filter _ (tasks db)); reflexivity.
  - intros t. destruct (string_dec (t_task_id t) id) as [E|N].
    + now apply String.eqb_eq.
    + now apply String.eqb_neq.
Qed.

(** The boost loop, started at [b]: it ends exactly when every helpful
    embedding has the dimension of the task's, with the sum of the
    specification. *)
Lemma feedback_boost_spec (te : vec) (history : list TaskFeedback) (b r : Q) :
  let hs := flat_map (fun f => if tf_helpful f
                               then Spec.embedding_by_id db (tf_task_id f)
                               else [])
                     history in
  Tasks.feedback_boost cos db te history b = Some r <->
  (forall h, In h hs -> List.length h = List.length te)
  /\ r = fold_left (fun boost h =>
                      F64.add boost (F64.mul (cos te h) F64.lit_0_3))
                   hs b.
Proof.
  revert b. induction history as [|f history IH]; intros b; cbn.
  - split.
    + intros [= <-]. split; [intros h []|reflexivity].
    + intros [_ ->]. reflexivity.
  - destruct (tf_helpful f); [|apply IH].
    rewrite embedding_by_id_find.
    destruct (Tasks.find_task db (tf_task_id f)) as [h|]; [|apply IH].
    destruct (t_embedding h) as [[|x e]|]; try apply IH.
    cbn [app].
    destruct (ML.cosine_similarity cos te (x :: e)) as [c|] eqn:C.
    + apply cosine_similarity_some in C. destruct C as (El & _ & ->).
      rewrite IH. cbn [fold_left]. split.
      * intros [Hl ->]. split; [|reflexivity].
        intros h' [<-|H']; [now symmetry|now apply Hl].
      * intros [Hl ->]. split; [|reflexivity].
        intros h' H'. apply Hl. now right.
    + split; [discriminate|]. intros [Hl _]. exfalso.
      assert (El : List.length (x :: e) = List.length te)
        by (apply Hl; now left).
      assert (N : ML.cosine_similarity cos te (x :: e)
                  = Some (cos te (x :: e))).
      { apply cosine_similarity_some. repeat split; [now symmetry|].
        intros ->. discriminate. }
      congruence.
Qed.

Lemma opt_level_dec_eqb (a b : option Level) :
  opt_level_eqb a b = if Spec.level_dec a b then true else false.
Proof. apply opt_level_eqb_dec. Qed.

Lemma final_score_spec (T : Task) (s : Q) :
  Tasks.final_score cos db user qe (Tasks.user_feedback_history db user) T
  = Some s <->
  Spec.scorable db user qe T /\ s = Spec.task_score cos db user qe T.
Proof.
  unfold Tasks.final_score, Spec.scorable, Spec.task_score,
    Spec.helpful_boost, Spec.helpful_embeddings.
  rewrite history_eq, opt_level_dec_eqb.
  set (e := embedding_of (t_embedding T)).
  set (hs := flat_map _ (Tasks.user_feedback_history db user)).
  destruct (ML.cosine_similarity cos qe e) as [c|] eqn:C.
  - apply cosine_similarity_some in C. destruct C as (El & Hq & ->).
    assert (He : e <> []).
    { intros E0. rewrite E0 in El. apply length_zero_iff_nil in El.
      contradiction. }
    destruct (Tasks.feedback_boost cos db e _ 0) as [b|] eqn:B.
    + apply feedback_boost_spec in B. destruct B as [Hl ->]. fold hs in Hl.
      split.
      * intros [= <-]. repeat split; auto.
        destruct (Spec.level_dec _ _); reflexivity.
      * intros [_ ->]. destruct (Spec.level_dec _ _); reflexivity.
    + split; [discriminate|]. intros [(_ & _ & Hl) _]. exfalso.
      assert (B' : Tasks.feedback_boost cos db e
                     (Tasks.user_feedback_history db user) 0
                   = Some (fold_left
                             (fun boost h =>
                                F64.add boost (F64.mul (cos e h) F64.lit_0_3))
                             hs 0%Q)).
      { apply feedback_boost_spec. split; [exact Hl|reflexivity]. }
      congruence.
  - split; [discriminate|]. intros [(He & El & _) _]. exfalso.
    assert (C' : ML.cosine_similarity cos qe e = Some (cos qe e)).
    { apply cosine_similarity_some. repeat split; [now symmetry|].
      intros E0. rewrite E0 in El. apply length_zero_iff_nil in El.
      contradiction. }
    congruence.
Qed.

Lemma has_feedback_mem (id : string) :
  Py.mem_str id (map tf_task_id (Tasks.user_feedback_history db user))
  = Tasks.has_feedback db user id.
Proof.
  unfold Py.mem_str, Tasks.has_feedback.
  induction (Tasks.user_feedback_history db user) as [|f l IH];
    [reflexivity|].
  cbn. rewrite IH. f_equal. apply String.eqb_sym.
Qed.

Lemma task_scores_In (T : Task) (s : Q) :
  In (T, s) (Tasks.task_scores cos db user qe) <->
  (In T (Tasks.all_tasks db)
   /\ Tasks.has_feedback db user (t_task_id T) = false)
  /\ Tasks.final_score cos db user qe (Tasks.user_feedback_history db user) T
     = Some s.
Proof.
  unfold Tasks.task_scores, Py.sort_key_desc.
  rewrite sort_desc_In, in_flat_map. split.
  - intros (t & Ht & H). rewrite has_feedback_mem in H.
    destruct (Tasks.has_feedback db user (t_task_id t)) eqn:F; [destruct H|].
    destruct (Tasks.final_score cos db user qe _ t) as [s'|] eqn:S;
      [|destruct H].
    destruct H as [H|[]]. inversion H; subst. auto.
  - intros ((HT & F) & S). exists T. split; [assumption|].
    rewrite has_feedback_mem, F, S. now left.
Qed.

End TaskScoring.

Lemma candidate_spec (db : DB) (user : User) (T : Task) :
  Spec.candidate db user T <->
  In T (Tasks.all_tasks db)
  /\ Tasks.has_feedback db user (t_task_id T) = false.
Proof.
  unfold Spec.candidate, Tasks.all_tasks, Tasks.Task_objects,
    Tasks.has_feedback, Tasks.user_feedback_history.
  rewrite filter_In, andb_true_iff.
  assert (Hemb : t_embedding T <> None
                 <-> match t_embedding T with
                     | Some _ => true | None => false end = true).
  { destruct (t_embedding T); split; congruence. }
  assert (Hfb : (exists f, In f (task_feedbacks db)
                           /\ tf_user f = u_id user
                           /\ tf_task_id f = t_task_id T)
                <-> existsb (fun f => String.eqb (tf_task_id f) (t_task_id T))
                      (filter (fun f => String.eqb (tf_user f) (u_id user))
                              (task_feedbacks db)) = true).
  { rewrite existsb_exists. split.
    - intros (f & Hf & Eu & Et). exists f. split.
      + apply filter_In. split; [exact Hf|now apply String.eqb_eq].
      + now apply String.eqb_eq.
    - intros (f & Hf & Et). apply filter_In in Hf. destruct Hf as [Hf Eu].
      exists f. repeat split; [exact Hf| |]; now apply String.eqb_eq. }
  rewrite Hemb, Hfb, not_true_iff_false. tauto.
Qed.

Lemma all_tasks_nonempty (db : DB) :
  (exists T, In T (tasks db) /\ t_is_active T = true /\ t_embedding T <> None)
  -> Tasks.all_tasks db <> [].
Proof.
  intros (T & HT & Ha & He) E.
  assert (H : In T (Tasks.all_tasks db)).
  { apply filter_In. split; [exact HT|]. rewrite Ha.
    destruct (t_embedding T); [reflexivity|contradiction]. }
  rewrite E in H. destruct H.
Qed.

Lemma string_app_assoc (a b c : string) :
  ((a ++ b) ++ c = a ++ (b ++ c))%string.
Proof.
  induction a as [|x a IH]; cbn; [reflexivity|]. now rewrite IH.
Qed.

Lemma concat_fold (x : string) (l : list string) :
  fold_left (fun acc y => (acc ++ " " ++ y)%string) l x
  = String.concat " " (x :: l).
Proof.
  revert x. induction l as [|y l IH]; intros x; [reflexivity|].
  cbn [fold_left]. rewrite IH.
  change (String.concat " " (x :: y :: l))
    with (x ++ " " ++ String.concat " " (y :: l))%string.
  destruct l as [|z l].
  - reflexivity.
  - change (String.concat " " ((x ++ " " ++ y)%string :: z :: l))
      with ((x ++ " " ++ y) ++ " " ++ String.concat " " (z :: l))%string.
    change (String.concat " " (y :: z :: l))
      with (y ++ " " ++ String.concat " " (z :: l))%string.
    now rewrite !string_app_assoc.
Qed.

Lemma interest_query_text (user : User) :
  Tasks.interest_query user = Spec.interest_text user.
Proof.
  unfold Tasks.interest_query, Spec.interest_text.
  destruct (u_interests user) as [|i rest]; [reflexivity|].
  apply concat_fold.
Qed.

(** C4, as stated, fails: with the base similarity 1, one helpful task of
    similarity 1 and a skill match, the score is 1.4000000000000001; it is
    not 1 + 0.3 + 0.1, and not the float nearest to that sum either. *)
Lemma task_score_is_rounded :
  let T := Fixtures.task "t3" Beginner (Some [1%Q; 0%Q]) in
  let qe := Fixtures.axis_model (Spec.interest_text Fixtures.alice) in
  Tasks.task_scores Fixtures.unit_cos Fixtures.db_same Fixtures.alice qe
  = [(T, (6305039478318695 # 4503599627370496)%Q)]
  /\ (Spec.task_score_exact Fixtures.unit_cos Fixtures.db_same Fixtures.alice
        qe T == 7 # 5)%Q
  /\ ~ ((6305039478318695 # 4503599627370496) == 7 # 5)%Q
  /\ F64.round (7 # 5) <> (6305039478318695 # 4503599627370496)%Q.
Proof.
  split; [vm_compute; reflexivity|].
  split; [vm_compute; reflexivity|].
  split; [vm_compute; discriminate|].
  vm_compute. discriminate.
Qed.

(** C4, amended.  The scoring loop scores exactly the candidates, that is
    the stored, active tasks with the embedding field and without feedback
    from the user, for which the cosines are defined: a task whose embedding
    is empty, or of another dimension than the query embedding or than a
    helpful embedding, is skipped.  The score of a task is, in floats, the
    similarity to the query built from the interests, plus the boost, plus
    0.1 when the skill levels agree, where the boost adds up 0.3 times the
    similarity to each helpful task that has an embedding.  The scored
    tasks are sorted by non-increasing score, and the first fifteen are
    returned in that order. *)
Theorem task_scores_formula_sorted (cos : vec -> vec -> Q) (db : DB)
    (user : User) (encode : ML.SentenceModel) :
  let qe := encode (Spec.interest_text user) in
  let scores := Tasks.task_scores cos db user qe in
  (forall T s, In (T, s) scores <->
      Spec.candidate db user T
      /\ Spec.scorable db user qe T
      /\ s = Spec.task_score cos db user qe T)
  /\ StronglySorted (Py.desc snd) scores
  /\ ((exists T, In T (tasks db) /\ t_is_active T = true
                 /\ t_embedding T <> None) ->
      map Tasks.tr_task (Tasks.ml_tasks cos (Some encode) db user)
      = map fst (firstn 15 scores)).
Proof.
  intros qe scores. split; [|split].
  - intros T s. unfold scores.
    rewrite task_scores_In, final_score_spec, candidate_spec. tauto.
  - apply sort_key_desc_sorted.
  - intros Hex. apply all_tasks_nonempty in Hex. unfold Tasks.ml_tasks.
    rewrite interest_query_text. fold qe. fold scores.
    destruct (0 <? Tasks.len (Tasks.all_tasks db)) eqn:L.
    + rewrite map_map. apply map_ext. reflexivity.
    + unfold Tasks.len in L. destruct (Tasks.all_tasks db); [congruence|].
      cbn in L. lia.
Qed.

(** The scoring stage never returns a task the user gave feedback on. *)
Lemma ml_tasks_skip_feedback (cos : vec -> vec -> Q)
    (sentence_model : option ML.SentenceModel) (db : DB) (user : User)
    (t : Tasks.TaskRec) :
  In t (Tasks.ml_tasks cos sentence_model db user) ->
  Tasks.has_feedback db user (Tasks.tr_id t) = false
  /\ Tasks.completed t = false.
Proof.
  unfold Tasks.ml_tasks. destruct sentence_model as [encode|]; [|intros []].
  destruct (0 <? Tasks.len (Tasks.all_tasks db)); [|intros []].
  intros H. apply in_map_iff in H. destruct H as ([T s] & <- & H).
  apply firstn_incl, task_scores_In in H. destruct H as [[_ F] _].
  cbn. unfold Tasks.tr_id. cbn. now split.
Qed.

(** C5, at the failing input.  Alice has given feedback on task [t1].
    Without a model the mapping strategy recommends [t1]; with a model the
    scoring loop skips [t1] and the last stage adds it back.  Both responses
    list [t1], flagged as completed. *)
Theorem task_with_feedback_is_recommended :
  Tasks.has_feedback Fixtures.db_tasks Fixtures.alice "t1" = true
  /\ Spec.lists_completed "t1"
       (Tasks.get_recommended_tasks Fixtures.unit_cos None
          Fixtures.db_tasks Fixtures.alice "u1") = true
  /\ Spec.lists_completed "t1"
       (Tasks.get_recommended_tasks Fixtures.unit_cos
          (Some Fixtures.axis_model) Fixtures.db_tasks Fixtures.alice "u1")
     = true.
Proof. vm_compute. repeat split; reflexivity. Qed.

(** * Further properties *)

Lemma sorted_map {A B : Type} (f : A -> B) (R : B -> B -> Prop) (l : list A) :
  StronglySorted (fun a b => R (f a) (f b)) l -> StronglySorted R (map f l).
Proof.
  induction 1 as [|x l Hs IH Hall]; cbn; constructor; [exact IH|].
  apply Forall_map. exact Hall.
Qed.

(** ** Content-based filtering and sorting of recommendations *)

(** X1.  The content-based stage returns at most [limit] entries (none for a
    limit that is not positive), sorted by non-increasing score, and every
    entry is one of the first [2 * limit] candidates. *)
Theorem content_based_bounded_sorted (user : User)
    (resources : list Resource) (limit : Z) :
  let out := Rec._apply_content_based_filtering user resources limit in
  Rec.len out <= Z.max 0 limit
  /\ StronglySorted (Py.desc Rec.recommendation_score) out
  /\ forall rec, In rec out ->
       In (Rec.rec_item rec) (firstn (Z.to_nat (limit * 2)) resources).
Proof.
  intros out. subst out. unfold Rec._apply_content_based_filtering.
  destruct (limit * 2 <? 0) eqn:L.
  { repeat split; [unfold Rec.len; cbn; lia|constructor|intros ? []]. }
  apply Z.ltb_ge in L.
  split; [|split].
  - etransitivity; [apply slice_to_length; lia|lia].
  - apply slice_to_sorted, sort_key_desc_sorted.
  - intros rec H.
    apply slice_to_In, sort_desc_In, in_flat_map in H.
    destruct H as (r & Hr & H).
    destruct (Rec.content_score user r) as [score reasons].
    destruct (Py.Qltb 0 score); [|destruct H].
    destruct H as [<-|[]]. exact Hr.
Qed.

(** X2.  Sorting recommendations neither drops nor repeats an entry; for
    the four known criteria the result is in non-increasing order of that
    criterion, and any other criterion leaves the list as it is. *)
Theorem sort_recommendations_perm (recs : list Rec.ScoredRec)
    (sort_by : string) :
  let out := Rec._sort_recommendations recs sort_by in
  Permutation recs out
  /\ (sort_by = "rating" ->
      StronglySorted (Py.desc (fun x => r_rating (Rec.rec_item x))) out)
  /\ (sort_by = "likes" ->
      StronglySorted
        (Py.desc (fun x => inject_Z (r_likes (Rec.rec_item x)))) out)
  /\ (sort_by = "newest" ->
      StronglySorted
        (Py.desc (fun x => inject_Z (r_created_at (Rec.rec_item x)))) out)
  /\ (sort_by = "relevance" ->
      StronglySorted (Py.desc Rec.recommendation_score) out)
  /\ (~ In sort_by ["rating"; "likes"; "newest"; "relevance"] -> out = recs).
Proof.
  intros out. subst out. unfold Rec._sort_recommendations.
  split; [|split; [|split; [|split; [|split]]]].
  - repeat (destruct (String.eqb sort_by _);
            [apply sort_desc_perm|]).
    reflexivity.
  - intros ->. cbn. apply sort_key_desc_sorted.
  - intros ->. cbn. apply sort_key_desc_sorted.
  - intros ->. cbn. apply sort_key_desc_sorted.
  - intros ->. cbn. apply sort_key_desc_sorted.
  - intros Hn.
    destruct (String.eqb_spec sort_by "rating") as [E|_];
      [exfalso; apply Hn; rewrite E; cbn; tauto|].
    destruct (String.eqb_spec sort_by "likes") as [E|_];
      [exfalso; apply Hn; rewrite E; cbn; tauto|].
    destruct (String.eqb_spec sort_by "newest") as [E|_];
      [exfalso; apply Hn; rewrite E; cbn; tauto|].
    destruct (String.eqb_spec sort_by "relevance") as [E|_];
      [exfalso; apply Hn; rewrite E; cbn; tauto|].
    reflexivity.
Qed.

(** ** Where the entries of a personalised result come from *)

Lemma mem_str_In (x : string) (l : list string) :
  Py.mem_str x l = true <-> In x l.
Proof.
  unfold Py.mem_str. rewrite existsb_exists. split.
  - intros (y & Hy & E). apply String.eqb_eq in E. now subst.
  - intros H. exists x. split; [exact H|apply String.eqb_refl].
Qed.

Lemma Level_eqb_eq (a b : Level) : Level_eqb a b = true <-> a = b.
Proof. destruct a, b; cbn; split; congruence. Qed.

Lemma build_query_id_nin (user : User) (filters : option Rec.Filters) :
  Rec.id__nin (Rec.build_query user filters)
  = if truthy (map fst (u_interactions user))
    then Some (map fst (u_interactions user)) else None.
Proof.
  unfold Rec.build_query.
  destruct filters as [f|]; cbn;
    repeat match goal with
           | |- context [truthy ?l] => destruct (truthy l); cbn
           end; reflexivity.
Qed.

Lemma build_query_difficulty (user : User) (filters : option Rec.Filters) :
  let skill :=
    match u_skill_level user with Some l => l | None => Beginner end in
  match filters with
  | Some f =>
      match Rec.f_difficulty f with
      | _ :: _ =>
          Rec.difficulty__in (Rec.build_query user filters)
          = Some (Rec.f_difficulty f)
      | [] => Rec.difficulty (Rec.build_query user filters) = Some skill
      end
  | None => Rec.difficulty (Rec.build_query user filters) = Some skill
  end.
Proof.
  unfold Rec.build_query.
  destruct filters as [f|]; cbn.
  - destruct (Rec.f_difficulty f); cbn;
      repeat match goal with
             | |- context [truthy ?l] => destruct (truthy l); cbn
             end; reflexivity.
  - repeat match goal with
           | |- context [truthy ?l] => destruct (truthy l); cbn
           end; reflexivity.
Qed.

Lemma build_query_matches (user : User) (filters : option Rec.Filters)
    (r : Resource) :
  Rec.matches (Rec.build_query user filters) r = true ->
  ~ In (r_id r) (map fst (u_interactions user))
  /\ Inv.wanted_difficulty user filters (r_difficulty r).
Proof.
  unfold Rec.matches. intros H.
  repeat (apply andb_prop in H; destruct H as [H ?]).
  split.
  - rewrite build_query_id_nin in *.
    destruct (map fst (u_interactions user)) as [|i ids] eqn:E;
      [intros []|].
    cbn in *. intros Hin.
    match goal with
    | N : negb _ = true |- _ => apply negb_true_iff in N
    end.
    assert (M : Py.mem_str (r_id r) (i :: ids) = true)
      by now apply mem_str_In.
    unfold Py.mem_str in M. cbn in M. congruence.
  - pose proof (build_query_difficulty user filters) as D.
    unfold Inv.wanted_difficulty. cbn in D.
    destruct filters as [f|].
    + destruct (Rec.f_difficulty f) as [|d ds].
      * rewrite D in *. cbn in *.
        match goal with
        | E : Level_eqb _ _ = true |- _ => now apply Level_eqb_eq in E
        end.
      * rewrite D in *. cbn [Rec.opt_holds] in *.
        match goal with
        | E : existsb (Level_eqb _) _ = true |- _ =>
            apply existsb_exists in E; destruct E as (x & Hx & E);
            apply Level_eqb_eq in E; now subst
        end.
    + rewrite D in *. cbn in *.
      match goal with
      | E : Level_eqb _ _ = true |- _ => now apply Level_eqb_eq in E
      end.
Qed.

Lemma sort_recommendations_In (recs : list Rec.ScoredRec) (sort_by : string)
    (x : Rec.ScoredRec) :
  In x (Rec._sort_recommendations recs sort_by) -> In x recs.
Proof.
  unfold Rec._sort_recommendations.
  repeat (destruct (String.eqb sort_by _); [apply sort_desc_In|]).
  trivial.
Qed.

(** X3.  An entry of a personalised result either comes from the
    collaborative stage, or is a stored resource that the user has not
    interacted with, whose difficulty is the one asked for, and whose
    content score is positive. *)
Theorem personalized_entries_origin (db : DB) (user : User) (limit : Z)
    (filters : option Rec.Filters) (rec : Rec.ScoredRec) :
  In rec (Rec.get_personalized_recommendations db user limit filters) ->
  (exists rs, In rec (Rec._apply_collaborative_filtering db user rs limit))
  \/ (In (Rec.rec_item rec) (resources db)
      /\ ~ In (r_id (Rec.rec_item rec)) (map fst (u_interactions user))
      /\ Inv.wanted_difficulty user filters (r_difficulty (Rec.rec_item rec))
      /\ (0 < Rec.recommendation_score rec)%Q).
Proof.
  unfold Rec.get_personalized_recommendations.
  set (cands := Py.sort_desc Rec.by_rating_likes _).
  set (collab := Rec._apply_collaborative_filtering db user cands limit).
  intros H. apply slice_to_In in H.
  assert (H' : In rec
                 (if Rec.len collab <? limit
                  then collab ++
                       Rec._apply_content_based_filtering user cands
                         (limit - Rec.len collab)
                  else collab)).
  { destruct filters as [f|]; [|exact H].
    destruct (negb (String.eqb (Rec.f_sortBy f) "")); [|exact H].
    now apply sort_recommendations_In in H. }
  clear H.
  assert (Hc : In rec collab ->
               exists rs,
                 In rec (Rec._apply_collaborative_filtering db user rs limit))
    by (intros Hc; now exists cands).
  destruct (Rec.len collab <? limit); [|left; now apply Hc].
  apply in_app_or in H'. destruct H' as [H'|H']; [left; now apply Hc|].
  right. apply content_based_In in H'. destruct H' as (_ & Pos & Hin).
  unfold cands in Hin. apply sort_desc_In, filter_In in Hin.
  destruct Hin as [Hdb Hm]. apply build_query_matches in Hm.
  destruct Hm as [Hseen Hdiff]. auto.
Qed.

Lemma personalized_entries_origin_witness :
  exists rs,
    In (nth 0 (Rec.get_personalized_recommendations
                 Fixtures.db_liked Fixtures.alice 2 None)
              {| Rec.rec_item := Fixtures.r1; Rec.recommendation_score := 0;
                 Rec.recommendation_reason := "" |})
       (Rec._apply_collaborative_filtering
          Fixtures.db_liked Fixtures.alice rs 2).
Proof.
  destruct (personalized_entries_origin Fixtures.db_liked Fixtures.alice 2
              None
              (nth 0 (Rec.get_personalized_recommendations
                        Fixtures.db_liked Fixtures.alice 2 None)
                     {| Rec.rec_item := Fixtures.r1;
                        Rec.recommendation_score := 0;
                        Rec.recommendation_reason := "" |}))
    as [H|H].
  - vm_compute. left. reflexivity.
  - exact H.
  - exists []. vm_compute. left. reflexivity.
Defined.

(** ** The collaborative stage on its own *)

Lemma collaborative_ids_sub (db : DB) (l : list (string * Z)) :
  let f := fun '(resource_id, score) =>
             match Rec.find_resource db resource_id with
             | Some resource =>
                 [{| Rec.rec_item := resource;
                     Rec.recommendation_score := inject_Z score;
                     Rec.recommendation_reason := Rec.collab_reason |}]
             | None => []
             end in
  (forall id, In id (map Rec.rec_id (flat_map f l)) -> In id (map fst l))
  /\ (NoDup (map fst l) -> NoDup (map Rec.rec_id (flat_map f l)))
  /\ (List.length (flat_map f l) <= List.length l)%nat.
Proof.
  intros f.
  assert (Hsub : forall l, forall id,
             In id (map Rec.rec_id (flat_map f l)) -> In id (map fst l)).
  { clear l. induction l as [|[k n] l IH]; cbn; [trivial|].
    intros id. destruct (Rec.find_resource db k) as [r|] eqn:F; cbn.
    - apply find_resource_id in F. destruct F as [E _].
      unfold Rec.rec_id at 1. cbn. rewrite E. intuition.
    - intuition. }
  split; [apply Hsub|]. split.
  - induction l as [|[k n] l IH]; cbn; [trivial|].
    intros H. apply NoDup_cons_iff in H. destruct H as [Hk Hl].
    destruct (Rec.find_resource db k) as [r|] eqn:F; cbn; [|now apply IH].
    apply find_resource_id in F. destruct F as [E _].
    constructor; [|now apply IH].
    unfold Rec.rec_id at 1. cbn. rewrite E. intros Hin. apply Hk.
    now apply Hsub.
  - induction l as [|[k n] l IH]; cbn; [lia|].
    destruct (Rec.find_resource db k); cbn; lia.
Qed.

(** X4.  For a limit [limit >= 0] the collaborative stage returns at most
    [limit] entries, no two with the same item id; each entry is a stored
    resource and carries the reason of the stage. *)
Theorem collaborative_distinct_bounded (db : DB) (user : User)
    (candidates : list Resource) (limit : Z) :
  0 <= limit ->
  let out := Rec._apply_collaborative_filtering db user candidates limit in
  Rec.len out <= limit
  /\ NoDup (map Rec.rec_id out)
  /\ forall rec, In rec out ->
       In (Rec.rec_item rec) (resources db)
       /\ Rec.recommendation_reason rec = Rec.collab_reason.
Proof.
  intros Hl out. subst out. unfold Rec._apply_collaborative_filtering.
  destruct (negb (truthy (Rec.similar_user_ids db user))).
  { repeat split; [unfold Rec.len; cbn; lia|constructor|destruct H|destruct H]. }
  destruct (negb (forallb _ _)).
  { repeat split; [unfold Rec.len; cbn; lia|constructor|destruct H|destruct H]. }
  set (sorted := Py.slice_to limit _).
  destruct (collaborative_ids_sub db sorted) as (_ & Hnd & Hlen).
  split; [|split].
  - unfold Rec.len. pose proof (slice_to_length limit
      (Py.sort_key_desc (fun x : string * Z => inject_Z (snd x))
         (Rec.count_scores
            (Rec.liked_feedback db (Rec.similar_user_ids db user)))) Hl).
    fold sorted in H. lia.
  - apply Hnd. unfold sorted.
    destruct (slice_to_prefix limit
                (Py.sort_key_desc (fun x : string * Z => inject_Z (snd x))
                   (Rec.count_scores
                      (Rec.liked_feedback db (Rec.similar_user_ids db user)))))
      as [rest P].
    assert (N : NoDup (map fst
                (Py.sort_key_desc (fun x : string * Z => inject_Z (snd x))
                   (Rec.count_scores
                      (Rec.liked_feedback db (Rec.similar_user_ids db user)))))).
    { eapply Permutation_NoDup;
        [apply Permutation_map, sort_desc_perm|].
      apply count_scores_keys. constructor. }
    rewrite P, map_app in N. now apply NoDup_app_remove_r in N.
  - intros rec H. apply in_flat_map in H. destruct H as ([k n] & _ & H).
    destruct (Rec.find_resource db k) as [r|] eqn:F; [|destruct H].
    destruct H as [<-|[]]. cbn. split; [|reflexivity].
    now apply find_resource_id in F.
Qed.

Lemma collaborative_distinct_bounded_witness :
  Rec.len (Rec._apply_collaborative_filtering
             Fixtures.db_liked Fixtures.alice [] 2) <= 2.
Proof.
  apply (collaborative_distinct_bounded Fixtures.db_liked Fixtures.alice [] 2).
  lia.
Defined.

(** ** Trending and bookmarked resources, the next learning step *)

Lemma limit_prefix {A : Type} (n : Z) (l : list A) :
  exists rest, l = Mongo.limit n l ++ rest.
Proof.
  unfold Mongo.limit. destruct (n =? 0).
  - exists []. now rewrite app_nil_r.
  - eexists. symmetry. apply firstn_skipn.
Qed.

Lemma limit_length {A : Type} (n : Z) (l : list A) :
  0 < n -> Z.of_nat (List.length (Mongo.limit n l)) <= n.
Proof.
  intros Hn. unfold Mongo.limit.
  destruct (n =? 0) eqn:E; [lia|]. rewrite length_firstn. lia.
Qed.

Lemma by_likes_primary (x y : Resource) :
  (RecMore.by_likes_rating_views y x = true -> r_likes x <= r_likes y)
  /\ (RecMore.by_likes_rating_views y x = false -> r_likes y <= r_likes x).
Proof.
  unfold RecMore.by_likes_rating_views.
  destruct (Z.ltb_spec (r_likes x) (r_likes y)),
           (Z.eqb_spec (r_likes x) (r_likes y)); cbn; split; intros; try lia;
    discriminate.
Qed.

(** X5.  For a positive limit the trending list has at most [limit]
    entries, all stored resources, in order of non-increasing likes; and it
    holds the most liked resources: a stored resource that is not listed
    has no more likes than any listed one. *)
Theorem trending_most_liked (db : DB) (limit : Z) :
  0 < limit ->
  let out := map RecMore.tr_item (RecMore.get_trending_resources db limit) in
  Z.of_nat (List.length out) <= limit
  /\ StronglySorted (fun a b => r_likes b <= r_likes a) out
  /\ (forall r, In r out -> In r (resources db))
  /\ (forall r t, In r (resources db) -> ~ In r out -> In t out ->
        r_likes r <= r_likes t).
Proof.
  intros Hl out.
  assert (E : out = Mongo.limit limit
                      (Py.sort_desc RecMore.by_likes_rating_views
                         (resources db))).
  { subst out. unfold RecMore.get_trending_resources.
    rewrite map_map. cbn. apply map_id. }
  clearbody out. subst out.
  set (sorted := Py.sort_desc RecMore.by_likes_rating_views (resources db)).
  assert (Hs : StronglySorted (fun a b => r_likes b <= r_likes a) sorted).
  { apply (sort_primary_sorted RecMore.by_likes_rating_views r_likes Z.le).
    - intros a b c. apply Z.le_trans.
    - intros x y. apply by_likes_primary.
    - intros x y. apply by_likes_primary. }
  destruct (limit_prefix limit sorted) as [rest P].
  split; [now apply limit_length|].
  split; [rewrite P in Hs; now apply sorted_prefix in Hs|].
  split.
  - intros r H. apply (sort_desc_In RecMore.by_likes_rating_views).
    fold sorted. rewrite P. apply in_or_app. now left.
  - intros r t Hr Hout Ht.
    apply (sort_desc_In RecMore.by_likes_rating_views) in Hr.
    fold sorted in Hr. rewrite P in Hr, Hs.
    apply in_app_or in Hr. destruct Hr as [Hr|Hr]; [contradiction|].
    apply (sorted_app_le _ _ _ Hs t r Ht Hr).
Qed.

Lemma trending_most_liked_witness :
  Z.of_nat (List.length
              (map RecMore.tr_item
                 (RecMore.get_trending_resources Cases.db_two 1))) <= 1.
Proof.
  apply (trending_most_liked Cases.db_two 1). lia.
Defined.

(** X6.  When bson accepts every key the user has bookmarked, the
    bookmarked resources are exactly the stored resources whose id is read
    from one of these keys; a bookmark of a resource that is not stored is
    dropped.  When bson rejects one of these keys the result is empty,
    whatever the other bookmarks are.  Every entry is flagged as
    bookmarked. *)
Theorem bookmarked_exact (object_id : string -> option string) (db : DB)
    (user : User) :
  let out := RecMore.get_bookmarked_resources object_id db user in
  ((forall k, In (k, "bookmarked") (u_interactions user) ->
              object_id k <> None) ->
   forall r, In r (map RecMore.bm_item out)
             <-> In r (resources db)
                 /\ exists k, In (k, "bookmarked") (u_interactions user)
                              /\ object_id k = Some (r_id r))
  /\ ((exists k, In (k, "bookmarked") (u_interactions user)
                 /\ object_id k = None) ->
      out = [])
  /\ (forall b, In b out ->
        RecMore.is_bookmarked b = true
        /\ RecMore.user_status b = "bookmarked").
Proof.
  intros out. subst out. unfold RecMore.get_bookmarked_resources.
  set (ids := map fst (filter _ (u_interactions user))).
  assert (Hids : forall id, In id ids
                            <-> In (id, "bookmarked") (u_interactions user)).
  { intros id. unfold ids. rewrite in_map_iff. split.
    - intros ([k st] & E & H). apply filter_In in H. destruct H as [H B].
      cbn in *. apply String.eqb_eq in B. now subst.
    - intros H. exists (id, "bookmarked"). split; [reflexivity|].
      apply filter_In. split; [exact H|reflexivity]. }
  split; [|split].
  - intros Hok r. destruct (truthy ids) eqn:T; cbn [negb].
    + assert (F : forallb (fun k => match object_id k with
                                    | Some _ => true
                                    | None => false
                                    end) ids = true).
      { apply forallb_forall. intros k Hk. apply Hids, Hok in Hk.
        destruct (object_id k); [reflexivity|contradiction]. }
      rewrite F, map_map. cbn. rewrite map_id, filter_In, existsb_exists.
      split.
      * intros [Hr (k & Hk & E)]. split; [exact Hr|]. exists k.
        split; [now apply Hids|].
        destruct (object_id k) as [id|]; [|discriminate].
        apply String.eqb_eq in E. now subst.
      * intros [Hr (k & Hk & E)]. split; [exact Hr|]. exists k.
        split; [now apply Hids|]. rewrite E. apply String.eqb_refl.
    + split; [intros []|]. intros [_ (k & H & _)]. apply Hids in H.
      destruct ids; [destruct H|discriminate].
  - intros (k & Hk & E). destruct (negb (truthy ids)); [reflexivity|].
    destruct (forallb _ ids) eqn:F; [|reflexivity].
    rewrite forallb_forall in F. apply Hids, F in Hk.
    rewrite E in Hk. discriminate.
  - intros b H. destruct (negb (truthy ids)); [destruct H|].
    destruct (forallb _ ids); [|destruct H].
    apply in_map_iff in H. destruct H as (r & <- & _). now split.
Qed.

(** X7.  When the user has an open step in the learning path, the next
    step is one of the user's open steps and no open step of the user has a
    smaller order. *)
Theorem next_step_minimal (db : DB) (steps : list RecMore.LearningPathStep)
    (user : User) (st : RecMore.LearningPathStep) :
  In st steps -> RecMore.lp_user st = u_id user ->
  RecMore.lp_completed st = false ->
  exists cur,
    RecMore.get_next_learning_step db steps user
    = RecMore.PathStep cur "Next step in your learning path"
    /\ In cur steps
    /\ RecMore.lp_user cur = u_id user
    /\ RecMore.lp_completed cur = false
    /\ RecMore.lp_order cur <= RecMore.lp_order st.
Proof.
  intros Hin Hu Hc. unfold RecMore.get_next_learning_step.
  assert (Hopen : In st (RecMore.open_steps steps user)).
  { unfold RecMore.open_steps. apply sort_desc_In, filter_In.
    split; [exact Hin|]. rewrite Hu, String.eqb_refl, Hc. reflexivity. }
  assert (Hs : StronglySorted
                 (fun a b => RecMore.lp_order a <= RecMore.lp_order b)
                 (RecMore.open_steps steps user)).
  { unfold RecMore.open_steps.
    apply (sort_primary_sorted _ RecMore.lp_order (fun u v => v <= u)).
    - intros a b c H1 H2. lia.
    - intros x y H. apply Z.ltb_lt in H. lia.
    - intros x y H. apply Z.ltb_ge in H. lia. }
  destruct (RecMore.open_steps steps user) as [|cur rest] eqn:E;
    [destruct Hopen|].
  exists cur. cbn.
  assert (Hcur : In cur (RecMore.open_steps steps user))
    by (rewrite E; now left).
  unfold RecMore.open_steps in Hcur.
  apply sort_desc_In, filter_In in Hcur. destruct Hcur as [Hcs Hp].
  apply andb_prop in Hp. destruct Hp as [Hpu Hpc].
  apply String.eqb_eq in Hpu. apply negb_true_iff in Hpc.
  repeat split; try assumption.
  inversion Hs as [|? ? _ Hall]; subst.
  destruct Hopen as [<-|Hr]; [lia|].
  rewrite Forall_forall in Hall. now apply Hall.
Qed.

Lemma next_step_minimal_witness :
  exists cur,
    RecMore.get_next_learning_step Fixtures.db_liked Cases.steps Fixtures.alice
    = RecMore.PathStep cur "Next step in your learning path"
    /\ In cur Cases.steps
    /\ RecMore.lp_user cur = u_id Fixtures.alice
    /\ RecMore.lp_completed cur = false
    /\ RecMore.lp_order cur <= 3.
Proof.
  apply (next_step_minimal Fixtures.db_liked Cases.steps Fixtures.alice
           (nth 0 Cases.steps
                {| RecMore.lp_user := ""; RecMore.lp_step_id := "";
                   RecMore.lp_title := ""; RecMore.lp_order := 0;
                   RecMore.lp_completed := true |})).
  - left. reflexivity.
  - reflexivity.
  - reflexivity.
Defined.

(** ** Keyword search *)


Lemma keyword_hits_sorted (l : list SearchSvc.Hit) :
  StronglySorted
    (fun a b => SearchSvc.search_score_of b <= SearchSvc.search_score_of a)
    (Py.sort_desc
       (fun y x => SearchSvc.search_score_of x <? SearchSvc.search_score_of y)
       l).
Proof.
  apply (sort_primary_sorted _ SearchSvc.search_score_of Z.le).
  - intros a b c. apply Z.le_trans.
  - intros x y H. apply Z.ltb_lt in H. lia.
  - intros x y H. apply Z.ltb_ge in H. lia.
Qed.

(** X8.  For a limit [limit >= 0] the keyword search returns at most
    [limit] hits in order of non-increasing score; every hit is a stored
    resource with a strictly positive score. *)
Theorem keyword_search_sorted_bounded (db : DB) (query : string)
    (limit : Z) :
  0 <= limit ->
  let out := SearchSvc.keyword_search db query limit in
  Z.of_nat (List.length out) <= limit
  /\ StronglySorted
       (fun a b => SearchSvc.search_score_of b <= SearchSvc.search_score_of a)
       out
  /\ forall h, In h out ->
       In (SearchSvc.hit_resource h) (resources db)
       /\ 0 < SearchSvc.search_score_of h.
Proof.
  intros Hl out. split; [now apply slice_to_length|]. split.
  - apply slice_to_sorted, keyword_hits_sorted.
  - intros h H. apply keyword_search_In in H.
    destruct H as (r & Hr & Hs & ->). cbn. now split.
Qed.

Lemma keyword_search_sorted_bounded_witness :
  Z.of_nat (List.length
              (SearchSvc.keyword_search Fixtures.db_liked "python" 5)) <= 5.
Proof.
  apply (keyword_search_sorted_bounded Fixtures.db_liked "python" 5). lia.
Defined.




(** ** Filtering with pagination *)

Lemma apply_sort_perm (sort_by : string) (l : list Resource) :
  Permutation l (SearchMore.apply_sort sort_by l).
Proof.
  unfold SearchMore.apply_sort.
  repeat (destruct (String.eqb sort_by _); [apply sort_desc_perm|]).
  reflexivity.
Qed.

Lemma selected_In (db : DB) (filters : SearchMore.FilterArgs) (r : Resource) :
  In r (SearchMore.selected db filters)
  <-> In r (resources db) /\ SearchMore.fmatches filters r = true.
Proof.
  unfold SearchMore.selected. rewrite <- filter_In.
  split; apply Permutation_in; [symmetry|]; apply apply_sort_perm.
Qed.

Lemma selected_window (db : DB) (filters : SearchMore.FilterArgs)
    (offset limit : Z) :
  SearchMore.selected db (SearchMore.window filters offset limit)
  = SearchMore.selected db filters.
Proof. reflexivity. Qed.

Lemma firstn_add {A : Type} (a b : nat) (l : list A) :
  firstn (a + b) l = firstn a l ++ firstn b (skipn a l).
Proof.
  revert l. induction a as [|a IH]; intros l; [reflexivity|].
  destruct l as [|x l]; cbn; [now rewrite firstn_nil|].
  now rewrite IH.
Qed.

(** X11.  For an offset [offset >= 0] and a positive limit, the total count
    is the number of stored resources that satisfy the filters, whatever
    the window; the page holds [min limit (total - offset)] resources, all
    of them satisfying the filters; when [has_more] is set the page is
    full, and when it is not the page holds everything from [offset] on. *)
Theorem filter_resources_page (db : DB) (filters : SearchMore.FilterArgs)
    (offset limit : Z) :
  0 <= offset -> 0 < limit ->
  let page :=
    SearchMore.filter_resources db (SearchMore.window filters offset limit) in
  let total :=
    Z.of_nat (List.length
                (filter (SearchMore.fmatches filters) (resources db))) in
  SearchMore.total_count page = total
  /\ Z.of_nat (List.length (SearchMore.page_resources page))
     = Z.max 0 (Z.min limit (total - offset))
  /\ (forall r, In r (SearchMore.page_resources page) ->
        In r (resources db) /\ SearchMore.fmatches filters r = true)
  /\ (SearchMore.has_more page = true ->
      Z.of_nat (List.length (SearchMore.page_resources page)) = limit)
  /\ (SearchMore.has_more page = false ->
      SearchMore.page_resources page
      = skipn (Z.to_nat offset) (SearchMore.selected db filters)).
Proof.
  intros Ho Hl page total. subst page.
  unfold SearchMore.filter_resources. rewrite selected_window.
  cbn [SearchMore.window SearchMore.fa_limit SearchMore.fa_offset].
  destruct (offset <? 0) eqn:O; [lia|].
  cbn [SearchMore.total_count SearchMore.page_resources SearchMore.has_more].
  assert (T : Z.of_nat (List.length (SearchMore.selected db filters)) = total).
  { subst total. f_equal. unfold SearchMore.selected.
    symmetry. apply Permutation_length, apply_sort_perm. }
  unfold Mongo.limit. destruct (limit =? 0) eqn:L0; [lia|].
  replace (Z.abs_nat limit) with (Z.to_nat limit) by lia.
  assert (Len : Z.of_nat (List.length
                   (firstn (Z.to_nat limit)
                      (skipn (Z.to_nat offset)
                         (SearchMore.selected db filters))))
                = Z.max 0 (Z.min limit (total - offset))).
  { rewrite length_firstn, length_skipn. lia. }
  split; [exact T|]. split; [exact Len|]. split; [|split].
  - intros r H. apply firstn_incl in H.
    apply selected_In.
    rewrite <- (firstn_skipn (Z.to_nat offset)
                  (SearchMore.selected db filters)).
    apply in_or_app. now right.
  - rewrite T. intros H. apply Z.ltb_lt in H. rewrite Len. lia.
  - rewrite T. intros H. apply Z.ltb_ge in H.
    apply firstn_all2. rewrite length_skipn. lia.
Qed.

Lemma filter_resources_page_witness :
  SearchMore.total_count
    (SearchMore.filter_resources Cases.db_two
       (SearchMore.window Cases.any_resource 0 1))
  = Z.of_nat (List.length
                (filter (SearchMore.fmatches Cases.any_resource)
                        (resources Cases.db_two))).
Proof.
  apply (filter_resources_page Cases.db_two Cases.any_resource 0 1); lia.
Defined.

(** X12.  Consecutive pages join: for an offset [offset >= 0] and positive
    sizes, the page at [offset] of size [n] followed by the page at
    [offset + n] of size [m] is the page at [offset] of size [n + m]. *)
Theorem filter_resources_pages_join (db : DB)
    (filters : SearchMore.FilterArgs) (offset n m : Z) :
  0 <= offset -> 0 < n -> 0 < m ->
  SearchMore.page_resources
    (SearchMore.filter_resources db (SearchMore.window filters offset n))
  ++ SearchMore.page_resources
       (SearchMore.filter_resources db
          (SearchMore.window filters (offset + n) m))
  = SearchMore.page_resources
      (SearchMore.filter_resources db
         (SearchMore.window filters offset (n + m))).
Proof.
  intros Ho Hn Hm. unfold SearchMore.filter_resources.
  rewrite !selected_window.
  cbn [SearchMore.window SearchMore.fa_limit SearchMore.fa_offset].
  destruct (offset <? 0) eqn:O1; [lia|].
  destruct (offset + n <? 0) eqn:O2; [lia|].
  cbn [SearchMore.page_resources]. unfold Mongo.limit.
  destruct (n =? 0) eqn:N0; [lia|].
  destruct (m =? 0) eqn:M0; [lia|].
  destruct (n + m =? 0) eqn:S0; [lia|].
  replace (Z.abs_nat (n + m)) with (Z.abs_nat n + Z.abs_nat m)%nat by lia.
  rewrite firstn_add, skipn_skipn. do 3 f_equal. lia.
Qed.

Lemma filter_resources_pages_join_witness :
  SearchMore.page_resources
    (SearchMore.filter_resources Cases.db_two
       (SearchMore.window Cases.any_resource 0 1))
  ++ SearchMore.page_resources
       (SearchMore.filter_resources Cases.db_two
          (SearchMore.window Cases.any_resource (0 + 1) 1))
  = SearchMore.page_resources
      (SearchMore.filter_resources Cases.db_two
         (SearchMore.window Cases.any_resource 0 (1 + 1))).
Proof.
  apply (filter_resources_pages_join Cases.db_two Cases.any_resource 0 1 1);
    lia.
Defined.

(** ** Search by category and by tags *)

Lemma top_rated (p : Resource -> bool) (l : list Resource) (limit : Z) :
  0 < limit ->
  let out := Mongo.limit limit (Py.sort_key_desc r_rating (filter p l)) in
  Z.of_nat (List.length out) <= limit
  /\ StronglySorted (Py.desc r_rating) out
  /\ (forall r, In r out -> In r l /\ p r = true)
  /\ (forall r t, In r l -> p r = true -> ~ In r out -> In t out ->
        (r_rating r <= r_rating t)%Q).
Proof.
  intros Hl out. subst out.
  set (sorted := Py.sort_key_desc r_rating (filter p l)).
  pose proof (sort_key_desc_sorted r_rating (filter p l)) as Hs.
  fold sorted in Hs.
  assert (Hin : forall r, In r sorted <-> In r l /\ p r = true).
  { intros r. unfold sorted, Py.sort_key_desc.
    now rewrite sort_desc_In, filter_In. }
  destruct (limit_prefix limit sorted) as [rest P].
  split; [now apply limit_length|].
  split; [rewrite P in Hs; now apply sorted_prefix in Hs|].
  split.
  - intros r H. apply Hin. rewrite P. apply in_or_app. now left.
  - intros r t Hr Hp Hout Ht.
    assert (Hr' : In r sorted) by now apply Hin.
    rewrite P in Hr', Hs. apply in_app_or in Hr'.
    destruct Hr' as [Hr'|Hr']; [contradiction|].
    apply (sorted_app_le _ _ _ Hs t r Ht Hr').
Qed.

(** X13.  For a positive limit, the search by tags returns at most [limit]
    stored resources that carry one of the tags, best rated first, and no
    resource with one of the tags that is left out is rated higher than a
    returned one; the search by category does the same for the resources
    of that category. *)
Theorem search_by_tags_and_category_top_rated (db : DB) (limit : Z)
    (tags : list string) (category : string) :
  0 < limit ->
  (let out := SearchMore.search_by_tags db tags limit in
   Z.of_nat (List.length out) <= limit
   /\ StronglySorted (Py.desc r_rating) out
   /\ (forall r, In r out ->
         In r (resources db) /\ exists t, In t (r_tags r) /\ In t tags)
   /\ (forall r t, In r (resources db) ->
         (exists x, In x (r_tags r) /\ In x tags) ->
         ~ In r out -> In t out -> (r_rating r <= r_rating t)%Q))
  /\ (let out := SearchMore.search_by_category db category limit in
      Z.of_nat (List.length out) <= limit
      /\ StronglySorted (Py.desc r_rating) out
      /\ (forall r, In r out ->
            In r (resources db) /\ r_category r = Some category)
      /\ (forall r t, In r (resources db) -> r_category r = Some category ->
            ~ In r out -> In t out -> (r_rating r <= r_rating t)%Q)).
Proof.
  intros Hl. split.
  - intros out. subst out. unfold SearchMore.search_by_tags.
    set (p := fun r => existsb (fun t => Py.mem_str t tags) (r_tags r)).
    assert (Hp : forall r, p r = true
                           <-> exists t, In t (r_tags r) /\ In t tags).
    { intros r. unfold p. rewrite existsb_exists.
      split; intros (t & Ht & H); exists t; split; auto;
        now apply mem_str_In. }
    destruct (top_rated p (resources db) limit Hl) as (L & S & I & T).
    repeat split; try assumption.
    + now apply I.
    + apply Hp. now apply I.
    + intros r t Hr Hx. apply T; [exact Hr|now apply Hp].
  - intros out. subst out. unfold SearchMore.search_by_category.
    set (p := fun r => match r_category r with
                       | Some c => String.eqb c category
                       | None => false
                       end).
    assert (Hp : forall r, p r = true <-> r_category r = Some category).
    { intros r. unfold p. destruct (r_category r) as [c|].
      - rewrite String.eqb_eq. split; congruence.
      - split; discriminate. }
    destruct (top_rated p (resources db) limit Hl) as (L & S & I & T).
    repeat split; try assumption.
    + now apply I.
    + apply Hp. now apply I.
    + intros r t Hr Hx. apply T; [exact Hr|now apply Hp].
Qed.

Lemma search_by_tags_and_category_top_rated_witness :
  Z.of_nat (List.length (SearchMore.search_by_tags Cases.db_two ["web"] 1))
  <= 1.
Proof.
  apply (search_by_tags_and_category_top_rated Cases.db_two 1 ["web"] "").
  lia.
Defined.

(** ** Semantic search with well-formed embeddings *)

Lemma similarities_total (cos : vec -> vec -> Q) (qe : vec)
    (cands : list Resource) :
  (forall r v, In r cands -> r_embedding r = Some v -> v <> [] ->
               List.length v = List.length qe) ->
  ML.similarities cos qe cands = Some (Spec.scored cos qe cands).
Proof.
  intros Hwf. unfold Spec.scored.
  induction cands as [|r cands IH]; [reflexivity|].
  assert (IH' := IH (fun r' v H => Hwf r' v (or_intror H))).
  cbn [ML.similarities filter].
  destruct (r_embedding r) as [[|x e]|] eqn:E; cbn; try exact IH'.
  assert (Len : List.length (x :: e) = List.length qe).
  { apply (Hwf r); [now left|exact E|discriminate]. }
  rewrite (cosine_similarity_defined cos qe (x :: e) (List.length qe)).
  - rewrite IH'. cbn. now rewrite E.
  - rewrite <- Len. discriminate.
  - reflexivity.
  - exact Len.
Qed.

Lemma nonempty_of_field (l : list Resource) :
  filter (fun r => truthy (embedding_of (r_embedding r)))
         (filter (fun r => match r_embedding r with
                           | Some _ => true | None => false end) l)
  = filter (fun r => match r_embedding r with
                     | Some (_ :: _) => true
                     | _ => false
                     end) l.
Proof.
  induction l as [|r l IH]; [reflexivity|].
  cbn [filter]. destruct (r_embedding r) as [[|x e]|] eqn:Er; cbn [filter].
  - rewrite Er. cbn. exact IH.
  - rewrite Er. cbn. now rewrite IH.
  - exact IH.
Qed.

(** X14.  With a model loaded, a limit [limit >= 0], some document with the
    [embedding] field, and every stored embedding that is not empty of the
    dimension of the query embedding, the semantic search ranks every
    resource whose embedding is not empty: the result has [min limit n]
    hits for [n] such resources, each hit is one of them with its cosine
    similarity to the query, in order of non-increasing similarity.  A
    resource with the empty list in the field is passed over. *)
Theorem semantic_search_ranks_all (cos : vec -> vec -> Q)
    (encode : ML.SentenceModel) (db : DB) (query : string) (limit : Z) :
  0 <= limit ->
  (forall r v, In r (resources db) -> r_embedding r = Some v -> v <> [] ->
               List.length v = List.length (encode query)) ->
  (exists r, In r (resources db) /\ r_embedding r <> None) ->
  let embedded :=
    filter (fun r => match r_embedding r with
                     | Some (_ :: _) => true
                     | _ => false
                     end)
           (resources db) in
  let out := SearchSvc.semantic_search cos (Some encode) db query limit in
  Z.of_nat (List.length out) = Z.min limit (Z.of_nat (List.length embedded))
  /\ (forall h, In h out ->
        exists r, In r embedded
                  /\ h = SearchSvc.SemanticHit r
                           (cos (encode query) (embedding_of (r_embedding r))))
  /\ StronglySorted
       (fun a b =>
          match a, b with
          | SearchSvc.SemanticHit _ sa, SearchSvc.SemanticHit _ sb =>
              (sb <= sa)%Q
          | _, _ => False
          end)
       out.
Proof.
  intros Hl Hwf (r0 & Hr0 & He0) embedded out.
  set (with_field :=
         filter (fun r => match r_embedding r with
                          | Some _ => true | None => false end)
                (resources db)).
  assert (Hne : with_field <> []).
  { intros E. assert (H : In r0 with_field).
    { apply filter_In. split; [exact Hr0|].
      destruct (r_embedding r0); [reflexivity|contradiction]. }
    rewrite E in H. destruct H. }
  assert (Hwf' : forall r v, In r with_field -> r_embedding r = Some v ->
                             v <> [] ->
                             List.length v = List.length (encode query)).
  { intros r v H. apply filter_In in H. now apply Hwf. }
  assert (Hall : Spec.scored cos (encode query) with_field
                 = map (fun r => (r, cos (encode query)
                                       (embedding_of (r_embedding r))))
                       embedded).
  { unfold Spec.scored, embedded, with_field. f_equal.
    apply nonempty_of_field. }
  assert (E : out = map (fun result =>
                           SearchSvc.SemanticHit (fst result) (snd result))
                        (Py.slice_to limit
                           (Py.sort_key_desc snd
                              (Spec.scored cos (encode query) with_field)))).
  { subst out. unfold SearchSvc.semantic_search. fold with_field.
    destruct with_field as [|e es] eqn:Ee; [contradiction|].
    cbn [truthy negb]. unfold ML.semantic_search. cbn [truthy negb].
    rewrite <- Ee in *. now rewrite similarities_total. }
  clearbody out. subst out.
  set (sorted := Py.sort_key_desc snd _).
  split; [|split].
  - rewrite length_map. unfold Py.slice_to.
    destruct (limit <? 0) eqn:L; [lia|].
    rewrite length_firstn. unfold sorted, Py.sort_key_desc.
    rewrite sort_desc_length, Hall, length_map. lia.
  - intros h H. apply in_map_iff in H. destruct H as ([r s] & <- & H).
    apply slice_to_In in H. unfold sorted, Py.sort_key_desc in H.
    apply sort_desc_In in H. rewrite Hall in H. apply in_map_iff in H.
    destruct H as (r' & E & Hr'). inversion E; subst. now exists r.
  - apply (sorted_map
             (fun result => SearchSvc.SemanticHit (fst result) (snd result))).
    cbn. apply slice_to_sorted. apply sort_key_desc_sorted.
Qed.

Lemma semantic_search_ranks_all_witness :
  Z.of_nat (List.length
              (SearchSvc.semantic_search Fixtures.unit_cos
                 (Some Fixtures.axis_model) Cases.db_embedded "q" 5))
  = Z.min 5 2.
Proof.
  apply (semantic_search_ranks_all Fixtures.unit_cos Fixtures.axis_model
           Cases.db_embedded "q" 5).
  - lia.
  - intros r v [<-|[<-|[<-|[<-|[]]]]] E N; inversion E; subst;
      try reflexivity; now contradiction N.
  - exists Fixtures.low. split; [now left|discriminate].
Defined.

(** X15.  The search of the ML service returns nothing without a model or
    without candidates; otherwise every result is a candidate that has a
    non-empty embedding, paired with the cosine of the query embedding and
    that embedding. *)
Theorem semantic_search_values (cos : vec -> vec -> Q)
    (sentence_model : option ML.SentenceModel) (query : string)
    (candidates : list Resource) (k : Z) :
  let out := ML.semantic_search cos sentence_model query candidates k in
  (sentence_model = None \/ candidates = [] -> out = [])
  /\ forall encode r s, sentence_model = Some encode -> In (r, s) out ->
       In r candidates
       /\ exists x e, r_embedding r = Some (x :: e)
                      /\ s = cos (encode query) (x :: e).
Proof.
  intros out. subst out. unfold ML.semantic_search. split.
  - intros [->| ->]; [reflexivity|]. now destruct sentence_model.
  - intros encode r s -> H.
    destruct (negb (truthy candidates)); [destruct H|].
    destruct (ML.similarities cos (encode query) candidates) as [sims|] eqn:S;
      [|destruct H].
    apply similarities_scored in S. subst sims.
    apply slice_to_In in H. unfold Py.sort_key_desc in H.
    apply sort_desc_In in H. unfold Spec.scored in H.
    apply in_map_iff in H. destruct H as (r' & E & H).
    inversion E; subst. apply filter_In in H. destruct H as [Hin T].
    split; [exact Hin|].
    destruct (r_embedding r) as [[|x e]|]; try discriminate.
    now exists x, e.
Qed.

(** ** The response of the task recommendations *)

Section TaskResponse.
Variables (db : DB) (user : User).

Lemma mk_ok (score : option Q) (reason : string) (task : Task) :
  In task (tasks db) -> t_is_active task = true ->
  Inv.task_ok db user (Tasks.mk db user score reason task).
Proof. intros H A. repeat split; assumption. Qed.

Lemma sound_nil : Inv.sound db user [].
Proof. split; [unfold Tasks.len; cbn; lia|constructor]. Qed.

Lemma len_snoc {A : Type} (l : list A) (x : A) :
  Tasks.len (l ++ [x]) = Tasks.len l + 1.
Proof. unfold Tasks.len. rewrite length_app. cbn. lia. Qed.

Lemma add_task_sound (reason : string) (l : list Tasks.TaskRec)
    (task : Task) :
  In task (tasks db) -> t_is_active task = true ->
  Inv.sound db user l -> Inv.sound db user (Tasks.add_task db user reason l task).
Proof.
  intros H A [Hlen Hok]. unfold Tasks.add_task.
  destruct (Tasks.len l <? 15) eqn:L; [|now split].
  destruct (existsb _ l); [now split|].
  apply Z.ltb_lt in L. split.
  - rewrite len_snoc. lia.
  - apply Forall_app. split; [exact Hok|].
    constructor; [now apply mk_ok|constructor].
Qed.

Lemma add_task_distinct (reason : string) (l : list Tasks.TaskRec)
    (task : Task) :
  NoDup (map Tasks.tr_id l) ->
  NoDup (map Tasks.tr_id (Tasks.add_task db user reason l task)).
Proof.
  intros N. unfold Tasks.add_task.
  destruct (Tasks.len l <? 15); [|exact N].
  destruct (existsb _ l) eqn:Ex; [exact N|].
  rewrite map_app. apply NoDup_app; [exact N|repeat constructor; intros []|].
  intros id Hin [<-|[]].
  assert (T : existsb (fun t => String.eqb (Tasks.tr_id t) (t_task_id task)) l
              = true).
  { apply in_map_iff in Hin. destruct Hin as (t & E & Ht).
    apply existsb_exists. exists t. split; [exact Ht|].
    apply String.eqb_eq. exact E. }
  congruence.
Qed.

Lemma category_tasks_ok (c : string) (task : Task) :
  In task (Tasks.category_tasks db c) ->
  In task (tasks db) /\ t_is_active task = true.
Proof.
  unfold Tasks.category_tasks, Tasks.Task_objects. intros H.
  apply filter_In in H. destruct H as [H P].
  apply andb_prop in P. now split.
Qed.

(** Folding [add_task] over tasks of a category keeps both invariants. *)
Lemma fold_add_task (P : list Tasks.TaskRec -> Prop) (reason : string)
    (batch : list Task) :
  (forall l task, In task batch -> P l ->
                  P (Tasks.add_task db user reason l task)) ->
  forall l, P l -> P (fold_left (Tasks.add_task db user reason) batch l).
Proof.
  induction batch as [|task batch IH]; intros Hstep l Hl; [exact Hl|].
  cbn. apply IH.
  - intros l' t Ht. apply Hstep. now right.
  - apply Hstep; [now left|exact Hl].
Qed.

Lemma fold_category (P : list Tasks.TaskRec -> Prop) (n : nat)
    (reason c : string) :
  (forall r l task, In task (tasks db) -> t_is_active task = true ->
                    P l -> P (Tasks.add_task db user r l task)) ->
  forall l, P l ->
    P (fold_left (Tasks.add_task db user reason)
                 (firstn n (Tasks.category_tasks db c)) l).
Proof.
  intros Hstep. apply fold_add_task.
  intros l task Ht. apply firstn_incl, category_tasks_ok in Ht.
  now apply Hstep.
Qed.

Lemma direct_category_keeps (P : list Tasks.TaskRec -> Prop) :
  (forall r l task, In task (tasks db) -> t_is_active task = true ->
                    P l -> P (Tasks.add_task db user r l task)) ->
  forall l, P l -> P (Tasks.direct_category db user l).
Proof.
  intros Hstep. unfold Tasks.direct_category.
  induction (u_interests user) as [|i others IH]; intros l Hl; [exact Hl|].
  cbn [fold_left]. apply IH.
  exact (fold_category P 10 _ i Hstep l Hl).
Qed.

Lemma mapped_category_keeps (P : list Tasks.TaskRec -> Prop) :
  (forall r l task, In task (tasks db) -> t_is_active task = true ->
                    P l -> P (Tasks.add_task db user r l task)) ->
  forall l, P l -> P (Tasks.mapped_category db user l).
Proof.
  intros Hstep l Hl. unfold Tasks.mapped_category.
  destruct (_ && _)%bool; [|exact Hl].
  revert l Hl.
  induction (u_interests user) as [|i others IH]; intros l Hl; [exact Hl|].
  cbn [fold_left]. apply IH.
  generalize (flat_map
                (fun km => if Py.contains (fst km) (Py.lower i)
                           then snd km else [])
                Tasks.interest_mapping).
  intros cats. revert l Hl.
  induction cats as [|c cats IHc]; intros l Hl; [exact Hl|].
  cbn [fold_left]. apply IHc.
  exact (fold_category P 3 _ c Hstep l Hl).
Qed.
Lemma len_app_tasks {A : Type} (l1 l2 : list A) :
  Tasks.len (l1 ++ l2) = Tasks.len l1 + Tasks.len l2.
Proof. unfold Tasks.len. rewrite length_app. lia. Qed.

Lemma len_firstn_tasks {A : Type} (n : Z) (l : list A) :
  0 <= n ->
  Tasks.len (firstn (Z.to_nat n) l) = Z.min n (Tasks.len l).
Proof. intros H. unfold Tasks.len. rewrite length_firstn. lia. Qed.

Lemma task_ids_filter (p : Task -> bool) (l : list Task) :
  NoDup (map t_task_id l) -> NoDup (map t_task_id (filter p l)).
Proof.
  induction l as [|t l IH]; cbn; [trivial|].
  rewrite NoDup_cons_iff. intros [Ht Hl].
  destruct (p t); [cbn; constructor|]; auto.
  rewrite in_map_iff. intros (y & E & Hy).
  apply Ht. rewrite <- E. apply in_map.
  now apply filter_In in Hy.
Qed.

Lemma task_ids_firstn (n : nat) (l : list Task) :
  NoDup (map t_task_id l) -> NoDup (map t_task_id (firstn n l)).
Proof.
  intros H. rewrite <- (firstn_skipn n l), map_app in H.
  now apply NoDup_app_remove_r in H.
Qed.

(** Appending fresh active tasks of the store: the shape shared by the
    skill-level strategy and the last stage. *)
Lemma extend_sound (l extra : list Tasks.TaskRec) (n : nat)
    (p : Task -> bool) :
  Inv.sound db user l ->
  map Tasks.tr_task extra
  = firstn n (filter (fun t => t_is_active t && p t) (tasks db)) ->
  Forall (fun t => Tasks.completed t
                   = Tasks.has_feedback db user (Tasks.tr_id t)) extra ->
  Tasks.len l + Z.of_nat n <= 15 ->
  Inv.sound db user (l ++ extra).
Proof.
  intros [Hlen Hok] Hmap Hflag Hn. split.
  - rewrite len_app_tasks. unfold Tasks.len in *.
    rewrite <- (length_map Tasks.tr_task extra), Hmap, length_firstn. lia.
  - apply Forall_app. split; [exact Hok|].
    apply Forall_forall. intros t Ht.
    assert (Hin : In (Tasks.tr_task t) (map Tasks.tr_task extra))
      by now apply in_map.
    rewrite Hmap in Hin. apply firstn_incl, filter_In in Hin.
    destruct Hin as [Hdb Hp]. apply andb_prop in Hp.
    rewrite Forall_forall in Hflag. repeat split; [exact Hdb|apply Hp|].
    now apply Hflag.
Qed.

Lemma extend_distinct (l extra : list Tasks.TaskRec) (n : nat)
    (p : Task -> bool) :
  NoDup (map t_task_id (tasks db)) ->
  NoDup (map Tasks.tr_id l) ->
  map Tasks.tr_task extra
  = firstn n
      (filter (fun t => p t
                        && negb (Py.mem_str (t_task_id t) (map Tasks.tr_id l)))
              (tasks db)) ->
  NoDup (map Tasks.tr_id (l ++ extra)).
Proof.
  intros Hdb Hl Hmap.
  assert (Hids : map Tasks.tr_id extra
                 = map t_task_id (map Tasks.tr_task extra))
    by (rewrite map_map; reflexivity).
  rewrite map_app. apply NoDup_app; [exact Hl| |].
  - rewrite Hids, Hmap. now apply task_ids_firstn, task_ids_filter.
  - intros id Hin Hex. rewrite Hids, Hmap in Hex.
    apply in_map_iff in Hex. destruct Hex as (t & <- & Ht).
    apply firstn_incl, filter_In in Ht. destruct Ht as [_ Hp].
    apply andb_prop in Hp. destruct Hp as [_ Hp].
    apply negb_true_iff in Hp. apply mem_str_In in Hin. congruence.
Qed.

Lemma skill_appropriate_shape (l : list Tasks.TaskRec) :
  Tasks.len l <= 15 ->
  exists extra n p,
    Tasks.skill_appropriate db user l = l ++ extra
    /\ map Tasks.tr_task extra
       = firstn n
           (filter (fun t => (t_is_active t && p t)
                             && negb (Py.mem_str (t_task_id t)
                                        (map Tasks.tr_id l)))
                   (tasks db))
    /\ Forall (fun t => Tasks.completed t
                        = Tasks.has_feedback db user (Tasks.tr_id t)) extra
    /\ Tasks.len l + Z.of_nat n <= 15.
Proof.
  intros Hlen. unfold Tasks.skill_appropriate.
  destruct (Tasks.len l <? 15) eqn:L.
  - apply Z.ltb_lt in L.
    set (skill := match u_skill_level user with
                  | Some l0 => l0 | None => Beginner end).
    eexists _, (Z.to_nat (15 - Tasks.len l)),
            (fun t => opt_level_eqb (t_skill_level t) (Some skill)).
    split; [reflexivity|]. split; [|split].
    + rewrite map_map. cbn. now rewrite map_id.
    + apply Forall_forall. intros t Ht. apply in_map_iff in Ht.
      destruct Ht as (x & <- & _). reflexivity.
    + lia.
  - exists [], 0%nat, (fun _ => true). rewrite app_nil_r.
    split; [reflexivity|]. split; [reflexivity|].
    split; [constructor|lia].
Qed.

Lemma append_fallback_shape (fallback_tasks : list Task) :
  forall l r,
    Tasks.append_fallback db user fallback_tasks l = Some r ->
    exists extra,
      r = l ++ extra
      /\ map Tasks.tr_task extra = fallback_tasks
      /\ Forall (fun t => Tasks.completed t
                          = Tasks.has_feedback db user (Tasks.tr_id t)) extra.
Proof.
  induction fallback_tasks as [|task rest IH]; intros l r; cbn.
  - intros E. inversion E. exists []. rewrite app_nil_r.
    split; [reflexivity|]. split; [reflexivity|constructor].
  - destruct (Tasks.content_reason task) as [reason|]; [|discriminate].
    intros E. apply IH in E. destruct E as (extra & -> & Hmap & Hflag).
    exists (Tasks.mk db user None reason task :: extra).
    rewrite <- app_assoc. cbn. split; [reflexivity|]. split.
    + now rewrite Hmap.
    + constructor; [reflexivity|exact Hflag].
Qed.

Lemma append_fallback_total (fallback_tasks : list Task) :
  (forall t, In t fallback_tasks -> t_tags t <> None) ->
  forall l, exists r, Tasks.append_fallback db user fallback_tasks l = Some r.
Proof.
  induction fallback_tasks as [|task rest IH]; intros Htags l; cbn.
  - now eexists.
  - unfold Tasks.content_reason.
    destruct (t_tags task) as [tags|] eqn:E.
    + apply IH. intros t Ht. apply Htags. now right.
    + exfalso. apply (Htags task); [now left|exact E].
Qed.

Lemma any_active_shape (l r : list Tasks.TaskRec) :
  Tasks.len l <= 15 ->
  Tasks.any_active db user l = Some r ->
  exists extra n,
    r = l ++ extra
    /\ map Tasks.tr_task extra
       = firstn n
           (filter (fun t => (t_is_active t && true)
                             && negb (Py.mem_str (t_task_id t)
                                        (map Tasks.tr_id l)))
                   (tasks db))
    /\ Forall (fun t => Tasks.completed t
                        = Tasks.has_feedback db user (Tasks.tr_id t)) extra
    /\ Tasks.len l + Z.of_nat n <= 15.
Proof.
  intros Hlen. unfold Tasks.any_active.
  destruct (Tasks.len l <? 10) eqn:L.
  - apply Z.ltb_lt in L. intros E. apply append_fallback_shape in E.
    destruct E as (extra & -> & Hmap & Hflag).
    exists extra, (Z.to_nat (15 - Tasks.len l)).
    split; [reflexivity|]. split; [|split; [exact Hflag|lia]].
    rewrite Hmap. unfold Tasks.Task_objects. f_equal.
    apply filter_ext. intros t. now rewrite andb_true_r.
  - intros E. inversion E; subst r. exists [], 0%nat. rewrite app_nil_r.
    split; [reflexivity|]. split; [reflexivity|].
    split; [constructor|lia].
Qed.

Lemma filter_and_ext (p q : Task -> bool) (l : list Task) (ids : list string) :
  filter (fun t => (p t && q t) && negb (Py.mem_str (t_task_id t) ids)) l
  = filter (fun t => p t && (q t && negb (Py.mem_str (t_task_id t) ids))) l.
Proof. apply filter_ext. intros t. now rewrite andb_assoc. Qed.

Lemma scored_ids_distinct {A : Type} (f : Task -> list (Task * A))
    (l : list Task) :
  (forall t, f t = [] \/ exists a, f t = [(t, a)]) ->
  NoDup (map t_task_id l) ->
  NoDup (map (fun x => t_task_id (fst x)) (flat_map f l)).
Proof.
  intros Hf.
  assert (Hsub : forall l id,
             In id (map (fun x => t_task_id (fst x)) (flat_map f l)) ->
             In id (map t_task_id l)).
  { clear l. induction l as [|t l IH]; cbn; [trivial|].
    intros id. rewrite map_app, in_app_iff.
    destruct (Hf t) as [->|(a & ->)]; cbn; intuition. }
  induction l as [|t l IH]; cbn; [constructor|].
  rewrite NoDup_cons_iff. intros [Ht Hl]. rewrite map_app.
  destruct (Hf t) as [->|(a & ->)]; cbn; [now apply IH|].
  constructor; [|now apply IH].
  intros Hin. apply Ht. now apply Hsub.
Qed.

Lemma ml_tasks_shape (cos : vec -> vec -> Q)
    (sentence_model : option ML.SentenceModel) :
  let l := Tasks.ml_tasks cos sentence_model db user in
  Inv.sound db user l
  /\ (NoDup (map t_task_id (tasks db)) -> NoDup (map Tasks.tr_id l)).
Proof.
  intros l. subst l. unfold Tasks.ml_tasks.
  destruct sentence_model as [encode|];
    [|split; [apply sound_nil|constructor]].
  destruct (0 <? Tasks.len (Tasks.all_tasks db));
    [|split; [apply sound_nil|constructor]].
  set (scores := Tasks.task_scores cos db user _).
  split; [split|].
  - unfold Tasks.len. rewrite length_map, length_firstn. lia.
  - apply Forall_forall. intros t Ht. apply in_map_iff in Ht.
    destruct Ht as ([T sc] & <- & Ht). apply firstn_incl in Ht.
    apply task_scores_In in Ht. destruct Ht as [[Hin _] _].
    unfold Tasks.all_tasks, Tasks.Task_objects in Hin.
    apply filter_In in Hin. destruct Hin as [Hdb Hp].
    apply andb_prop in Hp. apply mk_ok; [exact Hdb|apply Hp].
  - intros Hdb. rewrite map_map. cbn.
    assert (N : NoDup (map (fun x : Task * Q => t_task_id (fst x)) scores)).
    { unfold scores, Tasks.task_scores, Py.sort_key_desc.
      eapply Permutation_NoDup; [apply Permutation_map, sort_desc_perm|].
      apply scored_ids_distinct.
      - intros t. destruct (Py.mem_str _ _); [now left|].
        destruct (Tasks.final_score _ _ _ _ _ t) as [sc|]; [right|now left].
        now exists sc.
      - unfold Tasks.all_tasks, Tasks.Task_objects.
        now apply task_ids_filter. }
    rewrite <- (firstn_skipn 15 scores), map_app in N.
    now apply NoDup_app_remove_r in N.
Qed.
Lemma append_fallback_fails (fallback_tasks : list Task) :
  forall l,
    Tasks.append_fallback db user fallback_tasks l = None ->
    exists t, In t fallback_tasks /\ t_tags t = None.
Proof.
  induction fallback_tasks as [|task rest IH]; intros l; cbn; [discriminate|].
  unfold Tasks.content_reason.
  destruct (t_tags task) as [tags|] eqn:E.
  - intros H. apply IH in H. destruct H as (t & Ht & Hn).
    exists t. split; [now right|exact Hn].
  - intros _. exists task. split; [now left|exact E].
Qed.

(** The tasks gathered before the last stage. *)
Lemma gathered_inv (cos : vec -> vec -> Q)
    (sentence_model : option ML.SentenceModel) :
  let l0 := Tasks.ml_tasks cos sentence_model db user in
  let l1 := if negb (truthy l0)
            then Tasks.skill_appropriate db user
                   (Tasks.mapped_category db user
                      (Tasks.direct_category db user l0))
            else l0 in
  Inv.sound db user l1
  /\ (NoDup (map t_task_id (tasks db)) -> NoDup (map Tasks.tr_id l1)).
Proof.
  intros l0 l1. subst l1.
  destruct (ml_tasks_shape cos sentence_model) as [S0 N0]. fold l0 in S0, N0.
  destruct (negb (truthy l0)); [|now split].
  set (l2 := Tasks.mapped_category db user
               (Tasks.direct_category db user l0)).
  assert (S2 : Inv.sound db user l2).
  { apply mapped_category_keeps;
      [intros; now apply add_task_sound|].
    apply direct_category_keeps; [intros; now apply add_task_sound|exact S0]. }
  assert (N2 : NoDup (map t_task_id (tasks db)) -> NoDup (map Tasks.tr_id l2)).
  { intros Hdb.
    apply (mapped_category_keeps (fun l => NoDup (map Tasks.tr_id l)));
      [intros; now apply add_task_distinct|].
    apply (direct_category_keeps (fun l => NoDup (map Tasks.tr_id l)));
      [intros; now apply add_task_distinct|now apply N0]. }
  destruct (skill_appropriate_shape l2 (proj1 S2))
    as (extra & n & p & -> & Hmap & Hflag & Hn).
  split.
  - rewrite filter_and_ext in Hmap.
    now apply (extend_sound l2 extra n _ S2 Hmap).
  - intros Hdb.
    apply (extend_distinct l2 extra n (fun t => t_is_active t && p t));
      [exact Hdb|now apply N2|exact Hmap].
Qed.

Lemma response_inv (cos : vec -> vec -> Q)
    (sentence_model : option ML.SentenceModel) (user_id : string)
    (data : list Tasks.TaskRec) :
  Tasks.get_recommended_tasks cos sentence_model db user user_id
  = Tasks.Ok200 data ->
  Inv.sound db user data
  /\ (NoDup (map t_task_id (tasks db)) -> NoDup (map Tasks.tr_id data)).
Proof.
  unfold Tasks.get_recommended_tasks.
  destruct (negb (String.eqb (u_id user) user_id)); [discriminate|].
  destruct (gathered_inv cos sentence_model) as [S1 N1].
  set (l1 := if negb (truthy (Tasks.ml_tasks cos sentence_model db user))
             then _ else _) in *.
  destruct (Tasks.any_active db user l1) as [r|] eqn:E; [|discriminate].
  intros H. inversion H; subst r. clear H.
  destruct (any_active_shape l1 data (proj1 S1) E)
    as (extra & n & -> & Hmap & Hflag & Hn).
  split.
  - rewrite filter_and_ext in Hmap.
    now apply (extend_sound l1 extra n _ S1 Hmap).
  - intros Hdb.
    apply (extend_distinct l1 extra n (fun t => t_is_active t && true));
      [exact Hdb|now apply N1|exact Hmap].
Qed.
End TaskResponse.

(** X16.  A successful response lists at most fifteen tasks; each of them
    is a stored, active task, and its [completed] flag is set exactly when
    the user has given feedback on it. *)
Theorem recommended_tasks_sound (cos : vec -> vec -> Q)
    (sentence_model : option ML.SentenceModel) (db : DB) (user : User)
    (user_id : string) (data : list Tasks.TaskRec) :
  Tasks.get_recommended_tasks cos sentence_model db user user_id
  = Tasks.Ok200 data ->
  Tasks.len data <= 15
  /\ forall t, In t data ->
       In (Tasks.tr_task t) (tasks db)
       /\ t_is_active (Tasks.tr_task t) = true
       /\ Tasks.completed t = Tasks.has_feedback db user (Tasks.tr_id t).
Proof.
  intros H. apply response_inv in H. destruct H as [[Hlen Hok] _].
  split; [exact Hlen|]. intros t Ht.
  rewrite Forall_forall in Hok. now apply Hok.
Qed.

(** X17.  When the stored tasks have distinct ids, a successful response
    lists no task twice. *)
Theorem recommended_tasks_distinct (cos : vec -> vec -> Q)
    (sentence_model : option ML.SentenceModel) (db : DB) (user : User)
    (user_id : string) (data : list Tasks.TaskRec) :
  NoDup (map t_task_id (tasks db)) ->
  Tasks.get_recommended_tasks cos sentence_model db user user_id
  = Tasks.Ok200 data ->
  NoDup (map Tasks.tr_id data).
Proof.
  intros Hdb H. apply response_inv in H. now apply H.
Qed.

Lemma recommended_tasks_sound_witness :
  Tasks.len (Cases.data_of
               (Tasks.get_recommended_tasks Fixtures.unit_cos None
                  Fixtures.db_tasks Fixtures.alice "u1")) <= 15.
Proof.
  apply (recommended_tasks_sound Fixtures.unit_cos None Fixtures.db_tasks
           Fixtures.alice "u1").
  vm_compute. reflexivity.
Defined.

Lemma recommended_tasks_distinct_witness :
  NoDup (map Tasks.tr_id
           (Cases.data_of
              (Tasks.get_recommended_tasks Fixtures.unit_cos
                 (Some Fixtures.axis_model) Fixtures.db_tasks
                 Fixtures.alice "u1"))).
Proof.
  apply (recommended_tasks_distinct Fixtures.unit_cos
           (Some Fixtures.axis_model) Fixtures.db_tasks Fixtures.alice "u1").
  - cbn. repeat (constructor; [cbn; intuition discriminate|]). constructor.
  - vm_compute. reflexivity.
Defined.

(** X18.  The request is refused exactly when the id in the path is not the
    caller's; it fails only when some stored, active task has no tags; so
    when every active task has tags, the caller's own request succeeds. *)
Theorem recommended_tasks_outcome (cos : vec -> vec -> Q)
    (sentence_model : option ML.SentenceModel) (db : DB) (user : User)
    (user_id : string) :
  let response :=
    Tasks.get_recommended_tasks cos sentence_model db user user_id in
  (response = Tasks.Denied403 <-> u_id user <> user_id)
  /\ (response = Tasks.Failed500 ->
      exists t, In t (tasks db) /\ t_is_active t = true /\ t_tags t = None)
  /\ ((forall t, In t (tasks db) -> t_is_active t = true ->
                 t_tags t <> None) ->
      u_id user = user_id -> exists data, response = Tasks.Ok200 data).
Proof.
  intros response.
  assert (Hfail : response = Tasks.Failed500 ->
                  exists t, In t (tasks db) /\ t_is_active t = true
                            /\ t_tags t = None).
  { subst response. unfold Tasks.get_recommended_tasks.
    destruct (negb (String.eqb (u_id user) user_id)); [discriminate|].
    match goal with
    | |- context [Tasks.any_active db user ?l] =>
        destruct (Tasks.any_active db user l) as [r|] eqn:E;
          [discriminate|]; unfold Tasks.any_active in E;
          destruct (Tasks.len l <? 10); [|discriminate]
    end.
    intros _. apply append_fallback_fails in E.
    destruct E as (t & Ht & Hn). exists t.
    apply firstn_incl, filter_In in Ht. destruct Ht as [Hdb Hp].
    apply andb_prop in Hp. repeat split; [exact Hdb|apply Hp|exact Hn]. }
  assert (Hden : response = Tasks.Denied403 <-> u_id user <> user_id).
  { subst response. unfold Tasks.get_recommended_tasks.
    destruct (String.eqb_spec (u_id user) user_id) as [E|E]; cbn.
    - split; [|contradiction].
      destruct (Tasks.any_active _ _ _); discriminate.
    - split; [now intros _|reflexivity]. }
  split; [exact Hden|]. split; [exact Hfail|].
  intros Htags Hid.
  destruct response as [data| |] eqn:R.
  - now exists data.
  - exfalso. now apply Hden.
  - exfalso. destruct (Hfail eq_refl) as (t & Hdb & Ha & Hn).
    now apply (Htags t).
Qed.

(** The failure is reachable: one active task without tags is enough. *)
Example untagged_task_fails :
  Tasks.get_recommended_tasks Fixtures.unit_cos None Cases.db_untagged
    Fixtures.alice "u1" = Tasks.Failed500.
Proof. vm_compute. reflexivity. Qed.

(** ** Enough tasks *)

Lemma filter_split_length {A : Type} (p : A -> bool) (l : list A) :
  (List.length (filter p l) + List.length (filter (fun x => negb (p x)) l)
   = List.length l)%nat.
Proof.
  induction l as [|x l IH]; cbn; [reflexivity|].
  destruct (p x); cbn; lia.
Qed.

Lemma excluded_count (ids : list string) (l : list Task) :
  NoDup (map t_task_id l) ->
  (List.length (filter (fun t => Py.mem_str (t_task_id t) ids) l)
   <= List.length ids)%nat.
Proof.
  intros H.
  rewrite <- (length_map t_task_id (filter _ l)).
  apply NoDup_incl_length; [now apply task_ids_filter|].
  intros id Hin. apply in_map_iff in Hin. destruct Hin as (t & <- & Ht).
  apply filter_In in Ht. now apply mem_str_In.
Qed.

(** X19.  When the stored tasks have distinct ids, a successful response
    lists at least ten tasks, or every active task when there are fewer
    than ten. *)
Theorem recommended_tasks_enough (cos : vec -> vec -> Q)
    (sentence_model : option ML.SentenceModel) (db : DB) (user : User)
    (user_id : string) (data : list Tasks.TaskRec) :
  NoDup (map t_task_id (tasks db)) ->
  Tasks.get_recommended_tasks cos sentence_model db user user_id
  = Tasks.Ok200 data ->
  Z.min 10 (Tasks.len (Inv.active_tasks db)) <= Tasks.len data.
Proof.
  intros Hdb. unfold Tasks.get_recommended_tasks.
  destruct (negb (String.eqb (u_id user) user_id)); [discriminate|].
  match goal with
  | |- context [Tasks.any_active db user ?l] => set (l1 := l)
  end.
  destruct (Tasks.any_active db user l1) as [r|] eqn:E; [|discriminate].
  intros H. inversion H; subst r. clear H.
  unfold Tasks.any_active in E.
  destruct (Tasks.len l1 <? 10) eqn:L.
  2:{ inversion E; subst. apply Z.ltb_ge in L. lia. }
  apply Z.ltb_lt in L. apply append_fallback_shape in E.
  destruct E as (extra & -> & Hmap & _).
  rewrite len_app_tasks.
  assert (Hex : Tasks.len extra
                = Z.min (15 - Tasks.len l1)
                    (Tasks.len
                       (filter (fun t => t_is_active t
                                         && negb (Py.mem_str (t_task_id t)
                                                    (map Tasks.tr_id l1)))
                               (Tasks.Task_objects db)))).
  { unfold Tasks.len at 1. rewrite <- (length_map Tasks.tr_task extra), Hmap.
    rewrite length_firstn. unfold Tasks.len in *. lia. }
  rewrite Hex. clear Hex Hmap.
  set (ids := map Tasks.tr_id l1).
  assert (Hav : Tasks.len (Inv.active_tasks db) - Tasks.len l1
                <= Tasks.len
                     (filter (fun t => t_is_active t
                                       && negb (Py.mem_str (t_task_id t) ids))
                             (Tasks.Task_objects db))).
  { unfold Inv.active_tasks, Tasks.Task_objects, Tasks.len.
    assert (F : filter (fun t => t_is_active t
                                 && negb (Py.mem_str (t_task_id t) ids))
                       (tasks db)
                = filter (fun t => negb (Py.mem_str (t_task_id t) ids))
                         (filter t_is_active (tasks db))).
    { clear Hdb. induction (tasks db) as [|t l IH]; cbn; [reflexivity|].
      destruct (t_is_active t); cbn; [|exact IH].
      destruct (negb _); now rewrite IH. }
    rewrite F.
    pose proof (filter_split_length
                  (fun t => Py.mem_str (t_task_id t) ids)
                  (filter t_is_active (tasks db))) as S.
    pose proof (excluded_count ids (filter t_is_active (tasks db))
                  (task_ids_filter t_is_active (tasks db) Hdb)) as X.
    assert (Lids : List.length ids = List.length l1)
      by (unfold ids; apply length_map).
    lia. }
  lia.
Qed.

Lemma recommended_tasks_enough_witness :
  Z.min 10 (Tasks.len (Inv.active_tasks Fixtures.db_tasks))
  <= Tasks.len (Cases.data_of
                  (Tasks.get_recommended_tasks Fixtures.unit_cos None
                     Fixtures.db_tasks Fixtures.alice "u1")).
Proof.
  apply (recommended_tasks_enough Fixtures.unit_cos None Fixtures.db_tasks
           Fixtures.alice "u1").
  - cbn. repeat (constructor; [cbn; intuition discriminate|]). constructor.
  - vm_compute. reflexivity.
Defined.

(** ** Submitting feedback *)

Section Submit.
Variables (all_tasks : list Task) (user : User).

Lemma save_first_find (p : TasksMore.FeedbackDoc -> bool)
    (d e : TasksMore.FeedbackDoc) (store : list TasksMore.FeedbackDoc) :
  find p store = Some e -> p d = true ->
  find p (TasksMore.save_first p d store) = Some d.
Proof.
  intros F Hd. induction store as [|x rest IH]; [discriminate|].
  cbn in *. destruct (p x) eqn:Px.
  - cbn. now rewrite Hd.
  - cbn. rewrite Px. now apply IH.
Qed.

Lemma save_first_filter (p q : TasksMore.FeedbackDoc -> bool)
    (d e : TasksMore.FeedbackDoc) (store : list TasksMore.FeedbackDoc) :
  find p store = Some e -> q d = q e ->
  List.length (filter q (TasksMore.save_first p d store))
  = List.length (filter q store).
Proof.
  intros F Hq. induction store as [|x rest IH]; [discriminate|].
  cbn in *. destruct (p x) eqn:Px.
  - inversion F; subst. cbn. rewrite Hq. now destruct (q e).
  - cbn. destruct (q x); cbn; now rewrite IH.
Qed.

Lemma save_first_others (p : TasksMore.FeedbackDoc -> bool)
    (d : TasksMore.FeedbackDoc) (store : list TasksMore.FeedbackDoc) :
  p d = true ->
  filter (fun x => negb (p x)) (TasksMore.save_first p d store)
  = filter (fun x => negb (p x)) store.
Proof.
  intros Hd. induction store as [|x rest IH]; [reflexivity|].
  cbn. destruct (p x) eqn:Px; cbn; rewrite ?Hd, ?Px; cbn;
    [reflexivity|now rewrite IH].
Qed.

(** The cases of a POST with a JSON body. *)
Lemma submit_cases (store : list TasksMore.FeedbackDoc)
    (is_post is_json : bool) (data : TasksMore.Body) :
  let result :=
    TasksMore.submit_task_feedback all_tasks store user is_post is_json data in
  (snd result = store
   /\ forall fb, fst result <> TasksMore.Submitted fb)
  \/ (exists task_id helpful existing fb,
        TasksMore.b_task_id data = Some task_id
        /\ TasksMore.b_helpful data = Some helpful
        /\ find (TasksMore.mine user task_id) store = Some existing
        /\ fb = {| TasksMore.fd_user := TasksMore.fd_user existing;
                   TasksMore.fd_task_id := TasksMore.fd_task_id existing;
                   TasksMore.fd_helpful := helpful;
                   TasksMore.fd_comment :=
                     match TasksMore.b_comment data with
                     | Some c => c | None => "" end;
                   TasksMore.fd_difficulty_rating :=
                     if TasksMore.truthy_int
                          (TasksMore.b_difficulty_rating data)
                     then TasksMore.b_difficulty_rating data
                     else TasksMore.fd_difficulty_rating existing |}
        /\ result = (TasksMore.Submitted fb,
                     TasksMore.save_first (TasksMore.mine user task_id) fb store))
  \/ (exists task_id helpful fb,
        TasksMore.b_task_id data = Some task_id
        /\ TasksMore.b_helpful data = Some helpful
        /\ find (TasksMore.mine user task_id) store = None
        /\ fb = {| TasksMore.fd_user := u_id user;
                   TasksMore.fd_task_id := task_id;
                   TasksMore.fd_helpful := helpful;
                   TasksMore.fd_comment :=
                     match TasksMore.b_comment data with
                     | Some c => c | None => "" end;
                   TasksMore.fd_difficulty_rating :=
                     TasksMore.b_difficulty_rating data |}
        /\ result = (TasksMore.Submitted fb, store ++ [fb])).
Proof.
  intros result. subst result. unfold TasksMore.submit_task_feedback.
  destruct is_post; cbn [negb]; [|left; split; [reflexivity|discriminate]].
  destruct is_json; cbn [negb]; [|left; split; [reflexivity|discriminate]].
  destruct (TasksMore.b_task_id data) as [task_id|] eqn:Et;
    [|left; split; [reflexivity|discriminate]].
  destruct (TasksMore.b_helpful data) as [helpful|] eqn:Eh;
    [|left; split; [reflexivity|discriminate]].
  destruct (find _ all_tasks) as [task|];
    [|left; split; [reflexivity|discriminate]].
  destruct (find (TasksMore.mine user task_id) store) as [existing|] eqn:F.
  - destruct (TasksMore.valid _);
      [|left; split; [reflexivity|discriminate]].
    right. left. exists task_id, helpful, existing. eexists.
    split; [reflexivity|]. split; [reflexivity|]. split; [exact F|].
    split; reflexivity.
  - destruct (TasksMore.valid _);
      [|left; split; [reflexivity|discriminate]].
    right. right. exists task_id, helpful. eexists.
    split; [reflexivity|]. split; [reflexivity|]. split; [exact F|].
    split; reflexivity.
Qed.
End Submit.

Lemma mine_spec (user : User) (task_id : string) (d : TasksMore.FeedbackDoc) :
  TasksMore.mine user task_id d = true
  <-> TasksMore.fd_user d = u_id user /\ TasksMore.fd_task_id d = task_id.
Proof.
  unfold TasksMore.mine. rewrite andb_true_iff, !String.eqb_eq. reflexivity.
Qed.

Lemma find_none_filter {A : Type} (p : A -> bool) (l : list A) :
  find p l = None -> filter p l = [].
Proof.
  induction l as [|x l IH]; cbn; [reflexivity|].
  destruct (p x); [discriminate|exact IH].
Qed.

(** X20.  A feedback request that succeeds stores what was sent: the reply
    carries the task id and the helpful flag of the body, the comment of
    the body (empty when absent) and the caller as user, and afterwards the
    caller's feedback on that task is the document of the reply.  A
    difficulty rating of zero, or none, leaves the rating of an existing
    document as it was. *)
Theorem submit_then_lookup (all_tasks : list Task) (user : User)
    (store store' : list TasksMore.FeedbackDoc) (is_post is_json : bool)
    (data : TasksMore.Body) (fb : TasksMore.FeedbackDoc) :
  TasksMore.submit_task_feedback all_tasks store user is_post is_json data
  = (TasksMore.Submitted fb, store') ->
  TasksMore.b_task_id data = Some (TasksMore.fd_task_id fb)
  /\ TasksMore.b_helpful data = Some (TasksMore.fd_helpful fb)
  /\ TasksMore.fd_user fb = u_id user
  /\ TasksMore.fd_comment fb
     = match TasksMore.b_comment data with Some c => c | None => "" end
  /\ find (TasksMore.mine user (TasksMore.fd_task_id fb)) store' = Some fb
  /\ (TasksMore.truthy_int (TasksMore.b_difficulty_rating data) = false ->
      forall existing,
        find (TasksMore.mine user (TasksMore.fd_task_id fb)) store
        = Some existing ->
        TasksMore.fd_difficulty_rating fb
        = TasksMore.fd_difficulty_rating existing).
Proof.
  intros H.
  destruct (submit_cases all_tasks user store is_post is_json data)
    as [[_ Hno]|[(tid & helpful & existing & fb0 & Et & Eh & F & Efb & R)
                |(tid & helpful & fb0 & Et & Eh & F & Efb & R)]].
  - exfalso. apply (Hno fb). now rewrite H.
  - subst fb0. rewrite H in R. injection R as Efb Es. subst store'.
    pose proof (find_some _ _ F) as [_ M]. apply mine_spec in M.
    destruct M as [Mu Mt].
    assert (Eid : TasksMore.fd_task_id fb = tid) by (rewrite Efb; exact Mt).
    rewrite Eid.
    split; [now rewrite Et|]. split; [rewrite Eh, Efb; reflexivity|].
    split; [rewrite Efb; exact Mu|]. split; [rewrite Efb; reflexivity|].
    split.
    + rewrite <- Efb. apply (save_first_find _ fb existing store F).
      apply mine_spec. rewrite Efb. cbn. now split.
    + intros T e Fe. rewrite F in Fe. inversion Fe; subst e.
      rewrite Efb. cbn. now rewrite T.
  - subst fb0. rewrite H in R. injection R as Efb Es. subst store'.
    assert (Eid : TasksMore.fd_task_id fb = tid) by (rewrite Efb; reflexivity).
    rewrite Eid.
    split; [now rewrite Et|]. split; [rewrite Eh, Efb; reflexivity|].
    split; [rewrite Efb; reflexivity|]. split; [rewrite Efb; reflexivity|].
    split.
    + rewrite <- Efb.
      assert (M : TasksMore.mine user tid fb = true)
        by (apply mine_spec; rewrite Efb; now split).
      clear Efb Eid H. induction store as [|x rest IH]; cbn in *.
      * now rewrite M.
      * destruct (TasksMore.mine user tid x); [discriminate|now apply IH].
    + intros _ e Fe. rewrite F in Fe. discriminate.
Qed.

Lemma submit_then_lookup_witness :
  find (TasksMore.mine Fixtures.alice "t1")
       (snd (TasksMore.submit_task_feedback (tasks Fixtures.db_tasks)
               Cases.store_one Fixtures.alice true true Cases.revise_t1))
  = Some {| TasksMore.fd_user := "u1"; TasksMore.fd_task_id := "t1";
            TasksMore.fd_helpful := false;
            TasksMore.fd_comment := "too hard";
            TasksMore.fd_difficulty_rating := Some 3 |}.
Proof.
  apply (submit_then_lookup (tasks Fixtures.db_tasks) Fixtures.alice
           Cases.store_one
           (snd (TasksMore.submit_task_feedback (tasks Fixtures.db_tasks)
                   Cases.store_one Fixtures.alice true true Cases.revise_t1))
           true true Cases.revise_t1
           {| TasksMore.fd_user := "u1"; TasksMore.fd_task_id := "t1";
              TasksMore.fd_helpful := false;
              TasksMore.fd_comment := "too hard";
              TasksMore.fd_difficulty_rating := Some 3 |}).
  vm_compute. reflexivity.
Defined.

(** X21.  No request adds a second feedback document for a user and a task:
    the collection grows by at most one document, and a pair of user and
    task that had at most one document has at most one afterwards. *)
Theorem submit_keeps_single_record (all_tasks : list Task) (user : User)
    (store : list TasksMore.FeedbackDoc) (is_post is_json : bool)
    (data : TasksMore.Body) (user_id task_id : string) :
  let store' :=
    snd (TasksMore.submit_task_feedback all_tasks store user
           is_post is_json data) in
  (List.length store' <= List.length store + 1)%nat
  /\ (List.length (Inv.records user_id task_id store')
      <= Nat.max 1 (List.length (Inv.records user_id task_id store)))%nat.
Proof.
  intros store'. subst store'.
  destruct (submit_cases all_tasks user store is_post is_json data)
    as [[-> _]|[(tid & helpful & existing & fb & Et & Eh & F & Efb & ->)
               |(tid & helpful & fb & Et & Eh & F & Efb & ->)]];
    cbn [snd].
  - split; lia.
  - pose proof (find_some _ _ F) as [_ M]. apply mine_spec in M.
    destruct M as [Mu Mt]. split.
    + assert (L : forall p d l,
                 List.length (TasksMore.save_first p d l) = List.length l).
      { intros p d l. induction l as [|x l IH]; cbn; [reflexivity|].
        destruct (p x); cbn; [reflexivity|now rewrite IH]. }
      rewrite L. lia.
    + unfold Inv.records.
      rewrite (save_first_filter _ _ fb existing store F);
        [lia|rewrite Efb; reflexivity].
  - split; [rewrite length_app; cbn; lia|].
    unfold Inv.records. rewrite filter_app, length_app. cbn [filter].
    destruct (String.eqb_spec (TasksMore.fd_user fb) user_id) as [Eu|];
      cbn [andb List.length]; [|lia].
    destruct (String.eqb_spec (TasksMore.fd_task_id fb) task_id) as [Ei|];
      cbn [List.length]; [|lia].
    apply find_none_filter in F.
    assert (E0 : filter (fun d => String.eqb (TasksMore.fd_user d) user_id
                                  && String.eqb (TasksMore.fd_task_id d)
                                       task_id) store = []).
    { rewrite <- F. apply filter_ext. intros d. unfold TasksMore.mine.
      rewrite <- Eu, <- Ei, Efb. reflexivity. }
    rewrite E0. cbn. lia.
Qed.

(** X22.  A request that does not succeed leaves the collection as it was,
    and a request on a task, successful or not, leaves every document of
    another user or another task untouched and in place. *)
Theorem submit_frame (all_tasks : list Task) (user : User)
    (store : list TasksMore.FeedbackDoc) (is_post is_json : bool)
    (data : TasksMore.Body) :
  let result :=
    TasksMore.submit_task_feedback all_tasks store user is_post is_json data in
  ((forall fb, fst result <> TasksMore.Submitted fb) -> snd result = store)
  /\ (forall task_id, TasksMore.b_task_id data = Some task_id ->
        Inv.others user task_id (snd result) = Inv.others user task_id store).
Proof.
  intros result. subst result.
  destruct (submit_cases all_tasks user store is_post is_json data)
    as [[E Hno]|[(tid & helpful & existing & fb & Et & Eh & F & Efb & R)
                |(tid & helpful & fb & Et & Eh & F & Efb & R)]].
  - split; [intros _; exact E|]. intros task_id _. now rewrite E.
  - rewrite R. cbn [fst snd]. split.
    + intros Hno. exfalso. now apply (Hno fb).
    + intros task_id Ht. rewrite Et in Ht. inversion Ht; subst task_id.
      unfold Inv.others. apply save_first_others.
      pose proof (find_some _ _ F) as [_ M]. apply mine_spec in M.
      apply mine_spec. rewrite Efb. exact M.
  - rewrite R. cbn [fst snd]. split.
    + intros Hno. exfalso. now apply (Hno fb).
    + intros task_id Ht. rewrite Et in Ht. inversion Ht; subst task_id.
      unfold Inv.others. rewrite filter_app. cbn [filter].
      assert (M : TasksMore.mine user tid fb = true)
        by (apply mine_spec; rewrite Efb; now split).
      rewrite M. cbn. now rewrite app_nil_r.
Qed.

(** X23.  Once a feedback request on a task has succeeded, the scoring
    stage of the task recommendations no longer lists that task for the
    user. *)
Theorem submitted_task_leaves_scoring (all_tasks : list Task) (user : User)
    (store store' : list TasksMore.FeedbackDoc) (is_post is_json : bool)
    (data : TasksMore.Body) (fb : TasksMore.FeedbackDoc)
    (cos : vec -> vec -> Q) (sentence_model : option ML.SentenceModel)
    (db : DB) (t : Tasks.TaskRec) :
  TasksMore.submit_task_feedback all_tasks store user is_post is_json data
  = (TasksMore.Submitted fb, store') ->
  In t (Tasks.ml_tasks cos sentence_model
          (TasksMore.with_feedback db store') user) ->
  Tasks.tr_id t <> TasksMore.fd_task_id fb.
Proof.
  intros H Ht. apply ml_tasks_skip_feedback in Ht. destruct Ht as [Hf _].
  apply submit_then_lookup in H. destruct H as (_ & _ & Hu & _ & F & _).
  apply find_some in F. destruct F as [Hin _].
  intros E. rewrite E in Hf.
  assert (T : Tasks.has_feedback (TasksMore.with_feedback db store') user
                (TasksMore.fd_task_id fb) = true).
  { unfold Tasks.has_feedback, Tasks.user_feedback_history. cbn.
    apply existsb_exists. exists (TasksMore.core fb). split.
    - apply filter_In. split; [now apply in_map|].
      cbn. rewrite Hu. apply String.eqb_refl.
    - cbn. apply String.eqb_refl. }
  congruence.
Qed.

Lemma submitted_task_leaves_scoring_witness :
  Tasks.tr_id
    (nth 0 (Tasks.ml_tasks Fixtures.unit_cos (Some Fixtures.axis_model)
              (TasksMore.with_feedback Fixtures.db_tasks
                 (snd (TasksMore.submit_task_feedback
                         (tasks Fixtures.db_tasks) Cases.store_one
                         Fixtures.alice true true Cases.revise_t1)))
              Fixtures.alice)
         (Tasks.mk Fixtures.db_tasks Fixtures.alice None ""
            (Fixtures.task "t0" Beginner None)))
  <> "t1".
Proof.
  apply (submitted_task_leaves_scoring (tasks Fixtures.db_tasks)
           Fixtures.alice Cases.store_one
           (snd (TasksMore.submit_task_feedback
                   (tasks Fixtures.db_tasks) Cases.store_one
                   Fixtures.alice true true Cases.revise_t1))
           true true Cases.revise_t1
           {| TasksMore.fd_user := "u1"; TasksMore.fd_task_id := "t1";
              TasksMore.fd_helpful := false;
              TasksMore.fd_comment := "too hard";
              TasksMore.fd_difficulty_rating := Some 3 |}
           Fixtures.unit_cos (Some Fixtures.axis_model) Fixtures.db_tasks).
  - vm_compute. reflexivity.
  - vm_compute. left. reflexivity.
Defined.

(** ** Task categories *)

Lemma filter_and {A : Type} (a b : A -> bool) (l : list A) :
  filter (fun x => a x && b x) l = filter b (filter a l).
Proof.
  induction l as [|x l IH]; cbn; [reflexivity|].
  destruct (a x); cbn; [|exact IH].
  destruct (b x); now rewrite IH.
Qed.

Lemma category_tasks_active (db : DB) (c : string) :
  Tasks.category_tasks db c
  = filter (Inv.in_category c) (Inv.active_tasks db).
Proof.
  unfold Tasks.category_tasks, Tasks.Task_objects, Inv.active_tasks.
  exact (filter_and t_is_active (Inv.in_category c) (tasks db)).
Qed.

Lemma filter_or_length {A : Type} (p q : A -> bool) (l : list A) :
  (forall x, In x l -> p x = true -> q x = false) ->
  Tasks.len (filter (fun x => p x || q x) l)
  = Tasks.len (filter p l) + Tasks.len (filter q l).
Proof.
  intros H. unfold Tasks.len. rewrite <- Nat2Z.inj_add. f_equal.
  induction l as [|x l IH]; [reflexivity|].
  assert (IH' := IH (fun y Hy => H y (or_intror Hy))).
  cbn [filter]. destruct (p x) eqn:Px; cbn [orb].
  - rewrite (H x (or_introl eq_refl) Px). cbn [List.length]. lia.
  - destruct (q x); cbn [List.length]; lia.
Qed.

Lemma category_counts_total (db : DB) (ks : list (option string)) :
  NoDup ks ->
  Inv.total
    (flat_map
       (fun category =>
          match category with
          | Some ((String _ _) as c) =>
              [{| TasksMore.name := c;
                  TasksMore.count := Tasks.len (Tasks.category_tasks db c) |}]
          | _ => []
          end) ks)
  = Tasks.len (filter (Inv.in_some ks) (Inv.active_tasks db)).
Proof.
  unfold Inv.total.
  induction ks as [|k ks IH]; intros N.
  - cbn. unfold Tasks.len.
    induction (Inv.active_tasks db) as [|t l IHl]; cbn; [reflexivity|exact IHl].
  - apply NoDup_cons_iff in N. destruct N as [Hk Hks].
    specialize (IH Hks). cbn [flat_map].
    destruct k as [[|a c]|]; cbn [app map fold_right].
    + rewrite IH. reflexivity.
    + rewrite IH, category_tasks_active.
      change (Inv.in_some (Some (String a c) :: ks))
        with (fun t => Inv.in_category (String a c) t || Inv.in_some ks t).
      rewrite filter_or_length; [reflexivity|].
      intros t _ Hc. unfold Inv.in_some.
      destruct (existsb _ ks) eqn:Ex; [|reflexivity].
      exfalso. apply existsb_exists in Ex. destruct Ex as (k & Hin & Hk').
      destruct k as [[|a' c']|]; try discriminate.
      unfold Inv.in_category in Hc, Hk'.
      destruct (t_category t) as [c0|]; [|discriminate].
      apply String.eqb_eq in Hc, Hk'. subst c0. apply Hk.
      rewrite Hk'. exact Hin.
    + rewrite IH. reflexivity.
Qed.

(** X24.  The task categories are the distinct non-empty categories of the
    active tasks; each is listed with the number of its active tasks, which
    is at least one, and the counts add up to the number of active tasks
    that have a category. *)
Theorem task_categories_counts (db : DB) :
  let out := TasksMore.get_task_categories db in
  NoDup (map TasksMore.name out)
  /\ (forall c, In c out ->
        TasksMore.name c <> ""
        /\ 1 <= TasksMore.count c
        /\ TasksMore.count c
           = Tasks.len (filter (Inv.in_category (TasksMore.name c))
                               (Inv.active_tasks db)))
  /\ (forall t, In t (Inv.active_tasks db) -> Inv.categorised t = true ->
        exists c, In c out /\ t_category t = Some (TasksMore.name c))
  /\ Inv.total out
     = Tasks.len (filter Inv.categorised (Inv.active_tasks db)).
Proof.
  intros out. subst out. unfold TasksMore.get_task_categories.
  set (ks := TasksMore.distinct_categories db).
  assert (Nks : NoDup ks) by apply NoDup_nodup.
  assert (Hks : forall k, In k ks
                          <-> exists t, In t (Inv.active_tasks db)
                                        /\ t_category t = k).
  { intros k. unfold ks, TasksMore.distinct_categories.
    rewrite nodup_In, in_map_iff. unfold Inv.active_tasks.
    split; intros (t & A & B); exists t; auto. }
  assert (Hin : forall c,
             In c (flat_map
                     (fun category =>
                        match category with
                        | Some ((String _ _) as c) =>
                            [{| TasksMore.name := c;
                                TasksMore.count :=
                                  Tasks.len (Tasks.category_tasks db c) |}]
                        | _ => []
                        end) ks)
             <-> exists a s, In (Some (String a s)) ks
                             /\ c = {| TasksMore.name := String a s;
                                       TasksMore.count :=
                                         Tasks.len
                                           (Tasks.category_tasks db
                                              (String a s)) |}).
  { intros c. rewrite in_flat_map. split.
    - intros ([[|a s]|] & Hk & H); try destruct H.
      + exists a, s. split; [exact Hk|]. now symmetry.
      + destruct H.
    - intros (a & s & Hk & ->). exists (Some (String a s)).
      split; [exact Hk|now left]. }
  split; [|split; [|split]].
  - clear Hin Hks. induction ks as [|k ks IH]; cbn; [constructor|].
    apply NoDup_cons_iff in Nks. destruct Nks as [Hk Nks].
    destruct k as [[|a s]|]; cbn; try now apply IH.
    constructor; [|now apply IH].
    intros H. apply Hk. apply in_map_iff in H.
    destruct H as (c & E & Hc). apply in_flat_map in Hc.
    destruct Hc as ([[|a' s']|] & Hk' & H); try destruct H.
    + subst c. cbn in E. now rewrite <- E.
    + destruct H.
  - intros c Hc. apply Hin in Hc. destruct Hc as (a & s & Hk & ->). cbn.
    split; [discriminate|]. rewrite category_tasks_active.
    split; [|reflexivity].
    apply Hks in Hk. destruct Hk as (t & Ht & Ecat).
    assert (In t (filter (Inv.in_category (String a s)) (Inv.active_tasks db))).
    { apply filter_In. split; [exact Ht|].
      unfold Inv.in_category. rewrite Ecat. apply String.eqb_refl. }
    unfold Tasks.len.
    destruct (filter _ (Inv.active_tasks db)); [contradiction|cbn; lia].
  - intros t Ht Hc. unfold Inv.categorised in Hc.
    destruct (t_category t) as [[|a s]|] eqn:E; try discriminate.
    eexists. split.
    + apply Hin. exists a, s. split; [|reflexivity].
      apply Hks. now exists t.
    + reflexivity.
  - rewrite category_counts_total by exact Nks. f_equal.
    apply filter_ext_in. intros t Ht. unfold Inv.in_some, Inv.categorised.
    destruct (t_category t) as [[|a s]|] eqn:E.
    + apply not_true_is_false. intros Ex. apply existsb_exists in Ex.
      destruct Ex as ([[|a' s']|] & _ & H); try discriminate.
      unfold Inv.in_category in H. rewrite E in H. discriminate.
    + apply existsb_exists. exists (Some (String a s)). split.
      * apply Hks. now exists t.
      * unfold Inv.in_category. rewrite E. apply String.eqb_refl.
    + apply not_true_is_false. intros Ex. apply existsb_exists in Ex.
      destruct Ex as ([[|a' s']|] & _ & H); try discriminate.
      unfold Inv.in_category in H. rewrite E in H. discriminate.
Qed.

(** ** Recommendations from feedback *)

Lemma uniq_In (x : string) (l : list string) : In x (Str.uniq l) <-> In x l.
Proof.
  induction l as [|y l IH]; cbn; [tauto|].
  rewrite filter_In, IH, negb_true_iff, String.eqb_neq.
  destruct (string_dec y x) as [->|N]; [tauto|].
  split; [tauto|]. intros [H|H]; [tauto|]. right. split; [exact H|congruence].
Qed.

Lemma uniq_distinct (l : list string) : NoDup (Str.uniq l).
Proof.
  induction l as [|y l IH]; cbn; constructor.
  - rewrite filter_In, negb_true_iff, String.eqb_neq. tauto.
  - now apply NoDup_filter.
Qed.

Lemma limit_In {A : Type} (n : Z) (l : list A) (x : A) :
  In x (Mongo.limit n l) -> In x l.
Proof.
  destruct (limit_prefix n l) as [rest E]. intros H.
  rewrite E. apply in_or_app. now left.
Qed.

Lemma doc_ids_filter (p : MLMore.TaskDoc -> bool) (l : list MLMore.TaskDoc) :
  NoDup (map MLMore.id_of l) -> NoDup (map MLMore.id_of (filter p l)).
Proof.
  induction l as [|t l IH]; cbn; [trivial|].
  rewrite NoDup_cons_iff. intros [Ht Hl].
  destruct (p t); [cbn; constructor|]; auto.
  rewrite in_map_iff. intros (y & E & Hy).
  apply Ht. rewrite <- E. apply in_map. now apply filter_In in Hy.
Qed.

Lemma doc_ids_limit (n : Z) (l : list MLMore.TaskDoc) :
  NoDup (map MLMore.id_of l) -> NoDup (map MLMore.id_of (Mongo.limit n l)).
Proof.
  destruct (limit_prefix n l) as [rest E]. intros H.
  rewrite E, map_app in H. now apply NoDup_app_remove_r in H.
Qed.

Lemma slice_to_distinct (k : Z) (l : list string) :
  NoDup l -> NoDup (Py.slice_to k l).
Proof.
  destruct (slice_to_prefix k l) as [rest E]. intros H.
  rewrite E in H. now apply NoDup_app_remove_r in H.
Qed.

(** What a query that leaves out the rated tasks returns. *)
Lemma picked_fresh (q : MLMore.TaskDoc -> bool) (n : Z)
    (docs : list MLMore.TaskDoc) (done : list string) (id : string) :
  (forall d, q d = true ->
             MLMore.active d = true /\ Py.mem_str (MLMore.id_of d) done = false) ->
  In id (map MLMore.id_of (Mongo.limit n (filter q docs))) ->
  ~ In id done /\ MLInv.stored_active docs id.
Proof.
  intros Hq Hin. apply in_map_iff in Hin. destruct Hin as (d & <- & Hd).
  apply limit_In, filter_In in Hd. destruct Hd as [Hd Q].
  apply Hq in Q. destruct Q as [Ha Hm]. split.
  - intros H. apply mem_str_In in H. congruence.
  - now exists d.
Qed.

Lemma similar_to_ids cos (avg : vec) (l : list MLMore.TaskDoc)
    (sims : list (string * Q)) :
  MLMore.similar_to cos avg l = Some sims ->
  forall p, In p sims -> exists d, In d l /\ MLMore.id_of d = fst p.
Proof.
  revert sims. induction l as [|t l IH]; intros sims; cbn.
  - intros [= <-] p [].
  - destruct (t_embedding (MLMore.td_task t)) as [[|e0 e]|].
    + intros H p Hp. destruct (IH _ H p Hp) as (d & Hd & E). exists d. tauto.
    + destruct (ML.cosine_similarity cos avg (e0 :: e)) as [s|]; [|discriminate].
      destruct (MLMore.similar_to cos avg l) as [rest|]; [|discriminate].
      intros [= <-] p [<-|Hp].
      * exists t. cbn. tauto.
      * destruct (IH _ eq_refl p Hp) as (d & Hd & E). exists d. tauto.
    + intros H p Hp. destruct (IH _ H p Hp) as (d & Hd & E). exists d. tauto.
Qed.

Lemma fresh_and (b : bool) (done : list string) (d : MLMore.TaskDoc) :
  b && (MLMore.active d && negb (Py.mem_str (MLMore.id_of d) done)) = true ->
  MLMore.active d = true /\ Py.mem_str (MLMore.id_of d) done = false.
Proof.
  rewrite !andb_true_iff, negb_true_iff. tauto.
Qed.

Lemma fresh_with_history
    (order_categories order_tags : list string -> list string)
    (cos : vec -> vec -> Q) (sentence_model : option ML.SentenceModel)
    (docs : list MLMore.TaskDoc) (user_data : MLMore.UserData) :
  MLMore.ud_feedback_history user_data <> [] ->
  Z.of_nat (List.length
    (MLMore.recommend_tasks_based_on_feedback order_categories order_tags cos
       sentence_model docs user_data)) <= 8 /\
  forall id,
    In id (MLMore.recommend_tasks_based_on_feedback order_categories
             order_tags cos sentence_model docs user_data) ->
    ~ MLInv.rated (MLMore.ud_feedback_history user_data) id
    /\ MLInv.stored_active docs id.
Proof.
  intros Hne.
  unfold MLMore.recommend_tasks_based_on_feedback, MLInv.rated.
  destruct (truthy (MLMore.ud_feedback_history user_data)) eqn:T;
    [|destruct (MLMore.ud_feedback_history user_data); [contradiction|discriminate]].
  cbn [negb]. cbv zeta.
  split; [apply slice_to_length; lia|].
  intros id Hin. apply slice_to_In in Hin.
  set (done := map tf_task_id (MLMore.ud_feedback_history user_data)) in *.
  match type of Hin with context [Str.uniq ?R] => set (gathered := R) in * end.
  assert (HR : forall x, In x gathered ->
                 ~ In x done /\ MLInv.stored_active docs x).
  { clear Hin. intros x Hx. subst gathered.
    repeat (apply in_app_or in Hx; destruct Hx as [Hx|Hx]).
    - apply in_flat_map in Hx. destruct Hx as (c & _ & Hx).
      revert Hx. apply picked_fresh. intros d. apply fresh_and.
    - apply in_flat_map in Hx. destruct Hx as (c & _ & Hx).
      revert Hx. apply picked_fresh. intros d. apply fresh_and.
    - revert Hx. apply picked_fresh. intros d. apply fresh_and.
    - apply in_flat_map in Hx. destruct Hx as (i & _ & Hx).
      destruct (find _ MLMore.category_mapping) as [[k c]|]; [|destruct Hx].
      revert Hx. apply picked_fresh. intros d. apply fresh_and.
    - destruct sentence_model as [encode|]; [|destruct Hx].
      destruct (truthy (filter tf_helpful _)); [|destruct Hx].
      destruct (truthy (flat_map _ (Str.last_n 3 _))); [|destruct Hx].
      destruct (truthy (Mongo.limit 20 _)); [|destruct Hx].
      destruct (MLMore.similar_to _ _ _) as [sims|] eqn:S; [|destruct Hx].
      apply in_map_iff in Hx. destruct Hx as (p & <- & Hp).
      apply slice_to_In in Hp.
      apply (proj1 (sort_desc_In _ _ _)) in Hp.
      destruct (similar_to_ids _ _ _ _ S p Hp) as (d & Hd & <-).
      assert (Hid : In (MLMore.id_of d) (map MLMore.id_of (Mongo.limit 20
                 (filter (fun d => MLMore.active d
                                   && negb (Py.mem_str (MLMore.id_of d) done)
                                   && match t_embedding (MLMore.td_task d) with
                                      | Some _ => true
                                      | None => false
                                      end) docs))))
        by (apply in_map; exact Hd).
      revert Hid. apply picked_fresh.
      intros d'. rewrite !andb_true_iff, negb_true_iff. tauto. }
  destruct (_ <? 5).
  - apply in_app_or in Hin. destruct Hin as [Hin|Hin].
    + apply (proj1 (uniq_In _ _)) in Hin. now apply HR.
    + apply (picked_fresh _ _ _ (done ++ Str.uniq gathered)) in Hin.
      * destruct Hin as [N S]. split; [|exact S].
        intros H. apply N. apply in_or_app. now left.
      * intros d. rewrite !andb_true_iff, negb_true_iff. tauto.
  - apply (proj1 (uniq_In _ _)) in Hin. now apply HR.
Qed.

(** X25.  With feedback in the history, the recommender returns at most
    eight ids, and each of them is the id of a stored, active task on which
    the history has no feedback. *)
Theorem feedback_recommendations_fresh
    (order_categories order_tags : list string -> list string)
    (cos : vec -> vec -> Q) (sentence_model : option ML.SentenceModel)
    (docs : list MLMore.TaskDoc) (user_data : MLMore.UserData) :
  MLMore.ud_feedback_history user_data <> [] ->
  let out :=
    MLMore.recommend_tasks_based_on_feedback order_categories order_tags cos
      sentence_model docs user_data in
  Z.of_nat (List.length out) <= 8 /\
  forall id, In id out ->
    ~ MLInv.rated (MLMore.ud_feedback_history user_data) id
    /\ MLInv.stored_active docs id.
Proof.
  intros Hne out. subst out. now apply fresh_with_history.
Qed.

Lemma feedback_recommendations_fresh_witness :
  MLMore.ud_feedback_history Cases.liked_t1 <> [] /\
  (Z.of_nat (List.length
     (MLMore.recommend_tasks_based_on_feedback Cases.insertion_order
        Cases.insertion_order Fixtures.unit_cos (Some Fixtures.axis_model)
        Cases.docs_two Cases.liked_t1)) <= 8 /\
   forall id,
     In id (MLMore.recommend_tasks_based_on_feedback Cases.insertion_order
              Cases.insertion_order Fixtures.unit_cos
              (Some Fixtures.axis_model) Cases.docs_two Cases.liked_t1) ->
     ~ MLInv.rated (MLMore.ud_feedback_history Cases.liked_t1) id
     /\ MLInv.stored_active Cases.docs_two id).
Proof.
  split; [discriminate|].
  apply (feedback_recommendations_fresh Cases.insertion_order
           Cases.insertion_order Fixtures.unit_cos (Some Fixtures.axis_model)
           Cases.docs_two Cases.liked_t1).
  discriminate.
Defined.

Lemma partition_perm {A : Type} (p : A -> bool) (l : list A) :
  Permutation (filter p l ++ filter (fun x => negb (p x)) l) l.
Proof.
  induction l as [|x l IH]; cbn; [constructor|].
  destruct (p x); cbn.
  - now constructor.
  - rewrite <- Permutation_middle. now constructor.
Qed.

Lemma tagged_ids_distinct (f : string -> list (string * bool))
    (ids : list string) :
  (forall id, f id = [] \/ exists b, f id = [(id, b)]) ->
  NoDup ids -> NoDup (map fst (flat_map f ids)).
Proof.
  intros Hf.
  assert (Hsub : forall l id, In id (map fst (flat_map f l)) -> In id l).
  { induction l as [|x l IH]; cbn; [tauto|]. intros id.
    rewrite map_app, in_app_iff. intros [H|H]; [|right; now apply IH].
    destruct (Hf x) as [E|[b E]]; rewrite E in H; cbn in H; tauto. }
  induction ids as [|x l IH]; cbn; [constructor|].
  rewrite NoDup_cons_iff. intros [Hx Hl]. rewrite map_app.
  destruct (Hf x) as [E|[b E]]; rewrite E; cbn; [now apply IH|].
  constructor; [|now apply IH]. intros H. apply Hx. now apply Hsub.
Qed.

Lemma mock_distinct (docs : list MLMore.TaskDoc) (user_data : MLMore.UserData) :
  NoDup (map MLMore.id_of docs) ->
  NoDup (MLMore._generate_mock_task_recommendations docs user_data).
Proof.
  intros Hdocs. unfold MLMore._generate_mock_task_recommendations. cbv zeta.
  set (task_ids := map MLMore.id_of (Mongo.limit 10 _)).
  assert (Hids : NoDup task_ids)
    by (apply doc_ids_limit, doc_ids_filter, Hdocs).
  destruct (truthy (MLMore.ud_interests user_data) && truthy task_ids).
  - apply slice_to_distinct. rewrite <- map_app.
    eapply Permutation_NoDup.
    + apply Permutation_map. symmetry. apply partition_perm.
    + apply tagged_ids_distinct; [|exact Hids].
      intros id. destruct (MLMore.first_by_id docs id) as [task|]; [|now left].
      destruct (t_tags (MLMore.td_task task)) as [[|a s]|]; [now left| |now left].
      right. eexists. reflexivity.
  - destruct (truthy task_ids).
    + now apply slice_to_distinct.
    + repeat constructor; cbn; [|tauto]. intros [H|[]]. discriminate.
Qed.

(** X26.  When the stored tasks have distinct ids, the recommender never
    returns an id twice, with or without feedback in the history. *)
Theorem feedback_recommendations_distinct
    (order_categories order_tags : list string -> list string)
    (cos : vec -> vec -> Q) (sentence_model : option ML.SentenceModel)
    (docs : list MLMore.TaskDoc) (user_data : MLMore.UserData) :
  NoDup (map MLMore.id_of docs) ->
  NoDup (MLMore.recommend_tasks_based_on_feedback order_categories order_tags
           cos sentence_model docs user_data).
Proof.
  intros Hdocs. unfold MLMore.recommend_tasks_based_on_feedback.
  destruct (truthy (MLMore.ud_feedback_history user_data));
    cbn [negb]; [|now apply mock_distinct].
  cbv zeta. apply slice_to_distinct.
  match goal with |- context [Str.uniq ?R] => set (gathered := R) end.
  destruct (_ <? 5); [|apply uniq_distinct].
  apply NoDup_app; [apply uniq_distinct| |].
  - apply doc_ids_limit, doc_ids_filter, Hdocs.
  - intros id Hu Hf. apply in_map_iff in Hf. destruct Hf as (d & <- & Hd).
    apply limit_In, filter_In in Hd. destruct Hd as [_ Q].
    rewrite !andb_true_iff, negb_true_iff in Q. destruct Q as [_ M].
    apply not_true_iff_false in M. apply M, mem_str_In, in_or_app. now right.
Qed.

Lemma feedback_recommendations_distinct_witness :
  NoDup (map MLMore.id_of Cases.docs_two) /\
  NoDup (MLMore.recommend_tasks_based_on_feedback Cases.insertion_order
           Cases.insertion_order Fixtures.unit_cos (Some Fixtures.axis_model)
           Cases.docs_two Cases.liked_t1).
Proof.
  assert (H : NoDup (map MLMore.id_of Cases.docs_two)).
  { cbn. repeat constructor; cbn; [|tauto]. intros [H|[]]. discriminate. }
  split; [exact H|].
  apply (feedback_recommendations_distinct Cases.insertion_order
           Cases.insertion_order Fixtures.unit_cos (Some Fixtures.axis_model)
           Cases.docs_two Cases.liked_t1 H).
Defined.

(** ** Recommendations without feedback *)

Lemma mock_bounded (docs : list MLMore.TaskDoc) (user_data : MLMore.UserData) :
  Z.of_nat (List.length
    (MLMore._generate_mock_task_recommendations docs user_data)) <= 5.
Proof.
  unfold MLMore._generate_mock_task_recommendations. cbv zeta.
  destruct (_ && _); [apply slice_to_length; lia|].
  destruct (truthy _); [apply slice_to_length; lia|cbn; lia].
Qed.

(** The pairs the loop of lines 241-248 builds: the id of a task with
    tags, and whether the tags hold one of the interests. *)
Lemma mock_pairs (docs : list MLMore.TaskDoc) (interests ids : list string)
    (x : string * bool) :
  In x (flat_map
          (fun task_id =>
             match MLMore.first_by_id docs task_id with
             | Some task =>
                 match t_tags (MLMore.td_task task) with
                 | Some ((String _ _) as tags) =>
                     [(task_id,
                       existsb (fun interest =>
                                  Py.contains (Py.lower interest)
                                              (Py.lower tags))
                               interests)]
                 | _ => []
                 end
             | None => []
             end)
          ids) ->
  In (fst x) ids
  /\ MLInv.tagged docs (fst x) = true
  /\ snd x = MLInv.interest_match docs interests (fst x).
Proof.
  intros H. apply in_flat_map in H. destruct H as (id & Hid & H).
  unfold MLInv.tagged, MLInv.interest_match.
  destruct (MLMore.first_by_id docs id) as [task|] eqn:F; [|destruct H].
  destruct (t_tags (MLMore.td_task task)) as [[|a s]|] eqn:G;
    [destruct H| |destruct H].
  destruct H as [<-|[]]. cbn [fst snd]. rewrite F, G. tauto.
Qed.

(** X27.  Without feedback to learn from, the recommender returns at most
    five ids.  They are ids of the first ten active tasks that fit the
    skill level; when no task fits, the result is the fixed pair of ids. *)
Theorem mock_recommendations_shape (docs : list MLMore.TaskDoc)
    (user_data : MLMore.UserData) :
  let out := MLMore._generate_mock_task_recommendations docs user_data in
  Z.of_nat (List.length out) <= 5 /\
  (MLInv.qualifying docs user_data = [] ->
   out = ["python-variables"; "list-operations"]) /\
  (MLInv.qualifying docs user_data <> [] ->
   forall id, In id out ->
     exists d, In d (Mongo.limit 10 (MLInv.qualifying docs user_data))
               /\ MLMore.id_of d = id).
Proof.
  intros out. subst out. split; [apply mock_bounded|].
  unfold MLMore._generate_mock_task_recommendations, MLInv.qualifying.
  cbv zeta.
  set (q := filter _ docs).
  split.
  - intros ->. cbn. now rewrite andb_false_r.
  - intros Hq id Hin.
    assert (Hids : forall x, In x (map MLMore.id_of (Mongo.limit 10 q)) ->
                     exists d, In d (Mongo.limit 10 q) /\ MLMore.id_of d = x).
    { intros x Hx. apply in_map_iff in Hx. destruct Hx as (d & E & Hd).
      now exists d. }
    destruct (_ && _).
    + apply slice_to_In, in_app_or in Hin. apply Hids.
      destruct Hin as [Hin|Hin];
        apply in_map_iff in Hin; destruct Hin as (x & <- & Hx);
        apply filter_In in Hx; destruct Hx as [Hx _];
        now apply mock_pairs in Hx.
    + destruct (truthy (map MLMore.id_of (Mongo.limit 10 q))) eqn:T.
      * apply slice_to_In in Hin. now apply Hids.
      * exfalso. destruct q as [|d q']; [now apply Hq|].
        unfold Mongo.limit in T. cbn in T. discriminate.
Qed.

Lemma before_the_rest {A : Type} (p : A -> bool) (a b pre post : list A)
    (x : A) :
  Forall (fun y => p y = true) a -> Forall (fun y => p y = false) b ->
  pre ++ x :: post = a ++ b -> p x = true ->
  Forall (fun y => p y = true) pre.
Proof.
  intros Ha Hb. revert pre.
  induction Ha as [|y a Hy Ha IH]; intros pre E Hx.
  - cbn in E. rewrite Forall_forall in Hb.
    assert (In x b) by (rewrite <- E; apply in_or_app; right; now left).
    apply Hb in H. congruence.
  - destruct pre as [|z pre]; [constructor|].
    cbn in E. injection E as -> E. constructor; [exact Hy|].
    now apply IH.
Qed.

(** X28.  When the user data name interests and some task fits the skill
    level, the recommender returns only tasks that have tags, and a task
    whose tags hold an interest is never listed after one whose tags hold
    none. *)
Theorem mock_recommendations_interests_first (docs : list MLMore.TaskDoc)
    (user_data : MLMore.UserData) :
  MLMore.ud_interests user_data <> [] ->
  MLInv.qualifying docs user_data <> [] ->
  let out := MLMore._generate_mock_task_recommendations docs user_data in
  Forall (fun id => MLInv.tagged docs id = true) out /\
  forall pre id post,
    out = pre ++ id :: post ->
    MLInv.interest_match docs (MLMore.ud_interests user_data) id = true ->
    Forall (fun id' =>
              MLInv.interest_match docs (MLMore.ud_interests user_data) id'
              = true)
           pre.
Proof.
  intros Hi Hq out. subst out.
  unfold MLMore._generate_mock_task_recommendations, MLInv.qualifying in *.
  cbv zeta.
  set (q := filter _ docs) in *.
  assert (T : truthy (MLMore.ud_interests user_data)
              && truthy (map MLMore.id_of (Mongo.limit 10 q)) = true).
  { destruct (MLMore.ud_interests user_data); [contradiction|].
    destruct q as [|d q']; [contradiction|].
    unfold Mongo.limit. reflexivity. }
  rewrite T.
  set (sorted := flat_map _ (map MLMore.id_of (Mongo.limit 10 q))).
  assert (Hs : forall x, In x sorted ->
                 MLInv.tagged docs (fst x) = true
                 /\ snd x = MLInv.interest_match docs
                              (MLMore.ud_interests user_data) (fst x)).
  { intros x Hx. now apply mock_pairs in Hx. }
  clearbody sorted.
  destruct (slice_to_prefix 5
              (map fst (filter snd sorted)
               ++ map fst (filter (fun x => negb (snd x)) sorted)))
    as [rest E].
  split.
  - apply Forall_forall. intros id Hin. apply slice_to_In, in_app_or in Hin.
    destruct Hin as [Hin|Hin];
      apply in_map_iff in Hin; destruct Hin as (x & <- & Hx);
      apply filter_In in Hx; destruct Hx as [Hx _];
      now apply Hs in Hx.
  - intros pre id post Eo Hm.
    apply (before_the_rest _
             (map fst (filter snd sorted))
             (map fst (filter (fun x => negb (snd x)) sorted))
             pre (post ++ rest) id).
    + apply Forall_forall. intros y Hy.
      apply in_map_iff in Hy. destruct Hy as (x & <- & Hx).
      apply filter_In in Hx. destruct Hx as [Hx B].
      apply Hs in Hx. destruct Hx as [_ <-]. exact B.
    + apply Forall_forall. intros y Hy.
      apply in_map_iff in Hy. destruct Hy as (x & <- & Hx).
      apply filter_In in Hx. destruct Hx as [Hx B].
      apply Hs in Hx. destruct Hx as [_ <-]. now apply negb_true_iff.
    + rewrite E at 1. rewrite Eo, <- app_assoc. reflexivity.
    + exact Hm.
Qed.

Lemma mock_recommendations_interests_first_witness :
  MLMore.ud_interests Cases.liked_t1 <> [] /\
  MLInv.qualifying Cases.docs_two Cases.liked_t1 <> [] /\
  Forall (fun id => MLInv.tagged Cases.docs_two id = true)
         (MLMore._generate_mock_task_recommendations Cases.docs_two
            Cases.liked_t1) /\
  forall pre id post,
    MLMore._generate_mock_task_recommendations Cases.docs_two Cases.liked_t1
    = pre ++ id :: post ->
    MLInv.interest_match Cases.docs_two (MLMore.ud_interests Cases.liked_t1)
                         id = true ->
    Forall (fun id' =>
              MLInv.interest_match Cases.docs_two
                (MLMore.ud_interests Cases.liked_t1) id' = true)
           pre.
Proof.
  split; [discriminate|]. split; [discriminate|].
  apply (mock_recommendations_interests_first Cases.docs_two Cases.liked_t1);
    discriminate.
Defined.

(** ** The route of the recommendations *)

Lemma recommended_unrated
    (order_categories order_tags : list string -> list string)
    (cos : vec -> vec -> Q) (sentence_model : option ML.SentenceModel)
    (docs : list MLMore.TaskDoc) (user_data : MLMore.UserData) :
  Z.of_nat (List.length
    (MLMore.recommend_tasks_based_on_feedback order_categories order_tags cos
       sentence_model docs user_data)) <= 8 /\
  forall id,
    In id (MLMore.recommend_tasks_based_on_feedback order_categories
             order_tags cos sentence_model docs user_data) ->
    ~ MLInv.rated (MLMore.ud_feedback_history user_data) id.
Proof.
  destruct (MLMore.ud_feedback_history user_data) as [|f h] eqn:E.
  - unfold MLMore.recommend_tasks_based_on_feedback. rewrite E. cbn [truthy negb].
    split; [|intros id _ []].
    pose proof (mock_bounded docs user_data). lia.
  - rewrite <- E.
    destruct (fresh_with_history order_categories order_tags cos
                sentence_model docs user_data) as [B F].
    + rewrite E. discriminate.
    + split; [exact B|]. intros id Hin. now apply F.
Qed.

Lemma flat_map_short {A B : Type} (f : A -> list B) (l : list A) :
  (forall x, (List.length (f x) <= 1)%nat) ->
  (List.length (flat_map f l) <= List.length l)%nat.
Proof.
  intros Hf. induction l as [|x l IH]; cbn; [lia|].
  rewrite length_app. specialize (Hf x). lia.
Qed.

(** X29.  The route answers 403 exactly when the path names another user.
    Otherwise it lists at most eight task dicts; each shows a stored,
    active task on which the user has no feedback, so its [completed] flag
    is always false. *)
Theorem ml_recommendations_reply
    (order_categories order_tags : list string -> list string)
    (cos : vec -> vec -> Q) (sentence_model : option ML.SentenceModel)
    (store : MLMore.Store) (current_user : User) (user_id : string) :
  match MLMore.get_ml_recommendations order_categories order_tags cos
          sentence_model store current_user user_id with
  | MLMore.Denied403 => u_id current_user <> user_id
  | MLMore.Ok200 data =>
      u_id current_user = user_id
      /\ Z.of_nat (List.length data) <= 8
      /\ Forall (MLInv.listed_ok store current_user) data
  end.
Proof.
  unfold MLMore.get_ml_recommendations.
  destruct (String.eqb (u_id current_user) user_id) eqn:E; cbn [negb].
  2:{ now apply String.eqb_neq. }
  cbv zeta. fold (MLInv.feedback_of store current_user).
  set (user_data := {| MLMore.ud_skill_level := Some (u_skill_level current_user);
                       MLMore.ud_interests := u_interests current_user;
                       MLMore.ud_feedback_history :=
                         MLInv.feedback_of store current_user |}).
  destruct (recommended_unrated order_categories order_tags cos sentence_model
              (MLMore.st_tasks store) user_data) as [B F].
  split; [now apply String.eqb_eq|]. split.
  - etransitivity; [|exact B]. apply inj_le, flat_map_short.
    intros id. destruct (find _ _); cbn; lia.
  - apply Forall_forall. intros l Hl.
    apply in_flat_map in Hl. destruct Hl as (id & Hid & Hl).
    destruct (find _ (MLMore.st_tasks store)) as [task|] eqn:Ef; [|destruct Hl].
    destruct Hl as [<-|[]].
    apply find_some in Ef. destruct Ef as [Hin Hp].
    apply andb_true_iff in Hp. destruct Hp as [Hi Ha].
    apply String.eqb_eq in Hi. apply F in Hid. cbn in Hid.
    unfold MLInv.listed_ok. cbn [MLMore.ls_task MLMore.ls_completed].
    rewrite Hi. repeat split; try assumption.
    apply not_true_is_false. intros Ex. apply Hid.
    apply existsb_exists in Ex. destruct Ex as (f & Hf & Ef).
    apply String.eqb_eq in Ef. rewrite <- Ef. now apply in_map.
Qed.

(** ** Enough recommendations *)

Lemma doc_excluded_count (ids : list string) (l : list MLMore.TaskDoc) :
  NoDup (map MLMore.id_of l) ->
  (List.length (filter (fun d => Py.mem_str (MLMore.id_of d) ids) l)
   <= List.length ids)%nat.
Proof.
  intros H.
  rewrite <- (length_map MLMore.id_of (filter _ l)).
  apply NoDup_incl_length; [now apply doc_ids_filter|].
  intros id Hin. apply in_map_iff in Hin. destruct Hin as (d & <- & Hd).
  apply filter_In in Hd. now apply mem_str_In.
Qed.

Lemma slice_to_size {A : Type} (k : Z) (l : list A) :
  0 <= k ->
  List.length (Py.slice_to k l) = Nat.min (Z.to_nat k) (List.length l).
Proof.
  intros Hk. unfold Py.slice_to.
  destruct (k <? 0) eqn:E; [lia|]. apply length_firstn.
Qed.

Lemma limit_size {A : Type} (n : Z) (l : list A) :
  0 < n ->
  List.length (Mongo.limit n l) = Nat.min (Z.to_nat n) (List.length l).
Proof.
  intros Hn. unfold Mongo.limit.
  destruct (n =? 0) eqn:E; [lia|]. rewrite length_firstn. lia.
Qed.

(** X30.  When the history has feedback, the stored tasks have distinct
    ids and at least five active tasks of the user's level are without
    feedback, the recommender returns at least five ids. *)
Theorem feedback_recommendations_enough
    (order_categories order_tags : list string -> list string)
    (cos : vec -> vec -> Q) (sentence_model : option ML.SentenceModel)
    (docs : list MLMore.TaskDoc) (user_data : MLMore.UserData) :
  MLMore.ud_feedback_history user_data <> [] ->
  NoDup (map MLMore.id_of docs) ->
  5 <= Z.of_nat (List.length (MLInv.fresh_at_level docs user_data)) ->
  5 <= Z.of_nat (List.length
         (MLMore.recommend_tasks_based_on_feedback order_categories
            order_tags cos sentence_model docs user_data)).
Proof.
  intros Hne Hdocs Hfive.
  unfold MLMore.recommend_tasks_based_on_feedback.
  destruct (truthy (MLMore.ud_feedback_history user_data)) eqn:T;
    [|destruct (MLMore.ud_feedback_history user_data); [contradiction|discriminate]].
  cbn [negb]. cbv zeta.
  rewrite slice_to_size by lia.
  set (done := map tf_task_id (MLMore.ud_feedback_history user_data)) in *.
  match goal with |- context [Str.uniq ?R] => set (gathered := R) end.
  clearbody gathered.
  destruct (_ <? 5) eqn:L; [|apply Z.ltb_ge in L; lia].
  apply Z.ltb_lt in L.
  rewrite length_app, length_map, limit_size by lia.
  assert (E : filter (fun d =>
                        MLMore.active d
                        && opt_level_eqb (t_skill_level (MLMore.td_task d))
                                         (MLMore.skill_of user_data)
                        && negb (Py.mem_str (MLMore.id_of d)
                                   (done ++ Str.uniq gathered)))
                     docs
              = filter (fun d => negb (Py.mem_str (MLMore.id_of d)
                                         (Str.uniq gathered)))
                       (MLInv.fresh_at_level docs user_data)).
  { unfold MLInv.fresh_at_level. fold done. rewrite <- filter_and.
    apply filter_ext. intros d. unfold Py.mem_str at 1.
    rewrite existsb_app, negb_orb, andb_assoc. reflexivity. }
  rewrite E.
  pose proof (filter_split_length
                (fun d => Py.mem_str (MLMore.id_of d) (Str.uniq gathered))
                (MLInv.fresh_at_level docs user_data)) as S.
  pose proof (doc_excluded_count (Str.uniq gathered)
                (MLInv.fresh_at_level docs user_data)) as X.
  specialize (X (doc_ids_filter _ _ Hdocs)).
  lia.
Qed.

Lemma feedback_recommendations_enough_witness :
  MLMore.ud_feedback_history Cases.liked_t1 <> [] /\
  NoDup (map MLMore.id_of Cases.docs_six) /\
  5 <= Z.of_nat (List.length
                   (MLInv.fresh_at_level Cases.docs_six Cases.liked_t1)) /\
  5 <= Z.of_nat (List.length
         (MLMore.recommend_tasks_based_on_feedback Cases.insertion_order
            Cases.insertion_order Fixtures.unit_cos
            (Some Fixtures.axis_model) Cases.docs_six Cases.liked_t1)).
Proof.
  assert (H1 : MLMore.ud_feedback_history Cases.liked_t1 <> [])
    by discriminate.
  assert (H2 : NoDup (map MLMore.id_of Cases.docs_six))
    by (cbn; repeat constructor; cbn; intuition discriminate).
  assert (H3 : 5 <= Z.of_nat (List.length
                 (MLInv.fresh_at_level Cases.docs_six Cases.liked_t1)))
    by (vm_compute; discriminate).
  split; [exact H1|]. split; [exact H2|]. split; [exact H3|].
  apply (feedback_recommendations_enough Cases.insertion_order
           Cases.insertion_order Fixtures.unit_cos (Some Fixtures.axis_model)
           Cases.docs_six Cases.liked_t1 H1 H2 H3).
Defined.
